(** * ContextFlow (Web): the Express backend and the React front end

    A shallow embedding of [server/index.js] (the two route handlers
    [POST /api/explain] and [POST /api/chat]) and of the logic of the React
    module that exports [App] ([normalizeRect],
    [cropScreenshotFromScrollContainer], [buildContextBase],
    [askInColumn]), followed by the properties proved about them.

    Conventions of the embedding.
    - A JavaScript string is the list of its UTF-16 code units ([jsstring]).
    - A value that came out of [JSON.parse] is a [JSON] tree; [undefined] is
      [None] of [option JSON].
    - A number is the exact value it denotes, the rounding of IEEE doubles
      being outside the model: a pixel coordinate is a rational ([Q]), and
      the request counter, which starts at 0 and only ever grows by one, is
      a natural number ([N]; a double counts exactly up to [2^53]).
    - What the language engine fixes and the program does not (the text of
      [Number.prototype.toString], the messages of a [TypeError]) is the
      interface [Engine]. *)

From Stdlib Require Import List Bool Ascii String NArith ZArith Lia.
From Stdlib Require Import QArith Qminmax Qabs Qround Lqa.
Import ListNotations.

(* ===================================================================== *)
(** * The language runtime: strings, JSON values, coercions              *)
(* ===================================================================== *)

Module JS.

(** ** Strings *)

Definition jsstring := list N.

(** A source literal (ASCII only in this repository) as code units. *)
Definition js (s : string) : jsstring :=
  map N_of_ascii (list_ascii_of_string s).

Fixpoint str_eqb (a b : jsstring) : bool :=
  match a, b with
  | [], [] => true
  | x :: a', y :: b' => N.eqb x y && str_eqb a' b'
  | _, _ => false
  end.

(** [s.length > 0], which for a string is also its truthiness. *)
Definition nonempty (s : jsstring) : bool :=
  match s with [] => false | _ :: _ => true end.

(** [s.startsWith(p)] *)
Fixpoint startsWith (p s : jsstring) : bool :=
  match p, s with
  | [], _ => true
  | x :: p', y :: s' => N.eqb x y && startsWith p' s'
  | _ :: _, [] => false
  end.

(** ECMAScript WhiteSpace and LineTerminator code points, all of them in
    the basic plane: what [String.prototype.trim] strips. *)
Definition isTrimSpace (c : N) : bool :=
  ((9 <=? c) && (c <=? 13)          (* TAB LF VT FF CR *)
   || (c =? 32) || (c =? 160)       (* SP, NBSP *)
   || (c =? 5760)                   (* U+1680 *)
   || ((8192 <=? c) && (c <=? 8202))(* U+2000 .. U+200A *)
   || (c =? 8232) || (c =? 8233)    (* LS, PS *)
   || (c =? 8239) || (c =? 8287)    (* U+202F, U+205F *)
   || (c =? 12288) || (c =? 65279)  (* U+3000, BOM *)
  )%N.

Fixpoint trimStart (s : jsstring) : jsstring :=
  match s with
  | c :: s' => if isTrimSpace c then trimStart s' else s
  | [] => []
  end.

Definition trimEnd (s : jsstring) : jsstring := rev (trimStart (rev s)).

(** [s.trim()] *)
Definition trim (s : jsstring) : jsstring := trimEnd (trimStart s).

(** [a.slice(-n)] of an array or string: its last [n] elements, all of
    them when there are fewer. *)
Definition slice_last {A} (n : nat) (l : list A) : list A :=
  skipn (List.length l - n) l.

(** [s.slice(0, n)] *)
Definition slice_first {A} (n : nat) (l : list A) : list A := firstn n l.

(** [s.replace(/\\n/g, "\n")]: every backslash followed by [n]
    becomes one line feed, scanning left to right. *)
Fixpoint unescape_newlines (s : jsstring) : jsstring :=
  match s with
  | 92%N :: 110%N :: r => 10%N :: unescape_newlines r
  | c :: r => c :: unescape_newlines r
  | [] => []
  end.

(** Decimal digits of a non-negative integer, as a template literal
    prints it. *)
Fixpoint uint_digits (u : Decimal.uint) : jsstring :=
  match u with
  | Decimal.Nil => []
  | Decimal.D0 r => 48%N :: uint_digits r
  | Decimal.D1 r => 49%N :: uint_digits r
  | Decimal.D2 r => 50%N :: uint_digits r
  | Decimal.D3 r => 51%N :: uint_digits r
  | Decimal.D4 r => 52%N :: uint_digits r
  | Decimal.D5 r => 53%N :: uint_digits r
  | Decimal.D6 r => 54%N :: uint_digits r
  | Decimal.D7 r => 55%N :: uint_digits r
  | Decimal.D8 r => 56%N :: uint_digits r
  | Decimal.D9 r => 57%N :: uint_digits r
  end.

Definition N_toString (n : N) : jsstring := uint_digits (N.to_uint n).

(** ** JSON values *)

(** The number denoted by a JSON numeric literal, kept exact:
    [(-1)^neg * mant * 10^exp10]. *)
Record Decimal := { neg : bool; mant : N; exp10 : Z }.

#[warnings="-register-all"]
Inductive JSON :=
| JNull
| JBool (b : bool)
| JNumber (d : Decimal)
| JString (s : jsstring)
| JArray (items : list JSON)
| JObject (members : list (jsstring * JSON)).

(** Own properties of an object, in insertion order; a repeated key keeps
    its place and takes the new value, as [JSON.parse] does.  (The engine
    moves integer-like keys to the front; that reordering is not
    modelled.) *)
Fixpoint obj_set (ms : list (jsstring * JSON)) (k : jsstring) (v : JSON)
  : list (jsstring * JSON) :=
  match ms with
  | [] => [(k, v)]
  | (k', v') :: r => if str_eqb k' k then (k', v) :: r else (k', v') :: obj_set r k v
  end.

Fixpoint obj_get (ms : list (jsstring * JSON)) (k : jsstring) : option JSON :=
  match ms with
  | [] => None
  | (k', v) :: r => if str_eqb k' k then Some v else obj_get r k
  end.

(** [v.k] for one of the property names this program reads
    ([imageDataUrl], [instruction], [context], [question], [history],
    [role], [text], [answer], [error]): none of them exists on a prototype,
    so only an object's own members can supply it. *)
Definition getProp (v : JSON) (k : jsstring) : option JSON :=
  match v with
  | JObject ms => obj_get ms k
  | _ => None
  end.

(** A double is zero exactly when the real it rounds is at most [2^-1075]
    in magnitude. *)
Definition rounds_to_zero (d : Decimal) : bool :=
  (N.eqb (mant d) 0)
  || (match exp10 d with
      | Zneg e => (Z.of_N (mant d) * 2 ^ 1075 <=? 10 ^ Zpos e)%Z
      | _ => false
      end).

(** ToBoolean *)
Definition truthy (v : option JSON) : bool :=
  match v with
  | None => false
  | Some JNull => false
  | Some (JBool b) => b
  | Some (JNumber d) => negb (rounds_to_zero d)
  | Some (JString s) => nonempty s
  | Some (JArray _) => true
  | Some (JObject _) => true
  end.

(** [typeof v === "string"] *)
Definition isString (v : option JSON) : bool :=
  match v with Some (JString _) => true | _ => false end.

(** [a || b] where [b] is a string literal. *)
Definition orElse (v : option JSON) (dflt : jsstring) : JSON :=
  match v with
  | Some x => if truthy v then x else JString dflt
  | None => JString dflt
  end.

(** ** JSON.parse *)

Definition isJsonSpace (c : N) : bool :=
  ((c =? 32) || (c =? 9) || (c =? 10) || (c =? 13))%N.

Fixpoint skip_ws (s : jsstring) : jsstring :=
  match s with
  | c :: r => if isJsonSpace c then skip_ws r else s
  | [] => []
  end.

Definition digit_val (c : N) : option N :=
  if ((48 <=? c) && (c <=? 57))%N then Some (c - 48)%N else None.

Definition hex_val (c : N) : option N :=
  if ((48 <=? c) && (c <=? 57))%N then Some (c - 48)%N
  else if ((97 <=? c) && (c <=? 102))%N then Some (c - 87)%N
  else if ((65 <=? c) && (c <=? 70))%N then Some (c - 55)%N
  else None.

Definition hex4 (a b c d : N) : option N :=
  match hex_val a, hex_val b, hex_val c, hex_val d with
  | Some x, Some y, Some z, Some w => Some (((x * 16 + y) * 16 + z) * 16 + w)%N
  | _, _, _, _ => None
  end.

(** The character a one-letter escape stands for. *)
Definition escape_char (e : N) : option N :=
  (if (e =? 34) || (e =? 92) || (e =? 47) then Some e     (* quote, backslash, slash *)
   else if e =? 98 then Some 8                             (* b *)
   else if e =? 102 then Some 12                           (* f *)
   else if e =? 110 then Some 10                           (* n *)
   else if e =? 114 then Some 13                           (* r *)
   else if e =? 116 then Some 9                            (* t *)
   else None)%N.

Definition push {A B} (x : A) (r : option (list A * B)) : option (list A * B) :=
  match r with
  | Some (l, b) => Some (x :: l, b)
  | None => None
  end.

(** The characters of a string literal, after its opening quote, up to the
    closing one.  Control characters must be escaped. *)
Fixpoint parse_chars (s : jsstring) : option (jsstring * jsstring) :=
  match s with
  | [] => None
  | c :: r =>
      if (c =? 34)%N then Some ([], r)
      else if (c =? 92)%N then
        match r with
        | [] => None
        | e :: r1 =>
            if (e =? 117)%N then
              match r1 with
              | h1 :: h2 :: h3 :: h4 :: r2 =>
                  match hex4 h1 h2 h3 h4 with
                  | Some u => push u (parse_chars r2)
                  | None => None
                  end
              | _ => None
              end
            else
              match escape_char e with
              | Some x => push x (parse_chars r1)
              | None => None
              end
        end
      else if (c <? 32)%N then None
      else push c (parse_chars r)
  end.

Fixpoint take_digits (s : jsstring) : list N * jsstring :=
  match s with
  | c :: r =>
      match digit_val c with
      | Some d => let (ds, r') := take_digits r in (d :: ds, r')
      | None => ([], s)
      end
  | [] => ([], [])
  end.

Definition digits_value (ds : list N) : N :=
  fold_left (fun a d => 10 * a + d)%N ds 0%N.

(** A numeric literal: an optional minus, an integer part without
    leading zeros, an optional fraction, an optional exponent. *)
Definition parse_number (s : jsstring) : option (Decimal * jsstring) :=
  let (ng, s1) := match s with
                  | c :: r => if (c =? 45)%N then (true, r) else (false, s)
                  | [] => (false, s)
                  end in
  let (ip, s2) := match s1 with
                  | c :: r => if (c =? 48)%N then ([0%N], r) else take_digits s1
                  | [] => ([], s1)
                  end in
  match ip with
  | [] => None
  | _ :: _ =>
      let frac := match s2 with
                  | c :: r =>
                      if (c =? 46)%N then
                        let (fd, s3) := take_digits r in
                        match fd with [] => None | _ :: _ => Some (fd, s3) end
                      else Some ([], s2)
                  | [] => Some ([], s2)
                  end in
      match frac with
      | None => None
      | Some (fd, s3) =>
          let expo := match s3 with
                      | c :: r =>
                          if ((c =? 101) || (c =? 69))%N then
                            let (eneg, r1) :=
                              match r with
                              | sg :: r' =>
                                  if (sg =? 45)%N then (true, r')
                                  else if (sg =? 43)%N then (false, r')
                                  else (false, r)
                              | [] => (false, r)
                              end in
                            let (ed, s4) := take_digits r1 in
                            match ed with
                            | [] => None
                            | _ :: _ =>
                                let e := Z.of_N (digits_value ed) in
                                Some ((if eneg then - e else e)%Z, s4)
                            end
                          else Some (0%Z, s3)
                      | [] => Some (0%Z, s3)
                      end in
          match expo with
          | None => None
          | Some (e, s4) =>
              Some ({| neg := ng;
                       mant := digits_value (ip ++ fd);
                       exp10 := (e - Z.of_nat (List.length fd))%Z |}, s4)
          end
      end
  end.

(** One JSON value at the head of [s], leading white space allowed.  The
    parsers of array elements and object members are arguments, so that the
    recursion can be tied with fuel below. *)
Definition value_step
    (elements : jsstring -> option (list JSON * jsstring))
    (members : jsstring -> option (list (jsstring * JSON) * jsstring))
    (s : jsstring) : option (JSON * jsstring) :=
  match skip_ws s with
  | [] => None
  | c :: r =>
      if (c =? 34)%N then
        match parse_chars r with
        | Some (str, r') => Some (JString str, r')
        | None => None
        end
      else if (c =? 91)%N then
        match skip_ws r with
        | c' :: r' =>
            if (c' =? 93)%N then Some (JArray [], r')
            else match elements r with
                 | Some (vs, r'') => Some (JArray vs, r'')
                 | None => None
                 end
        | [] => None
        end
      else if (c =? 123)%N then
        match skip_ws r with
        | c' :: r' =>
            if (c' =? 125)%N then Some (JObject [], r')
            else match members r with
                 | Some (ms, r'') => Some (JObject ms, r'')
                 | None => None
                 end
        | [] => None
        end
      else if startsWith (js "null") (c :: r) then Some (JNull, skipn 4 (c :: r))
      else if startsWith (js "true") (c :: r) then Some (JBool true, skipn 4 (c :: r))
      else if startsWith (js "false") (c :: r) then Some (JBool false, skipn 5 (c :: r))
      else match parse_number (c :: r) with
           | Some (d, r') => Some (JNumber d, r')
           | None => None
           end
  end.

(** The elements of an array after its opening bracket, up to the closing
    one: a value, then a comma and more elements, or the bracket. *)
Definition elements_step
    (value : jsstring -> option (JSON * jsstring))
    (elements : jsstring -> option (list JSON * jsstring))
    (s : jsstring) : option (list JSON * jsstring) :=
  match value s with
  | Some (v, r) =>
      match skip_ws r with
      | c :: r' =>
          if (c =? 44)%N then push v (elements r')
          else if (c =? 93)%N then Some ([v], r')
          else None
      | [] => None
      end
  | None => None
  end.

(** The members of an object after its opening brace, up to the closing
    one, added to those already read. *)
Definition members_step
    (value : jsstring -> option (JSON * jsstring))
    (members : jsstring -> list (jsstring * JSON)
               -> option (list (jsstring * JSON) * jsstring))
    (s : jsstring) (acc : list (jsstring * JSON))
  : option (list (jsstring * JSON) * jsstring) :=
  match skip_ws s with
  | c :: r =>
      if (c =? 34)%N then
        match parse_chars r with
        | Some (k, r1) =>
            match skip_ws r1 with
            | c1 :: r2 =>
                if (c1 =? 58)%N then
                  match value r2 with
                  | Some (v, r3) =>
                      match skip_ws r3 with
                      | c3 :: r4 =>
                          if (c3 =? 44)%N then members r4 (obj_set acc k v)
                          else if (c3 =? 125)%N then Some (obj_set acc k v, r4)
                          else None
                      | [] => None
                      end
                  | None => None
                  end
                else None
            | [] => None
            end
        | None => None
        end
      else None
  | [] => None
  end.

Fixpoint parse_value (fuel : nat) (s : jsstring) {struct fuel}
  : option (JSON * jsstring) :=
  match fuel with
  | O => None
  | S f => value_step (parse_elements f) (fun r => parse_members f r []) s
  end

with parse_elements (fuel : nat) (s : jsstring) {struct fuel}
  : option (list JSON * jsstring) :=
  match fuel with
  | O => None
  | S f => elements_step (parse_value f) (parse_elements f) s
  end

with parse_members (fuel : nat) (s : jsstring) (acc : list (jsstring * JSON))
  {struct fuel} : option (list (jsstring * JSON) * jsstring) :=
  match fuel with
  | O => None
  | S f => members_step (parse_value f) (parse_members f) s acc
  end.

(** Fuel that the recursion cannot use up on [text]: see
    [Parsing.parse_value_fuel]. *)
Definition enough_fuel (text : jsstring) : nat := 2 * List.length text + 2.

(** [JSON.parse(text)]: one value and nothing but white space after it;
    [None] is the [SyntaxError]. *)
Definition JSON_parse (text : jsstring) : option JSON :=
  match parse_value (enough_fuel text) text with
  | Some (v, r) => match skip_ws r with [] => Some v | _ :: _ => None end
  | None => None
  end.

(** ** What the engine decides *)

(** The places where this program can raise a [TypeError]; the text of
    the error is the engine's. *)
Inductive TypeErrorSite :=
| NotCallable (method : jsstring)   (* x.method is not a function *)
| NotPrimitive                      (* cannot convert object to primitive value *)
| NullProperty (name : jsstring).   (* cannot read property name of null *)

Class Engine := {
  number_toString : Decimal -> jsstring;
  typeError_message : TypeErrorSite -> jsstring
}.

Fixpoint join (sep : jsstring) (parts : list jsstring) : jsstring :=
  match parts with
  | [] => []
  | [p] => p
  | p :: r => p ++ sep ++ join sep r
  end.

Section Coercions.
Context {engine : Engine}.

(** ToString of a value that came from JSON.  An object answers
    ["[object Object]"] through [Object.prototype.toString] unless it has an
    own member [toString], which cannot be a function: then no conversion
    exists and a [TypeError] is thrown ([None]).  An array joins its
    elements with commas, [null] elements printing as nothing. *)
Fixpoint ToString (v : JSON) : option jsstring :=
  match v with
  | JNull => Some (js "null")
  | JBool true => Some (js "true")
  | JBool false => Some (js "false")
  | JNumber d => Some (number_toString d)
  | JString s => Some s
  | JArray items =>
      let fix elems (l : list JSON) : option (list jsstring) :=
        match l with
        | [] => Some []
        | x :: r =>
            match (match x with JNull => Some [] | _ => ToString x end) with
            | Some s => match elems r with
                        | Some ss => Some (s :: ss)
                        | None => None
                        end
            | None => None
            end
        end in
      match elems items with
      | Some ss => Some (join (js ",") ss)
      | None => None
      end
  | JObject ms =>
      match obj_get ms (js "toString") with
      | Some _ => None
      | None => Some (js "[object Object]")
      end
  end.

(** The [TypeError] of [x.toString()] where [ToString x] is [None].  The
    method call gives the string that [String(x)] gives, and fails where it
    fails, but not in the same way: a member [toString] of [x] itself is
    what gets called, and it is no function; inside an array
    [Array.prototype.toString] converts the elements, and an element with
    such a member has no primitive value. *)
Definition toString_error (x : JSON) : TypeErrorSite :=
  match x with
  | JObject _ => NotCallable (js "toString")
  | _ => NotPrimitive
  end.

End Coercions.

End JS.

(* ===================================================================== *)
(** * server/index.js                                                    *)
(* ===================================================================== *)

Module Server.
Import JS.

Definition nl : jsstring := [10%N].

(** ** The request sent to the model API ([client.responses.create]) *)

Inductive Role := User | Assistant.

Inductive ContentPart :=
| InputText (text : jsstring)
| InputImage (image_url : jsstring).

Inductive Content :=
| Plain (text : jsstring)
| Parts (parts : list ContentPart).

Record Message := { role : Role; content : Content }.

(** The fragment of JSON Schema the two [text.format] schemas use. *)
#[warnings="-register-all"]
Inductive Schema :=
| SString
| SNumber
| SArray (items : Schema)
| SObject (properties : list (jsstring * Schema)) (required : list jsstring)
          (additionalProperties : bool).

Record ModelRequest := {
  model : jsstring;
  instructions : option jsstring;
  input : list Message;
  format_name : jsstring;
  format_schema : Schema
}.

(** What [await client.responses.create(...)] gives back: a response with
    its [output_text], or a thrown error with its [message] if it has one. *)
Inductive ModelOutcome :=
| Returned (output_text : jsstring)
| Rejected (message : option jsstring).

Record Response := { status : N; body : JSON }.

(** A route handler answers at once, or issues its one call to the model
    API and answers from the outcome. *)
Inductive Handler :=
| Respond (r : Response)
| CallModel (rq : ModelRequest) (k : ModelOutcome -> Response).

(** [res.status(code).json({ error: msg })] *)
Definition error_response (code : N) (msg : jsstring) : Response :=
  {| status := code; body := JObject [(js "error", JString msg)] |}.

(** The outer [catch]: [error?.message || "Internal server error"]. *)
Definition internal_error (message : option jsstring) : Response :=
  error_response 500
    (match message with
     | Some m => if nonempty m then m else js "Internal server error"
     | None => js "Internal server error"
     end).

(** [JSON.parse(response.output_text)] and the two ways out of it. *)
Definition relay (jsonText : jsstring) : Response :=
  match JSON_parse jsonText with
  | None =>
      {| status := 502;
         body := JObject [(js "error", JString (js "Model did not return valid JSON"));
                          (js "raw", JString jsonText)] |}
  | Some parsed => {| status := 200; body := parsed |}
  end.

Definition after_call (o : ModelOutcome) : Response :=
  match o with
  | Returned jsonText => relay jsonText
  | Rejected message => internal_error message
  end.

(** [req.body || {}] *)
Definition body_or_empty (body : option JSON) : JSON :=
  match body with
  | Some b => if truthy body then b else JObject []
  | None => JObject []
  end.

(** The string held by a value already known to be one. *)
Definition asString (v : option JSON) : jsstring :=
  match v with Some (JString s) => s | _ => [] end.

(** ** POST /api/explain *)

Definition explain_systemPrompt : jsstring :=
  js "You are an intelligent screen analysis assistant." ++ nl ++ nl ++
  js "Your task:" ++ nl ++
  js "1. Identify what type of task or domain the screenshot represents." ++ nl ++
  js "2. Provide a clear and useful explanation." ++ nl ++
  js "3. If information is insufficient, provide at most 3 essential follow-up questions." ++ nl ++ nl ++
  js "Category must be one of:" ++ nl ++
  js "[math, code, writing, translation, finance, science, general]" ++ nl ++ nl ++
  js "Output must strictly follow the JSON schema.".

Definition ScreenAssistResponse : Schema :=
  SObject [(js "category", SString);
           (js "confidence", SNumber);
           (js "summary", SString);
           (js "followups", SArray SString)]
          [js "category"; js "confidence"; js "summary"; js "followups"]
          false.

Definition extraInstruction (userInstruction : jsstring) : jsstring :=
  if nonempty userInstruction
  then nl ++ nl ++ js "Additional user instruction:" ++ nl ++ userInstruction
  else [].

Section Handlers.
Context {engine : Engine}.

(** [(instruction || "").toString().trim()]; [None] when [toString] throws,
    with the error [toString_error (orElse instruction [])]. *)
Definition userInstruction_of (instruction : option JSON) : option jsstring :=
  match ToString (orElse instruction []) with
  | Some s => Some (trim s)
  | None => None
  end.

Definition explain (reqBody : option JSON) : Handler :=
  let b := body_or_empty reqBody in
  let imageDataUrl := getProp b (js "imageDataUrl") in
  let instruction := getProp b (js "instruction") in
  if negb (truthy imageDataUrl) || negb (isString imageDataUrl) then
    Respond (error_response 400 (js "imageDataUrl is required"))
  else if negb (startsWith (js "data:image/") (asString imageDataUrl)) then
    Respond (error_response 400
      (js "imageDataUrl must be a valid base64 data URL (e.g. data:image/png;base64,...)"))
  else
    match userInstruction_of instruction with
    | None =>
        Respond (internal_error
                   (Some (typeError_message (toString_error (orElse instruction [])))))
    | Some userInstruction =>
        CallModel
          {| model := js "gpt-4.1-mini";
             instructions := None;
             input := [ {| role := User;
                           content := Parts
                             [ InputText (explain_systemPrompt ++ extraInstruction userInstruction);
                               InputImage (asString imageDataUrl) ] |} ];
             format_name := js "ScreenAssistResponse";
             format_schema := ScreenAssistResponse |}
          after_call
    end.

(** ** POST /api/chat *)

Definition chat_systemPrompt (context : jsstring) : jsstring :=
  js "You are a helpful general-purpose assistant." ++ nl ++ nl ++
  js "You will receive:" ++ nl ++
  js "- Recognized material from a screenshot" ++ nl ++
  js "- Conversation history" ++ nl ++ nl ++
  js "Requirements:" ++ nl ++
  js "- Maintain conversational continuity." ++ nl ++
  js "- Build upon previous answers instead of restarting." ++ nl ++
  js "- Use the screenshot material when relevant." ++ nl ++
  js "- If the user's question is unrelated to the screenshot, answer it normally as a general assistant." ++ nl ++
  js "- If information is insufficient, say what is missing and provide at most 2 follow-up questions." ++ nl ++ nl ++
  js "[Screenshot Material]" ++ nl ++ context ++ nl.

Definition ChatResponse : Schema :=
  SObject [(js "answer", SString); (js "followups", SArray SString)]
          [js "answer"; js "followups"]
          false.

(** [Array.isArray(history) ? history : []] *)
Definition safeHistory (history : option JSON) : list JSON :=
  match history with
  | Some (JArray l) => l
  | _ => []
  end.

(** [m?.role === "assistant" ? "assistant" : "user"] *)
Definition turn_role (m : JSON) : Role :=
  match getProp m (js "role") with
  | Some (JString s) => if str_eqb s (js "assistant") then Assistant else User
  | _ => User
  end.

(** [String(m?.text || "")]; [None] when the conversion throws. *)
Definition turn_content (m : JSON) : option jsstring :=
  ToString (orElse (getProp m (js "text")) []).

Definition turn (m : JSON) : option Message :=
  match turn_content m with
  | Some s => Some {| role := turn_role m; content := Plain s |}
  | None => None
  end.

(** [Array.prototype.map] with a callback that may throw: the first
    exception ends the loop. *)
Fixpoint map_throwing {A B} (f : A -> option B) (l : list A) : option (list B) :=
  match l with
  | [] => Some []
  | x :: r =>
      match f x with
      | Some y => match map_throwing f r with
                  | Some ys => Some (y :: ys)
                  | None => None
                  end
      | None => None
      end
  end.

(** [safeHistory.slice(-30).map(...)] *)
Definition turns_of (history : option JSON) : option (list Message) :=
  map_throwing turn (slice_last 30 (safeHistory history)).

Definition chat (reqBody : option JSON) : Handler :=
  let b := body_or_empty reqBody in
  let context := getProp b (js "context") in
  let question := getProp b (js "question") in
  let history := getProp b (js "history") in
  if negb (truthy context) || negb (isString context) then
    Respond (error_response 400 (js "context is required"))
  else if negb (truthy question) || negb (isString question) then
    Respond (error_response 400 (js "question is required"))
  else
    match turns_of history with
    | None => Respond (internal_error (Some (typeError_message NotPrimitive)))
    | Some turns =>
        CallModel
          {| model := js "gpt-4.1-mini";
             instructions := Some (chat_systemPrompt (asString context));
             input := turns ++ [ {| role := User; content := Plain (asString question) |} ];
             format_name := js "ChatResponse";
             format_schema := ChatResponse |}
          after_call
    end.

End Handlers.

(** ** Conformance of a JSON value to a schema *)

Fixpoint schema_get (props : list (jsstring * Schema)) (k : jsstring) : option Schema :=
  match props with
  | [] => None
  | (k', s) :: r => if str_eqb k' k then Some s else schema_get r k
  end.

Definition has_key (ms : list (jsstring * JSON)) (k : jsstring) : bool :=
  match obj_get ms k with Some _ => true | None => false end.

Fixpoint conforms (sc : Schema) (v : JSON) {struct v} : bool :=
  match sc, v with
  | SString, JString _ => true
  | SNumber, JNumber _ => true
  | SArray it, JArray l => forallb (conforms it) l
  | SObject props req addl, JObject ms =>
      forallb (has_key ms) req
      && forallb (fun kv => match schema_get props (fst kv) with
                            | Some s => conforms s (snd kv)
                            | None => addl
                            end) ms
  | _, _ => false
  end.

End Server.

(* ===================================================================== *)
(** * The React module of [App]                                          *)
(* ===================================================================== *)

Module App.
Import JS.

(** ** Selection geometry *)

Record Point := { px : Q; py : Q }.

Record Rect := { x : Q; y : Q; w : Q; h : Q }.

Definition normalizeRect (a b : Point) : Rect :=
  {| x := Qmin (px a) (px b);
     y := Qmin (py a) (py b);
     w := Qabs (px a - px b);
     h := Qabs (py a - py b) |}.

(** Two rectangles denote the same numbers. *)
Definition Rect_eq (r1 r2 : Rect) : Prop :=
  x r1 == x r2 /\ y r1 == y r2 /\ w r1 == w r2 /\ h r1 == h r2.

(** ** Screenshot cropping *)

(** What the function reads from the scroll container [el]. *)
Record ScrollContainer := {
  scrollLeft : Q;
  scrollTop : Q;
  clientWidth : Q;
  clientHeight : Q
}.

(** What the function gets from the browser: [window.devicePixelRatio],
    whether [html2canvas] resolves (or else the message of what it threw),
    and whether [getContext("2d")] yields a context. *)
Record Browser := {
  devicePixelRatio : Q;
  html2canvas_failure : option (option jsstring);
  context2d : bool
}.

(** The options of the call [html2canvas(el, {...})] that captures the
    visible viewport. *)
Record CaptureOptions := {
  backgroundColor : option jsstring;
  scale : Q;
  useCORS : bool;
  width : Q;
  height : Q;
  capture_x : Q;
  capture_y : Q;
  scrollX : Q;
  scrollY : Q
}.

(** The call [ctx.drawImage(canvas, sx, sy, sw, sh, 0, 0, out.width,
    out.height)] on the captured viewport [canvas]. *)
Record DrawImage := {
  sx : Q; sy : Q; sw : Q; sh : Q;
  out_width : Z; out_height : Z
}.

(** The promise rejects with an error, or resolves to the PNG data URL of
    the canvas that [drawImage] painted from the capture. *)
Inductive CropResult :=
| Threw (message : option jsstring)
| DataURL (capture : CaptureOptions) (d : DrawImage).

Definition outside_message : jsstring :=
  js "Selection is outside the visible area. Scroll to the region and try again.".

(** [window.devicePixelRatio || 1] *)
Definition dpr_of (b : Browser) : Q :=
  if Qeq_bool (devicePixelRatio b) 0 then 1 else devicePixelRatio b.

Definition html2canvas_options (b : Browser) (el : ScrollContainer) : CaptureOptions :=
  {| backgroundColor := None;
     scale := dpr_of b;
     useCORS := true;
     width := clientWidth el;
     height := clientHeight el;
     capture_x := 0;
     capture_y := 0;
     scrollX := 0;
     scrollY := 0 |}.

Definition outside (el : ScrollContainer) (rect : Rect) : bool :=
  let vx := x rect - scrollLeft el in
  let vy := y rect - scrollTop el in
  negb (Qle_bool 0 (vx + w rect))
  || negb (Qle_bool 0 (vy + h rect))
  || negb (Qle_bool vx (clientWidth el))
  || negb (Qle_bool vy (clientHeight el)).

Definition cropScreenshotFromScrollContainer
    (b : Browser) (el : ScrollContainer) (rect : Rect) : CropResult :=
  match html2canvas_failure b with
  | Some thrown => Threw thrown
  | None =>
      let dpr := dpr_of b in
      let vx := x rect - scrollLeft el in
      let vy := y rect - scrollTop el in
      if outside el rect then Threw (Some outside_message)
      else
        let sx := Qmax 0 vx * dpr in
        let sy := Qmax 0 vy * dpr in
        let sw := Qmin (w rect) (clientWidth el - vx) * dpr in
        let sh := Qmin (h rect) (clientHeight el - vy) * dpr in
        let out_width := Z.max 1 (Qfloor sw) in
        let out_height := Z.max 1 (Qfloor sh) in
        if negb (context2d b) then Threw (Some (js "Canvas context not available"))
        else DataURL (html2canvas_options b el)
                     {| sx := sx; sy := sy; sw := sw; sh := sh;
                        out_width := out_width; out_height := out_height |}
  end.

(** Vocabulary for the statements about cropping. *)

(** The offsets of the selection inside the visible part of [el]. *)
Definition vx (el : ScrollContainer) (rect : Rect) : Q := x rect - scrollLeft el.
Definition vy (el : ScrollContainer) (rect : Rect) : Q := y rect - scrollTop el.

(** The selection lies fully inside the visible viewport. *)
Definition inside (el : ScrollContainer) (rect : Rect) : Prop :=
  0 <= vx el rect /\ 0 <= vy el rect /\
  vx el rect + w rect <= clientWidth el /\
  vy el rect + h rect <= clientHeight el.

(** The condition of the [throw] in the source, as a proposition. *)
Definition outside_cond (el : ScrollContainer) (rect : Rect) : Prop :=
  vx el rect + w rect < 0 \/ vy el rect + h rect < 0 \/
  clientWidth el < vx el rect \/ clientHeight el < vy el rect.

(** ** Perspective columns and their chats *)

Inductive Role := user | assistant.

Record ChatMsg := { role : Role; text : jsstring }.

Record Column := {
  id : jsstring;
  title : jsstring;
  contextBase : jsstring;
  chat : list ChatMsg;
  input : jsstring;
  loading : bool
}.

(** The state [askInColumn] reads and writes: the [columns] and [error]
    state variables and the [reqSeqRef] counter. *)
Record AppState := {
  columns : list Column;
  reqSeq : N;
  error : jsstring
}.

Definition setColumns (f : list Column -> list Column) (st : AppState) : AppState :=
  {| columns := f (columns st); reqSeq := reqSeq st; error := error st |}.

Definition setError (e : jsstring) (st : AppState) : AppState :=
  {| columns := columns st; reqSeq := reqSeq st; error := e |}.

(** [++reqSeqRef.current] *)
Definition bumpReqSeq (st : AppState) : AppState :=
  {| columns := columns st; reqSeq := (reqSeq st + 1)%N; error := error st |}.

(** [prev.map((c) => (c.id === colId ? g(c) : c))] *)
Definition inColumn (colId : jsstring) (g : Column -> Column) (prev : list Column)
  : list Column :=
  map (fun c => if str_eqb (id c) colId then g c else c) prev.

Definition optimistic (q : jsstring) (c : Column) : Column :=
  {| id := id c; title := title c; contextBase := contextBase c;
     chat := chat c ++ [ {| role := user; text := q |} ];
     input := []; loading := true |}.

Definition stopLoading (c : Column) : Column :=
  {| id := id c; title := title c; contextBase := contextBase c;
     chat := chat c; input := input c; loading := false |}.

Definition answered (cleaned : jsstring) (c : Column) : Column :=
  {| id := id c; title := title c; contextBase := contextBase c;
     chat := chat c ++ [ {| role := assistant; text := cleaned |} ];
     input := input c; loading := false |}.

(** The analysis of the screenshot, as [/api/explain] returned it. *)
Record ApiResult := {
  category : jsstring;
  confidence : Q;
  summary : jsstring;
  followups : option (list jsstring)
}.

(** [l.map((s, i) => `${i + 1}. ${s}`)], counting from [i]. *)
Fixpoint numbered (i : N) (l : list jsstring) : list jsstring :=
  match l with
  | [] => []
  | s :: r => (N_toString (i + 1) ++ js ". " ++ s) :: numbered (i + 1) r
  end.

Definition buildContextBase (result : ApiResult)
    (perspectiveTitle perspectiveInstruction : jsstring) : jsstring :=
  join [10%N]
    [ js "You are assisting with a selected screenshot region from a PDF.";
      js "Perspective: " ++ perspectiveTitle;
      js "Perspective instruction: " ++ perspectiveInstruction;
      [];
      js "Recognition Summary:";
      summary result;
      [];
      js "Candidate Follow-ups:";
      join [10%N]
        (numbered 0 (match followups result with Some l => l | None => [] end)) ].

(** A fresh column, as [onMouseUp] and [addPerspective] create it; [uid]
    is the random id. *)
Definition newColumn (uid : jsstring) (result : ApiResult)
    (perspectiveTitle perspectiveInstruction : jsstring) : Column :=
  {| id := uid;
     title := perspectiveTitle;
     contextBase := buildContextBase result perspectiveTitle perspectiveInstruction;
     chat := [];
     input := [];
     loading := false |}.

(** The body posted to [/api/chat]. *)
Record ChatRequest := {
  context : jsstring;
  question : jsstring;
  history : list ChatMsg
}.

(** A chat request in flight: what the continuation after [await fetch]
    closes over. *)
Record Pending := {
  myReq : N;
  colId : jsstring;
  request : ChatRequest
}.

(** [askInColumn(colId, text)] up to its first [await].  [closure] is the
    [columns] value of the render the callback was created in, which
    [columns.find] reads; the functional updates act on the current state. *)
Definition askInColumn (closure : list Column) (colId text : jsstring) (st : AppState)
  : AppState * option Pending :=
  let st := setError [] st in
  let q := trim text in
  if negb (nonempty q) then (st, None)
  else
    let st := setColumns (inColumn colId (optimistic q)) st in
    let st := bumpReqSeq st in
    let myReq := reqSeq st in
    match find (fun c => str_eqb (id c) colId) closure with
    | None => (setColumns (inColumn colId stopLoading) st, None)
    | Some colSnapshot =>
        let historyNext := chat colSnapshot ++ [ {| role := user; text := q |} ] in
        (st, Some {| myReq := myReq;
                     colId := colId;
                     request := {| context := contextBase colSnapshot;
                                   question := q;
                                   history := slice_last 30 historyNext |} |})
    end.

(** What [await fetch(...)] followed by [await r.text()] gives: a status
    and the body text, or a rejection with its message if it has one. *)
Inductive FetchOutcome :=
| Responded (status : N) (raw : jsstring)
| FetchRejected (message : option jsstring).

(** [r.ok] *)
Definition ok (status : N) : bool := ((200 <=? status) && (status <=? 299))%N.

(** How the [try] block ends. *)
Inductive TryResult :=
| Thrown (message : option jsstring)   (* control reaches [catch] *)
| Stale                                (* the early [return] of the guard *)
| Answer (cleaned : jsstring).

Section Continuation.
Context {engine : Engine}.

(** [new Error(v).message] for a value [v] that is not [undefined]. *)
Definition Error_message (v : JSON) : jsstring :=
  match ToString v with
  | Some s => s
  | None => typeError_message NotPrimitive
  end.

Definition try_block (p : Pending) (o : FetchOutcome) (st : AppState) : TryResult :=
  match o with
  | FetchRejected message => Thrown message
  | Responded status raw =>
      let parsed := if nonempty raw then JSON_parse raw else Some JNull in
      match parsed with
      | None =>
          Thrown (Some (js "Non-JSON response (status " ++ N_toString status ++ js "):"
                        ++ [10%N] ++ slice_first 500 raw))
      | Some data =>
          if negb (ok status) then
            Thrown (Some (Error_message
                            (orElse (getProp data (js "error"))
                                    (js "Request failed (status " ++ N_toString status ++ js ")"))))
          else if negb (N.eqb (myReq p) (reqSeq st)) then Stale
          else
            match data with
            | JNull => Thrown (Some (typeError_message (NullProperty (js "answer"))))
            | _ =>
                match ToString (orElse (getProp data (js "answer")) []) with
                | None => Thrown (Some (typeError_message NotPrimitive))
                | Some s => Answer (unescape_newlines s)
                end
            end
      end
  end.

(** [askInColumn] from the [await] on. *)
Definition askInColumn_resume (p : Pending) (o : FetchOutcome) (st : AppState) : AppState :=
  match try_block p o st with
  | Stale => st
  | Answer cleaned => setColumns (inColumn (colId p) (answered cleaned)) st
  | Thrown message =>
      let st := setError (match message with
                          | Some m => m
                          | None => js "Unknown error"
                          end) st in
      setColumns (inColumn (colId p) stopLoading) st
  end.

(** [after] is [before] with nothing changed outside the columns whose id
    is [colId], and with no column's [id], [title] or [contextBase]
    changed. *)
Definition untouched (colId : jsstring) (before after : list Column) : Prop :=
  Forall2 (fun c c' =>
             id c' = id c /\ title c' = title c /\ contextBase c' = contextBase c /\
             (id c <> colId -> c' = c))
          before after.

(** The chats of all columns, in order. *)
Definition chats (st : AppState) : list (list ChatMsg) := map chat (columns st).

(** ** Runs of the application *)




End Continuation.

End App.

(* ===================================================================== *)
(** * Sample inputs                                                      *)
(* ===================================================================== *)

Module Examples.
Import JS.

(** An engine to run the models on sample inputs.  Integers print in
    decimal; other numbers print as mantissa and exponent, which is not
    the engine's shortest form: no sample below prints one. *)
Definition sample_number_toString (d : Decimal) : jsstring :=
  (if neg d && negb (N.eqb (mant d) 0) then js "-" else [])
  ++ N_toString (mant d)
  ++ match exp10 d with
     | Z0 => []
     | Zpos e => js "e+" ++ N_toString (Npos e)
     | Zneg e => js "e-" ++ N_toString (Npos e)
     end.

Definition sample_engine : Engine :=
  {| number_toString := sample_number_toString;
     typeError_message := fun site =>
       match site with
       | NotCallable method => js "(intermediate value)." ++ method ++ js " is not a function"
       | NotPrimitive => js "Cannot convert object to primitive value"
       | NullProperty name => js "Cannot read properties of null (reading '" ++ name ++ js "')"
       end |}.

(** A viewport of 800 by 600 scrolled to (0, 40), and a selection of 100
    by 50 at document position (10, 60). *)
Definition viewport : App.ScrollContainer :=
  {| App.scrollLeft := 0; App.scrollTop := 40;
     App.clientWidth := 800; App.clientHeight := 600 |}.

Definition selection : App.Rect :=
  {| App.x := 10; App.y := 60; App.w := 100; App.h := 50 |}.

(** The same selection after the container was scrolled far below it. *)
Definition scrolled_away : App.ScrollContainer :=
  {| App.scrollLeft := 0; App.scrollTop := 2000;
     App.clientWidth := 800; App.clientHeight := 600 |}.

Definition retina : App.Browser :=
  {| App.devicePixelRatio := 2; App.html2canvas_failure := None;
     App.context2d := true |}.

Definition no_context : App.Browser :=
  {| App.devicePixelRatio := 2; App.html2canvas_failure := None;
     App.context2d := false |}.

Definition capture_fails : App.Browser :=
  {| App.devicePixelRatio := 2;
     App.html2canvas_failure := Some (Some (js "Unable to find element in cloned iframe"));
     App.context2d := true |}.

(** Two perspective columns with empty chats, and no request issued yet. *)
Definition explain_column : App.Column :=
  {| App.id := js "c1"; App.title := js "Explain";
     App.contextBase := js "Recognition Summary: a chain rule exercise";
     App.chat := []; App.input := js "why?"; App.loading := false |}.

Definition second_column : App.Column :=
  {| App.id := js "c2"; App.title := js "Perspective 2";
     App.contextBase := js "Recognition Summary: a chain rule exercise";
     App.chat := []; App.input := []; App.loading := false |}.

Definition idle : App.AppState :=
  {| App.columns := [explain_column; second_column];
     App.reqSeq := 0; App.error := [] |}.

(** Request bodies as [express.json()] hands them to the handlers. *)
Definition explain_body : JSON :=
  JObject [(js "imageDataUrl", JString (js "data:image/png;base64,iVBORw0KGgo="));
           (js "instruction", JString (js "  Focus on the diagram. "))].

Definition chat_body : JSON :=
  JObject [(js "context", JString (js "Recognition Summary: a chain rule exercise"));
           (js "question", JString (js "Why is there a factor 2x?"));
           (js "history",
            JArray [JObject [(js "role", JString (js "user")); (js "text", JString (js "hi"))];
                    JObject [(js "role", JString (js "assistant"));
                             (js "text", JString (js "hello"))]])].

(** A body whose image is not a data URL, and one without a question. *)
Definition explain_body_http_url : JSON :=
  JObject [(js "imageDataUrl", JString (js "https://example.org/a.png"))].

Definition chat_body_no_question : JSON :=
  JObject [(js "context", JString (js "Recognition Summary: a chain rule exercise"))].

(** A string literal of JSON text: the characters between two quotes. *)
Definition quoted (s : string) : jsstring := [34%N] ++ js s ++ [34%N].

(** A well-formed reply of [/api/chat]. *)
Definition chat_reply_text : jsstring :=
  js "{" ++ quoted "answer" ++ js ":" ++ quoted "Differentiate the outer function first."
  ++ js "," ++ quoted "followups" ++ js ":[]}".

End Examples.

(* ===================================================================== *)
(** * The rest of the React module: selection, analysis, the HUD         *)
(* ===================================================================== *)

Module UI.
Import JS App.

(** ** The state of the [App] component *)

(** The state variables the handlers below read and write, and the
    [reqSeqRef] counter inside [app].  [result] is whatever JSON the
    analysis returned, [JNull] being [null].  [mounted] says that React
    still has the component on the page: no error boundary surrounds
    [App], so an exception during a render makes React remove it, and the
    other fields then hold the state it had at that moment, of which
    nothing is shown any more. *)
Record Screen := {
  app : AppState;
  dragging : bool;
  start : option Point;
  end_ : option Point;
  analyzing : bool;
  result : JSON;
  mounted : bool
}.

Definition withApp (f : AppState -> AppState) (s : Screen) : Screen :=
  {| app := f (app s); dragging := dragging s; start := start s; end_ := end_ s;
     analyzing := analyzing s; result := result s; mounted := mounted s |}.

Definition setDragging (b : bool) (s : Screen) : Screen :=
  {| app := app s; dragging := b; start := start s; end_ := end_ s;
     analyzing := analyzing s; result := result s; mounted := mounted s |}.

Definition setStart (p : option Point) (s : Screen) : Screen :=
  {| app := app s; dragging := dragging s; start := p; end_ := end_ s;
     analyzing := analyzing s; result := result s; mounted := mounted s |}.

Definition setEnd (p : option Point) (s : Screen) : Screen :=
  {| app := app s; dragging := dragging s; start := start s; end_ := p;
     analyzing := analyzing s; result := result s; mounted := mounted s |}.

Definition setAnalyzing (b : bool) (s : Screen) : Screen :=
  {| app := app s; dragging := dragging s; start := start s; end_ := end_ s;
     analyzing := b; result := result s; mounted := mounted s |}.

Definition setResult (r : JSON) (s : Screen) : Screen :=
  {| app := app s; dragging := dragging s; start := start s; end_ := end_ s;
     analyzing := analyzing s; result := r; mounted := mounted s |}.

(** React takes the component off the page. *)
Definition unmount (s : Screen) : Screen :=
  {| app := app s; dragging := dragging s; start := start s; end_ := end_ s;
     analyzing := analyzing s; result := result s; mounted := false |}.

(** The component as first rendered. *)
Definition initial : Screen :=
  {| app := {| columns := []; reqSeq := 0; error := [] |};
     dragging := false; start := None; end_ := None;
     analyzing := false; result := JNull; mounted := true |}.

(** ** Right-button drag selection *)

Record MouseEvent := { button : Z; clientX : Q; clientY : Q }.

(** What the mouse handlers read from [pdfContainerRef.current]: the
    corner of its bounding box and its scroll state. *)
Record Container := { box_left : Q; box_top : Q; scroller : ScrollContainer }.

Definition getPointInScrollContainer (e : MouseEvent) (el : Container) : Point :=
  {| px := clientX e - box_left el + scrollLeft (scroller el);
     py := clientY e - box_top el + scrollTop (scroller el) |}.

(** The memoised [rect]. *)
Definition rect (s : Screen) : option Rect :=
  match start s, end_ s with
  | Some a, Some b => Some (normalizeRect a b)
  | _, _ => None
  end.

Definition onMouseDown (e : MouseEvent) (el : option Container) (s : Screen) : Screen :=
  if negb (button e =? 2)%Z then s
  else
    match el with
    | None => s
    | Some c =>
        let p := getPointInScrollContainer e c in
        setEnd (Some p) (setStart (Some p) (setDragging true s))
    end.

Definition onMouseMove (e : MouseEvent) (el : option Container) (s : Screen) : Screen :=
  match el with
  | Some c => if negb (dragging s) then s
              else setEnd (Some (getPointInScrollContainer e c)) s
  | None => s
  end.

(** [rect.w < 6 || rect.h < 6] *)
Definition tooSmall (r : Rect) : bool :=
  negb (Qle_bool 6 (w r)) || negb (Qle_bool 6 (h r)).

(** [onMouseUp] up to its first [await]: the new state and, when the
    analysis starts, the arguments of the call to
    [cropScreenshotFromScrollContainer]. *)
Definition onMouseUp (e : MouseEvent) (el : option Container) (s : Screen)
  : Screen * option (Container * Rect) :=
  if negb (dragging s) then (s, None)
  else if negb (button e =? 2)%Z then (s, None)
  else
    let s1 := withApp (setError []) (setDragging false s) in
    match el with
    | None => (s1, None)
    | Some c =>
        match rect s with
        | None => (s1, None)
        | Some r =>
            if tooSmall r then (s1, None)
            else (setAnalyzing true s1, Some (c, r))
        end
    end.

(** [DimOverlay]: the hole it cuts into the dimmed page, or [None] when it
    renders nothing. *)
Definition DimOverlay (r : option Rect) : option Rect :=
  match r with
  | None => None
  | Some rc =>
      if negb (Qle_bool 2 (w rc)) || negb (Qle_bool 2 (h rc)) then None
      else Some rc
  end.

(** ** What goes over the wire *)

Definition role_name (r : Role) : jsstring :=
  match r with user => js "user" | assistant => js "assistant" end.

(** [JSON.stringify] of a chat message and of the body of the request to
    [/api/chat], as [express.json()] reads them back (bodies over the 25mb
    limit are refused before any handler runs). *)
Definition ChatMsg_json (m : ChatMsg) : JSON :=
  JObject [(js "role", JString (role_name (role m))); (js "text", JString (text m))].

Definition ChatRequest_json (r : ChatRequest) : JSON :=
  JObject [(js "context", JString (context r));
           (js "question", JString (question r));
           (js "history", JArray (map ChatMsg_json (history r)))].

(** The body [onMouseUp] posts to [/api/explain]. *)
Definition ExplainRequest_json (imageDataUrl : jsstring) : JSON :=
  JObject [(js "imageDataUrl", JString imageDataUrl); (js "instruction", JString [])].

(** ** Building columns from an unvalidated analysis *)

Definition DEFAULT_PERSPECTIVES : list (jsstring * jsstring) :=
  [ (js "Explain",
     js "Explain clearly and concretely. Prefer step-by-step reasoning and local evidence from the screenshot.") ].

(** [data] holds what the type [ApiResult] declares for [r], as far as
    [buildContextBase] looks: a string [summary] and a [followups] that is
    a list of strings or is missing. *)
Definition represents (data : JSON) (r : ApiResult) : Prop :=
  getProp data (js "summary") = Some (JString (summary r)) /\
  match followups r with
  | Some l => getProp data (js "followups") = Some (JArray (map JString l))
  | None => getProp data (js "followups") = None
  end.

Section Dynamic.
Context {engine : Engine}.

(** [l.map((s, i) => `${i + 1}. ${s}`)] on arbitrary values, counting
    from [i]; the conversion of an element may throw. *)
Fixpoint numbered_any (i : N) (l : list JSON) : TypeErrorSite + list jsstring :=
  match l with
  | [] => inr []
  | v :: r =>
      match ToString v with
      | None => inl NotPrimitive
      | Some s =>
          match numbered_any (i + 1) r with
          | inl site => inl site
          | inr lines => inr ((N_toString (i + 1) ++ js ". " ++ s) :: lines)
          end
      end
  end.

(** [(result.followups || []).map(...)]: only an array has a [map]. *)
Definition followup_lines (followups : option JSON) : TypeErrorSite + list jsstring :=
  if truthy followups then
    match followups with
    | Some (JArray l) => numbered_any 0 l
    | _ => inl (NotCallable (js "map"))
    end
  else inr [].

(** An element of the outer [join]: [undefined] and [null] print as
    nothing. *)
Definition join_element (v : option JSON) : TypeErrorSite + jsstring :=
  match v with
  | None => inr []
  | Some JNull => inr []
  | Some x => match ToString x with
              | Some s => inr s
              | None => inl NotPrimitive
              end
  end.

(** [buildContextBase] as it runs on the unvalidated [data] that
    [onMouseUp] passes in: [inl] is the [TypeError] it throws. *)
Definition buildContextBase_any (result : JSON)
    (perspectiveTitle perspectiveInstruction : jsstring) : TypeErrorSite + jsstring :=
  match result with
  | JNull => inl (NullProperty (js "summary"))
  | _ =>
      match followup_lines (getProp result (js "followups")) with
      | inl site => inl site
      | inr lines =>
          match join_element (getProp result (js "summary")) with
          | inl site => inl site
          | inr summary_text =>
              inr (join [10%N]
                     [ js "You are assisting with a selected screenshot region from a PDF.";
                       js "Perspective: " ++ perspectiveTitle;
                       js "Perspective instruction: " ++ perspectiveInstruction;
                       [];
                       js "Recognition Summary:";
                       summary_text;
                       [];
                       js "Candidate Follow-ups:";
                       join [10%N] lines ])
          end
      end
  end.

(** [DEFAULT_PERSPECTIVES.map((p) => ({ id: uid(), ... }))]; [uid i] is
    what the [i]-th call of [uid()] returns. *)
Fixpoint nextCols_from (i : nat) (uid : nat -> jsstring) (apiResult : JSON)
    (perspectives : list (jsstring * jsstring)) : TypeErrorSite + list Column :=
  match perspectives with
  | [] => inr []
  | (t, instr) :: r =>
      match buildContextBase_any apiResult t instr with
      | inl site => inl site
      | inr ctx =>
          match nextCols_from (S i) uid apiResult r with
          | inl site => inl site
          | inr cols =>
              inr ({| id := uid i; title := t; contextBase := ctx;
                      chat := []; input := []; loading := false |} :: cols)
          end
      end
  end.

Definition nextCols (uid : nat -> jsstring) (apiResult : JSON) : TypeErrorSite + list Column :=
  nextCols_from 0 uid apiResult DEFAULT_PERSPECTIVES.

(** The [catch] and [finally] of [onMouseUp]. *)
Definition analysis_failed (message : option jsstring) (s : Screen) : Screen :=
  setAnalyzing false
    (withApp (setError (match message with
                        | Some m => m
                        | None => js "Unknown error"
                        end)) s).

(** [onMouseUp] from its first [await] on: [crop] is how the screenshot
    ended, [fetched] what [/api/explain] answered (looked at only when
    there was a screenshot to post). *)
Definition onMouseUp_resume (crop : CropResult) (fetched : FetchOutcome)
    (uid : nat -> jsstring) (s : Screen) : Screen :=
  match crop with
  | Threw message => analysis_failed message s
  | DataURL _ _ =>
      match fetched with
      | FetchRejected message => analysis_failed message s
      | Responded status raw =>
          match (if nonempty raw then JSON_parse raw else Some JNull) with
          | None =>
              analysis_failed
                (Some (js "Non-JSON response (status " ++ N_toString status ++ js "):"
                       ++ [10%N] ++ slice_first 500 raw)) s
          | Some data =>
              if negb (ok status) then
                analysis_failed
                  (Some (Error_message (orElse (getProp data (js "error"))
                                               (js "Request failed")))) s
              else
                let s1 := setResult data s in
                match nextCols uid data with
                | inl site => analysis_failed (Some (typeError_message site)) s1
                | inr cols =>
                    setAnalyzing false (withApp (setColumns (fun _ => cols)) s1)
                end
          end
      end
  end.

(** ** The HUD *)

(** [addPerspective]; the column is built inside the state updater, where
    [buildContextBase] may throw ([inl]). *)
Definition addPerspective (uid : jsstring) (s : Screen) : TypeErrorSite + Screen :=
  if negb (truthy (Some (result s))) then inr s
  else
    let title :=
      js "Perspective " ++ N_toString (N.of_nat (List.length (columns (app s))) + 1) in
    let instruction :=
      js "Provide a different helpful angle. Be concrete. Use the screenshot context, not generic talk." in
    match buildContextBase_any (result s) title instruction with
    | inl site => inl site
    | inr ctx =>
        inr (withApp (setColumns (fun prev =>
               prev ++ [ {| id := uid; title := title; contextBase := ctx;
                            chat := []; input := []; loading := false |} ])) s)
    end.

End Dynamic.

(** [onChangeInput] of the column [c] *)
Definition onChangeInput (c : Column) (v : jsstring) (s : Screen) : Screen :=
  withApp (setColumns (map (fun x =>
    if str_eqb (id x) (id c)
    then {| id := id x; title := title x; contextBase := contextBase x;
            chat := chat x; input := v; loading := loading x |}
    else x))) s.

(** [onRemove] of the column [c] *)
Definition onRemove (c : Column) (s : Screen) : Screen :=
  withApp (setColumns (filter (fun x => negb (str_eqb (id x) (id c))))) s.

(** [onAsk] and [onAskText] of the column [c].  The handlers belong to
    the render of the state they act on, so the [columns] that
    [askInColumn] closes over are the current ones. *)
Definition onAsk (c : Column) (s : Screen) : Screen * option Pending :=
  let (a, p) := askInColumn (columns (app s)) (id c) (input c) (app s) in
  (withApp (fun _ => a) s, p).

Definition onAskText (c : Column) (t : jsstring) (s : Screen) : Screen * option Pending :=
  let (a, p) := askInColumn (columns (app s)) (id c) t (app s) in
  (withApp (fun _ => a) s, p).

(** The [disabled] flag of the Ask button. *)
Definition askDisabled (col : Column) : bool :=
  loading col || negb (nonempty (trim (input col))).

(** The click on a suggested follow-up [s]:
    [columns.find((x) => x.title === "Explain") || columns[0]]. *)
Definition followupTarget (cols : list Column) : option Column :=
  match find (fun x => str_eqb (title x) (js "Explain")) cols with
  | Some c => Some c
  | None => hd_error cols
  end.

Definition followupClick (t : jsstring) (s : Screen) : Screen * option Pending :=
  match followupTarget (columns (app s)) with
  | None => (s, None)
  | Some explain =>
      let (a, p) := askInColumn (columns (app s)) (id explain) t (app s) in
      (withApp (fun _ => a) s, p)
  end.

Definition endAllSessions (s : Screen) : Screen :=
  setEnd None
    (setStart None
       (withApp (setError [])
          (setResult JNull (withApp (setColumns (fun _ => [])) s)))).

(** ** Rendering a chat message *)

Definition starts_with_lf (s : jsstring) : bool :=
  match s with
  | c :: _ => (c =? 10)%N
  | [] => false
  end.

(** [text.split(/\n{2,}/)]: cut at every maximal run of two or more line
    feeds; [in_run] says that the scan is inside such a run. *)
Fixpoint split_blank_lines_from (in_run : bool) (s : jsstring) : list jsstring :=
  match s with
  | [] => [[]]
  | c :: r =>
      if (c =? 10)%N && in_run then split_blank_lines_from true r
      else if (c =? 10)%N && starts_with_lf r then [] :: split_blank_lines_from true r
      else match split_blank_lines_from false r with
           | p :: ps => (c :: p) :: ps
           | [] => [[c]]
           end
  end.

Definition split_blank_lines (s : jsstring) : list jsstring :=
  split_blank_lines_from false s.

(** The [parts] a message is rendered as. *)
Definition parts (m : ChatMsg) : list jsstring :=
  match role m with
  | assistant => filter nonempty (map trim (split_blank_lines (text m)))
  | user => [text m]
  end.

(** ** Rendering the analysis *)

(** A value from JSON as a child of an element ([{text}], [{s}]): a string
    or number is shown, a boolean or [null] shows nothing, an array shows
    its items, and on an object React throws. *)
Fixpoint valid_child (v : JSON) : bool :=
  match v with
  | JObject _ => false
  | JArray items => forallb valid_child items
  | _ => true
  end.

Definition renders_child (v : option JSON) : bool :=
  match v with
  | Some x => valid_child x
  | None => true
  end.

(** ** What the user and the network can do *)

Inductive Action :=
| MouseDown (e : MouseEvent) (el : option Container)
| MouseMove (e : MouseEvent) (el : option Container)
| MouseUp (e : MouseEvent) (el : option Container)
| Analysed (crop : CropResult) (fetched : FetchOutcome) (uid : nat -> jsstring)
| ClickAsk (c : Column)
| ClickAskText (c : Column) (t : jsstring)
| ClickFollowup (t : jsstring)
| ChatReply (p : Pending) (o : FetchOutcome)
| ClickAddPerspective (uid : jsstring)
| TypeInput (c : Column) (v : jsstring)
| ClickRemove (c : Column)
| ClickClear.

Section Acting.
Context {engine : Engine}.

(** Whether the HUD renders with [result]: unless [result] is falsy it
    shows [result.category], [String(result.confidence)] and
    [result.summary] in cards and
    [(result.followups || []).slice(0, 4).map(...)] as buttons, each with
    its item as a child; only an array has both [slice] and [map].
    Everything else it shows is a string of the front end's own. *)
Definition renders (result : JSON) : bool :=
  if truthy (Some result) then
    renders_child (getProp result (js "category"))
    && match getProp result (js "confidence") with
       | Some v => match ToString v with Some _ => true | None => false end
       | None => true
       end
    && renders_child (getProp result (js "summary"))
    && (let followups := getProp result (js "followups") in
        if truthy followups then
          match followups with
          | Some (JArray l) => forallb valid_child (slice_first 4 l)
          | _ => false
          end
        else true)
  else true.

(** React renders the new state; a render that throws unmounts [App]. *)
Definition rendered (s : Screen) : Screen :=
  if renders (result s) then s else unmount s.

(** The handler of an action and the render that follows it.  Of the
    state, the render shows [result] and strings the front end made
    itself, so it can throw only once [result] has changed: after the
    continuation of [onMouseUp] (Clear sets [null], which renders).
    [addPerspective] builds its column inside the state updater, which
    React runs while rendering: when [buildContextBase] throws there, the
    render throws. *)
Definition handle (s : Screen) (a : Action) : Screen :=
  match a with
  | MouseDown e el => onMouseDown e el s
  | MouseMove e el => onMouseMove e el s
  | MouseUp e el => fst (onMouseUp e el s)
  | Analysed crop fetched uid => rendered (onMouseUp_resume crop fetched uid s)
  | ClickAsk c => fst (onAsk c s)
  | ClickAskText c t => fst (onAskText c t s)
  | ClickFollowup t => fst (followupClick t s)
  | ChatReply p o => withApp (askInColumn_resume p o) s
  | ClickAddPerspective uid =>
      match addPerspective uid s with
      | inr s' => s'
      | inl _ => unmount s
      end
  | TypeInput c v => onChangeInput c v s
  | ClickRemove c => onRemove c s
  | ClickClear => endAllSessions s
  end.

(** One action on the screen.  Once [App] is unmounted there is nothing to
    click, and the state updates of a reply that is still to come do
    nothing. *)
Definition act (s : Screen) (a : Action) : Screen :=
  if mounted s then handle s a else s.

Definition session (actions : list Action) : Screen := fold_left act actions initial.

End Acting.

End UI.

(* ===================================================================== *)
(** * Vocabulary for the end-to-end statements, and more samples         *)
(* ===================================================================== *)

Module Wire.
Import JS.

(** The response a handler ends with, given how the model call ended (not
    consulted when the handler answers without calling). *)
Definition answer (h : Server.Handler) (o : Server.ModelOutcome) : Server.Response :=
  match h with
  | Server.Respond r => r
  | Server.CallModel _ k => k o
  end.

(** The turn [/api/chat] makes of a chat message of the front end. *)
Definition forwarded (m : App.ChatMsg) : Server.Message :=
  {| Server.role := match App.role m with
                    | App.user => Server.User
                    | App.assistant => Server.Assistant
                    end;
     Server.content := Server.Plain (App.text m) |}.

(** The value is a string, a number, a boolean or [null]. *)
Definition scalar (v : JSON) : bool :=
  match v with
  | JArray _ => false
  | JObject _ => false
  | _ => true
  end.

(** [s] contains two line feeds in a row. *)
Definition has_blank_line (s : jsstring) : Prop :=
  exists a b, s = a ++ [10%N; 10%N] ++ b.

(** The same, decided: no line feed is followed by another. *)
Fixpoint no_blank_line (s : jsstring) : bool :=
  match s with
  | [] => true
  | c :: r => negb ((c =? 10)%N && UI.starts_with_lf r) && no_blank_line r
  end.

(** [l] begins with [p]. *)
Definition prefix_of {A} (p l : list A) : Prop := exists rest, l = p ++ rest.

(** [c'] is the column [c] with possibly more messages at the end of its
    chat: same id, same title, same context. *)
Definition continues (c c' : App.Column) : Prop :=
  App.id c' = App.id c /\ App.title c' = App.title c /\
  App.contextBase c' = App.contextBase c /\
  prefix_of (App.chat c) (App.chat c').

(** [after] holds the columns of [before], in place and continued, and
    possibly new ones behind them. *)
Definition extends (before after : list App.Column) : Prop :=
  exists kept added, after = kept ++ added /\ Forall2 continues before kept.

(** The actions that may drop columns: a finished analysis, Remove and
    Clear. *)
Definition drops_columns (a : UI.Action) : bool :=
  match a with
  | UI.Analysed _ _ _ => true
  | UI.ClickRemove _ => true
  | UI.ClickClear => true
  | _ => false
  end.

(** The column is not waiting, or the last message of its chat is a
    question of the user. *)
Definition awaits_answer (c : App.Column) : Prop :=
  App.loading c = true ->
  exists earlier q, App.chat c = earlier ++ [ {| App.role := App.user; App.text := q |} ].

End Wire.

Module Samples.
Import JS.

Definition data_url : jsstring := js "data:image/png;base64,iVBORw0KGgo=".

(** A body with an instruction that has no string conversion. *)
Definition explain_body_odd_instruction : JSON :=
  JObject [(js "imageDataUrl", JString data_url);
           (js "instruction", JObject [(js "toString", JBool true)])].

(** A chat body whose history holds things that are not messages. *)
Definition chat_body_odd_history : JSON :=
  JObject [(js "context", JString (js "Recognition Summary: a chain rule exercise"));
           (js "question", JString (js "Why?"));
           (js "history", JArray [JNull; JNumber {| neg := false; mant := 5; exp10 := 0 |};
                                  JString (js "hello")])].

(** The screen after the analysis of a selection: one Explain column. *)
Definition analysis : App.ApiResult :=
  {| App.category := js "math"; App.confidence := 9 # 10;
     App.summary := js "A chain rule exercise.";
     App.followups := Some [js "Which variable?"; js "Which point?"] |}.

Definition analysis_json : JSON :=
  JObject [(js "category", JString (js "math"));
           (js "confidence", JNumber {| neg := false; mant := 9; exp10 := -1 |});
           (js "summary", JString (js "A chain rule exercise."));
           (js "followups", JArray [JString (js "Which variable?");
                                    JString (js "Which point?")])].

Definition analysis_text : jsstring :=
  js "{" ++ Examples.quoted "category" ++ js ":" ++ Examples.quoted "math" ++ js ","
  ++ Examples.quoted "confidence" ++ js ":0.9,"
  ++ Examples.quoted "summary" ++ js ":" ++ Examples.quoted "A chain rule exercise." ++ js ","
  ++ Examples.quoted "followups" ++ js ":[" ++ Examples.quoted "Which variable?" ++ js ","
  ++ Examples.quoted "Which point?" ++ js "]}".

Definition explain_col : App.Column :=
  App.newColumn (js "c1") analysis (js "Explain")
    (js "Explain clearly and concretely. Prefer step-by-step reasoning and local evidence from the screenshot.").

Definition other_col : App.Column :=
  App.newColumn (js "c2") analysis (js "Perspective 2")
    (js "Provide a different helpful angle. Be concrete. Use the screenshot context, not generic talk.").

Definition two_columns : UI.Screen :=
  {| UI.app := {| App.columns := [explain_col; other_col]; App.reqSeq := 0; App.error := [] |};
     UI.dragging := false; UI.start := None; UI.end_ := None;
     UI.analyzing := false; UI.result := analysis_json; UI.mounted := true |}.

(** The PDF container at the top left of the window, scrolled down by 40,
    and a right-button drag from (10, 20) to (110, 70) inside it. *)
Definition pdf : UI.Container :=
  {| UI.box_left := 0; UI.box_top := 0; UI.scroller := Examples.viewport |}.

Definition press : UI.MouseEvent := {| UI.button := 2; UI.clientX := 10; UI.clientY := 20 |}.
Definition release : UI.MouseEvent := {| UI.button := 2; UI.clientX := 110; UI.clientY := 70 |}.

(** An error reply of the backend and a reply that is not JSON. *)
Definition bad_gateway_text : jsstring :=
  js "{" ++ Examples.quoted "error" ++ js ":" ++ Examples.quoted "Model did not return valid JSON"
  ++ js "," ++ Examples.quoted "raw" ++ js ":" ++ Examples.quoted "Sorry." ++ js "}".

Definition proxy_error_text : jsstring := js "<html>502 Bad Gateway</html>".

(** A drag, an analysis that succeeds, a question and its reply. *)
Definition a_session : list UI.Action :=
  [ UI.MouseDown press (Some pdf);
    UI.MouseMove release (Some pdf);
    UI.MouseUp release (Some pdf);
    UI.Analysed
      (App.DataURL (App.html2canvas_options Examples.retina Examples.viewport)
         {| App.sx := 20; App.sy := 40; App.sw := 200; App.sh := 100;
            App.out_width := 200; App.out_height := 100 |})
      (App.Responded 200 analysis_text)
      (fun _ => js "c1");
    UI.ClickFollowup (js "Which variable?") ].

(** The same drag, answered by an analysis whose fifth follow-up is an
    object with a member [toString]. *)
Definition odd_analysis_text : jsstring :=
  js "{" ++ Examples.quoted "category" ++ js ":" ++ Examples.quoted "math" ++ js ","
  ++ Examples.quoted "confidence" ++ js ":0.9,"
  ++ Examples.quoted "summary" ++ js ":" ++ Examples.quoted "A chain rule exercise." ++ js ","
  ++ Examples.quoted "followups" ++ js ":[" ++ Examples.quoted "a" ++ js ","
  ++ Examples.quoted "b" ++ js "," ++ Examples.quoted "c" ++ js "," ++ Examples.quoted "d"
  ++ js ",{" ++ Examples.quoted "toString" ++ js ":true}]}".

Definition odd_session : list UI.Action :=
  [ UI.MouseDown press (Some pdf);
    UI.MouseMove release (Some pdf);
    UI.MouseUp release (Some pdf);
    UI.Analysed
      (App.DataURL (App.html2canvas_options Examples.retina Examples.viewport)
         {| App.sx := 20; App.sy := 40; App.sw := 200; App.sh := 100;
            App.out_width := 200; App.out_height := 100 |})
      (App.Responded 200 odd_analysis_text)
      (fun _ => js "c1") ].

(** An assistant message of two paragraphs. *)
Definition two_paragraphs : App.ChatMsg :=
  {| App.role := App.assistant;
     App.text := js "First." ++ [10; 10; 10]%N ++ js " Second," ++ [10]%N ++ js "still second. " |}.

End Samples.

(* ===================================================================== *)
(** * The models on the sample inputs                                    *)
(* ===================================================================== *)

Module Runs.
Import JS.

Example parse_chat_reply :
  JSON_parse Examples.chat_reply_text
  = Some (JObject [(js "answer", JString (js "Differentiate the outer function first."));
                   (js "followups", JArray [])]).
Proof. vm_compute. reflexivity. Qed.

Example parse_nested_numbers :
  JSON_parse (js " [1, -2.50e3, [], {}, null, true] ")
  = Some (JArray [JNumber {| neg := false; mant := 1; exp10 := 0 |};
                  JNumber {| neg := true; mant := 250; exp10 := 1 |};
                  JArray []; JObject []; JNull; JBool true]).
Proof. vm_compute. reflexivity. Qed.

Example parse_rejects_prose :
  JSON_parse (js "Sorry, I can't see the image.") = None.
Proof. vm_compute. reflexivity. Qed.

Example parse_rejects_trailing_comma : JSON_parse (js "[1, 2,]") = None.
Proof. vm_compute. reflexivity. Qed.

Example parse_rejects_leading_zero : JSON_parse (js "01") = None.
Proof. vm_compute. reflexivity. Qed.

Example parse_escape :
  JSON_parse (Examples.quoted "a\nbA") = Some (JString ([97; 10; 98; 65])%N).
Proof. vm_compute. reflexivity. Qed.

Example tiny_number_is_falsy :
  truthy (JSON_parse (js "1e-400")) = false /\ truthy (JSON_parse (js "1e-300")) = true.
Proof. split; vm_compute; reflexivity. Qed.

Example trim_instruction :
  trim (js "  Focus on the diagram. ") = js "Focus on the diagram.".
Proof. vm_compute. reflexivity. Qed.

Example unescape_reply : unescape_newlines (js "a\nb") = js "a" ++ [10%N] ++ js "b".
Proof. vm_compute. reflexivity. Qed.

Example array_toString :
  @ToString Examples.sample_engine
    (JArray [JNull; JBool true; JArray [JString (js "x"); JString (js "y")]; JObject []])
  = Some (js ",true,x,y,[object Object]").
Proof. vm_compute. reflexivity. Qed.

Example object_with_own_toString_throws :
  @ToString Examples.sample_engine (JObject [(js "toString", JBool true)]) = None.
Proof. vm_compute. reflexivity. Qed.

Example explain_forwards_trimmed_instruction :
  exists k,
    @Server.explain Examples.sample_engine (Some Examples.explain_body)
    = Server.CallModel
        {| Server.model := js "gpt-4.1-mini";
           Server.instructions := None;
           Server.input :=
             [ {| Server.role := Server.User;
                  Server.content := Server.Parts
                    [ Server.InputText
                        (Server.explain_systemPrompt ++ [10; 10]%N
                         ++ js "Additional user instruction:" ++ [10%N]
                         ++ js "Focus on the diagram.");
                      Server.InputImage (js "data:image/png;base64,iVBORw0KGgo=") ] |} ];
           Server.format_name := js "ScreenAssistResponse";
           Server.format_schema := Server.ScreenAssistResponse |}
        k.
Proof. eexists. vm_compute. reflexivity. Qed.

Example explain_without_body :
  @Server.explain Examples.sample_engine None
  = Server.Respond (Server.error_response 400 (js "imageDataUrl is required")).
Proof. vm_compute. reflexivity. Qed.

Example crop_on_retina :
  App.cropScreenshotFromScrollContainer Examples.retina Examples.viewport Examples.selection
  = App.DataURL
      {| App.backgroundColor := None; App.scale := 2; App.useCORS := true;
         App.width := 800; App.height := 600;
         App.capture_x := 0; App.capture_y := 0; App.scrollX := 0; App.scrollY := 0 |}
      {| App.sx := 20; App.sy := 40; App.sw := 200; App.sh := 100;
         App.out_width := 200; App.out_height := 100 |}.
Proof. vm_compute. reflexivity. Qed.

Example crop_scrolled_away :
  App.cropScreenshotFromScrollContainer Examples.retina Examples.scrolled_away
    Examples.selection
  = App.Threw (Some App.outside_message).
Proof. vm_compute. reflexivity. Qed.

Example normalizeRect_up_left :
  App.normalizeRect {| App.px := 3; App.py := 10 |} {| App.px := 1; App.py := 4 |}
  = {| App.x := 1; App.y := 4; App.w := 2; App.h := 6 |}.
Proof. vm_compute. reflexivity. Qed.

Example context_of_analysis :
  App.buildContextBase
    {| App.category := js "math"; App.confidence := 9 # 10;
       App.summary := js "A chain rule exercise.";
       App.followups := Some [js "Which variable?"; js "Which point?"] |}
    (js "Explain") (js "Be concrete.")
  = js "You are assisting with a selected screenshot region from a PDF." ++ [10%N]
    ++ js "Perspective: Explain" ++ [10%N]
    ++ js "Perspective instruction: Be concrete." ++ [10%N]
    ++ [10%N]
    ++ js "Recognition Summary:" ++ [10%N]
    ++ js "A chain rule exercise." ++ [10%N]
    ++ [10%N]
    ++ js "Candidate Follow-ups:" ++ [10%N]
    ++ js "1. Which variable?" ++ [10%N]
    ++ js "2. Which point?".
Proof. vm_compute. reflexivity. Qed.

Example ask_then_answer :
  let '(st1, pending) :=
    App.askInColumn (App.columns Examples.idle) (js "c1") (js " why? ") Examples.idle in
  match pending with
  | Some p =>
      App.reqSeq st1 = 1%N /\ App.myReq p = 1%N /\
      App.chats (@App.askInColumn_resume Examples.sample_engine p
                   (App.Responded 200 Examples.chat_reply_text) st1)
      = [ [ {| App.role := App.user; App.text := js "why?" |};
            {| App.role := App.assistant;
               App.text := js "Differentiate the outer function first." |} ];
          [] ]
  | None => False
  end.
Proof. vm_compute. repeat split. Qed.

End Runs.

(* ===================================================================== *)
(** * Facts about strings and slices                                     *)
(* ===================================================================== *)

Module Strings.
Import JS.

Lemma str_eqb_eq (a b : jsstring) : str_eqb a b = true <-> a = b.
Proof.
  revert b. induction a as [|c a IH]; intros [|d b]; simpl;
    try (split; [discriminate | discriminate]); [tauto|].
  rewrite andb_true_iff, N.eqb_eq, IH.
  split; [intros [-> ->]; reflexivity | intros E; inversion E; auto].
Qed.

Lemma str_eqb_neq (a b : jsstring) : a <> b -> str_eqb a b = false.
Proof.
  intros Hn. destruct (str_eqb a b) eqn:E; [|reflexivity].
  apply str_eqb_eq in E. contradiction.
Qed.


Lemma slice_last_length {A} (n : nat) (l : list A) :
  List.length (slice_last n l) = Nat.min n (List.length l).
Proof. unfold slice_last. rewrite length_skipn. lia. Qed.

Lemma trim_of_spaces_is_empty (s : jsstring) :
  forallb isTrimSpace s = true -> trim s = [].
Proof.
  intros H. unfold trim.
  assert (E : trimStart s = []).
  { induction s as [|c s IH]; simpl in *; [reflexivity|].
    apply andb_true_iff in H. destruct H as (Hc & Hs). rewrite Hc. auto. }
  rewrite E. reflexivity.
Qed.

End Strings.

(* ===================================================================== *)
(** * The parser's fuel is never the reason for a failure                *)
(* ===================================================================== *)

Module Parsing.
Import JS.

Lemma skip_ws_length (s : jsstring) : (List.length (skip_ws s) <= List.length s)%nat.
Proof.
  induction s as [|c s IH]; simpl; [lia|].
  destruct (isJsonSpace c); simpl; lia.
Qed.

Lemma skip_ws_cons (s r : jsstring) (c : N) :
  skip_ws s = c :: r -> (List.length r < List.length s)%nat.
Proof.
  intros E. pose proof (skip_ws_length s) as H. rewrite E in H. simpl in H. lia.
Qed.

Lemma push_Some {A B} (x : A) (p : option (list A * B)) (l : list A) (b : B) :
  push x p = Some (l, b) -> exists l', p = Some (l', b) /\ l = x :: l'.
Proof.
  destruct p as [[l' b']|]; simpl; intros E; inversion E. eauto.
Qed.

Lemma parse_chars_length (s t r : jsstring) :
  parse_chars s = Some (t, r) -> (List.length r <= List.length s)%nat.
Proof.
  remember (List.length s) as n eqn:Hn.
  assert (Hle : (List.length s <= n)%nat) by lia. clear Hn.
  revert s t r Hle.
  induction n as [|n IH]; intros s t r Hle E.
  - destruct s; [discriminate | simpl in Hle; lia].
  - destruct s as [|c s]; [discriminate|]. simpl in Hle.
    cbn [parse_chars] in E.
    destruct (c =? 34)%N; [inversion E; subst; simpl; lia|].
    destruct (c =? 92)%N.
    + destruct s as [|e s1]; [discriminate|].
      destruct (e =? 117)%N.
      * destruct s1 as [|h1 [|h2 [|h3 [|h4 s2]]]]; try discriminate.
        destruct (hex4 h1 h2 h3 h4); [|discriminate].
        apply push_Some in E. destruct E as (t' & E & _).
        apply IH in E; simpl in *; lia.
      * destruct (escape_char e); [|discriminate].
        apply push_Some in E. destruct E as (t' & E & _).
        apply IH in E; simpl in *; lia.
    + destruct (c <? 32)%N; [discriminate|].
      apply push_Some in E. destruct E as (t' & E & _).
      apply IH in E; simpl in *; lia.
Qed.

Lemma take_digits_length (s : jsstring) :
  (List.length (snd (take_digits s)) <= List.length s)%nat.
Proof.
  induction s as [|c s IH]; simpl; [lia|].
  destruct (digit_val c); simpl; [|lia].
  destruct (take_digits s); simpl in *. lia.
Qed.

Lemma parse_number_length (s r : jsstring) (d : Decimal) :
  parse_number s = Some (d, r) -> (List.length r <= List.length s)%nat.
Proof.
  unfold parse_number.
  set (sg := match s with
             | c :: r0 => if (c =? 45)%N then (true, r0) else (false, s)
             | [] => (false, s)
             end).
  assert (H1 : (List.length (snd sg) <= List.length s)%nat).
  { subst sg. destruct s as [|c r0]; simpl; [lia|].
    destruct (c =? 45)%N; simpl; lia. }
  destruct sg as [ng s1]. simpl in H1.
  set (ip := match s1 with
             | c :: r0 => if (c =? 48)%N then ([0%N], r0) else take_digits s1
             | [] => ([], s1)
             end).
  assert (H2 : (List.length (snd ip) <= List.length s1)%nat).
  { subst ip. destruct s1 as [|c r0]; simpl; [lia|].
    destruct (c =? 48)%N; [simpl; lia|]. apply (take_digits_length (c :: r0)). }
  destruct ip as [ipd s2]. simpl in H2.
  destruct ipd as [|i ipd]; [discriminate|].
  set (fr := match s2 with
             | c :: r0 =>
                 if (c =? 46)%N
                 then let (fd, s3) := take_digits r0 in
                      match fd with
                      | [] => None
                      | _ :: _ => Some (fd, s3)
                      end
                 else Some ([], s2)
             | [] => Some ([], s2)
             end).
  assert (H3 : forall fd s3, fr = Some (fd, s3) -> (List.length s3 <= List.length s2)%nat).
  { subst fr. intros fd s3. destruct s2 as [|c r0]; [intros E; inversion E; lia|].
    destruct (c =? 46)%N; [|intros E; inversion E; lia].
    pose proof (take_digits_length r0) as Ht.
    destruct (take_digits r0) as [fd' s3']. simpl in Ht.
    destruct fd'; intros E; inversion E; subst. simpl. lia. }
  destruct fr as [[fd s3]|]; [|discriminate].
  specialize (H3 fd s3 eq_refl).
  set (ex := match s3 with
             | c :: r0 =>
                 if ((c =? 101) || (c =? 69))%N
                 then
                   let (eneg, r1) :=
                     match r0 with
                     | sg :: r' =>
                         if (sg =? 45)%N then (true, r')
                         else if (sg =? 43)%N then (false, r') else (false, r0)
                     | [] => (false, r0)
                     end in
                   let (ed, s4) := take_digits r1 in
                   match ed with
                   | [] => None
                   | _ :: _ =>
                       let e := Z.of_N (digits_value ed) in
                       Some ((if eneg then - e else e)%Z, s4)
                   end
                 else Some (0%Z, s3)
             | [] => Some (0%Z, s3)
             end).
  assert (H4 : forall e s4, ex = Some (e, s4) -> (List.length s4 <= List.length s3)%nat).
  { subst ex. intros e s4. destruct s3 as [|c r0]; [intros E; inversion E; lia|].
    destruct ((c =? 101) || (c =? 69))%N; [|intros E; inversion E; lia].
    set (sgn := match r0 with
                | sg :: r' =>
                    if (sg =? 45)%N then (true, r')
                    else if (sg =? 43)%N then (false, r') else (false, r0)
                | [] => (false, r0)
                end).
    assert (Hs : (List.length (snd sgn) <= List.length r0)%nat).
    { subst sgn. destruct r0 as [|sg r']; simpl; [lia|].
      destruct (sg =? 45)%N; [simpl; lia|]. destruct (sg =? 43)%N; simpl; lia. }
    destruct sgn as [eneg r1]. simpl in Hs.
    pose proof (take_digits_length r1) as Ht.
    destruct (take_digits r1) as [ed s4']. simpl in Ht.
    destruct ed; intros E; inversion E; subst. simpl. lia. }
  destruct ex as [[e s4]|]; [|discriminate].
  specialize (H4 e s4 eq_refl).
  intros E. inversion E; subst. lia.
Qed.

Lemma skipn_length_le {A} (n : nat) (l : list A) :
  (List.length (skipn n l) <= List.length l)%nat.
Proof. rewrite length_skipn. lia. Qed.

(** Each step hands back a suffix of what it was given, if its callbacks
    do. *)
Lemma value_step_length elements members (s : jsstring) :
  (forall r vs r', elements r = Some (vs, r') -> (List.length r' <= List.length r)%nat) ->
  (forall r ms r', members r = Some (ms, r') -> (List.length r' <= List.length r)%nat) ->
  forall v r', value_step elements members s = Some (v, r') ->
               (List.length r' <= List.length s)%nat.
Proof.
  intros He Hm v r'. unfold value_step.
  destruct (skip_ws s) as [|c r] eqn:Hs; [discriminate|].
  apply skip_ws_cons in Hs.
  destruct (c =? 34)%N.
  { destruct (parse_chars r) as [[str r1]|] eqn:Hc; [|discriminate].
    apply parse_chars_length in Hc. intros E; inversion E; subst. lia. }
  destruct (c =? 91)%N.
  { destruct (skip_ws r) as [|c' r1] eqn:Hs'; [discriminate|].
    apply skip_ws_cons in Hs'.
    destruct (c' =? 93)%N; [intros E; inversion E; subst; lia|].
    destruct (elements r) as [[vs r2]|] eqn:Hel; [|discriminate].
    apply He in Hel. intros E; inversion E; subst. lia. }
  destruct (c =? 123)%N.
  { destruct (skip_ws r) as [|c' r1] eqn:Hs'; [discriminate|].
    apply skip_ws_cons in Hs'.
    destruct (c' =? 125)%N; [intros E; inversion E; subst; lia|].
    destruct (members r) as [[ms r2]|] eqn:Hel; [|discriminate].
    apply Hm in Hel. intros E; inversion E; subst. lia. }
  pose proof (skipn_length_le 4 (c :: r)) as H4.
  pose proof (skipn_length_le 5 (c :: r)) as H5.
  simpl List.length in H4, H5.
  destruct (startsWith (js "null") (c :: r)); [intros E; inversion E; subst; lia|].
  destruct (startsWith (js "true") (c :: r)); [intros E; inversion E; subst; lia|].
  destruct (startsWith (js "false") (c :: r)); [intros E; inversion E; subst; lia|].
  destruct (parse_number (c :: r)) as [[d r1]|] eqn:Hn; [|discriminate].
  apply parse_number_length in Hn. simpl in Hn.
  intros E; inversion E; subst. lia.
Qed.

Lemma elements_step_length value elements (s : jsstring) :
  (forall r v r', value r = Some (v, r') -> (List.length r' <= List.length r)%nat) ->
  (forall r vs r', elements r = Some (vs, r') -> (List.length r' <= List.length r)%nat) ->
  forall vs r', elements_step value elements s = Some (vs, r') ->
                (List.length r' <= List.length s)%nat.
Proof.
  intros Hv He vs r'. unfold elements_step.
  destruct (value s) as [[v r]|] eqn:Hval; [|discriminate].
  apply Hv in Hval.
  destruct (skip_ws r) as [|c r1] eqn:Hs; [discriminate|].
  apply skip_ws_cons in Hs.
  destruct (c =? 44)%N.
  { intros E. apply push_Some in E. destruct E as (l' & E & _).
    apply He in E. lia. }
  destruct (c =? 93)%N; [|discriminate].
  intros E; inversion E; subst. lia.
Qed.

Lemma members_step_length value members (s : jsstring) acc :
  (forall r v r', value r = Some (v, r') -> (List.length r' <= List.length r)%nat) ->
  (forall r a ms r', members r a = Some (ms, r') -> (List.length r' <= List.length r)%nat) ->
  forall ms r', members_step value members s acc = Some (ms, r') ->
                (List.length r' <= List.length s)%nat.
Proof.
  intros Hv Hm ms r'. unfold members_step.
  destruct (skip_ws s) as [|c r] eqn:Hs; [discriminate|].
  apply skip_ws_cons in Hs.
  destruct (c =? 34)%N; [|discriminate].
  destruct (parse_chars r) as [[k r1]|] eqn:Hc; [|discriminate].
  apply parse_chars_length in Hc.
  destruct (skip_ws r1) as [|c1 r2] eqn:Hs1; [discriminate|].
  apply skip_ws_cons in Hs1.
  destruct (c1 =? 58)%N; [|discriminate].
  destruct (value r2) as [[v r3]|] eqn:Hval; [|discriminate].
  apply Hv in Hval.
  destruct (skip_ws r3) as [|c3 r4] eqn:Hs3; [discriminate|].
  apply skip_ws_cons in Hs3.
  destruct (c3 =? 44)%N; [intros E; apply Hm in E; lia|].
  destruct (c3 =? 125)%N; [|discriminate].
  intros E; inversion E; subst. lia.
Qed.

Lemma parse_length (fuel : nat) :
  (forall s v r, parse_value fuel s = Some (v, r) -> (List.length r <= List.length s)%nat) /\
  (forall s vs r, parse_elements fuel s = Some (vs, r) ->
                  (List.length r <= List.length s)%nat) /\
  (forall s acc ms r, parse_members fuel s acc = Some (ms, r) ->
                      (List.length r <= List.length s)%nat).
Proof.
  induction fuel as [|f (IHv & IHe & IHm)]; [repeat split; discriminate|].
  split; [|split].
  - intros s. cbn [parse_value]. apply value_step_length; [exact IHe|].
    intros r ms r'. apply IHm.
  - intros s. cbn [parse_elements]. apply elements_step_length; assumption.
  - intros s acc. cbn [parse_members]. apply members_step_length; [exact IHv|].
    intros r a. apply IHm.
Qed.

(** Each step depends on its callbacks only at strictly shorter inputs
    (and, for the value at the head of the elements, at the input
    itself). *)
Lemma value_step_ext elements elements' members members' (s : jsstring) :
  (forall r, (List.length r < List.length s)%nat -> elements r = elements' r) ->
  (forall r, (List.length r < List.length s)%nat -> members r = members' r) ->
  value_step elements members s = value_step elements' members' s.
Proof.
  intros He Hm. unfold value_step.
  destruct (skip_ws s) as [|c r] eqn:Hs; [reflexivity|].
  apply skip_ws_cons in Hs.
  rewrite (He r Hs), (Hm r Hs). reflexivity.
Qed.

Lemma elements_step_ext value value' elements elements' (s : jsstring) :
  value s = value' s ->
  (forall v r, value s = Some (v, r) -> (List.length r <= List.length s)%nat) ->
  (forall r, (List.length r < List.length s)%nat -> elements r = elements' r) ->
  elements_step value elements s = elements_step value' elements' s.
Proof.
  intros Hv Hlen He. unfold elements_step. rewrite <- Hv.
  destruct (value s) as [[v r]|] eqn:Hval; [|reflexivity].
  specialize (Hlen v r eq_refl).
  destruct (skip_ws r) as [|c r1] eqn:Hs; [reflexivity|].
  apply skip_ws_cons in Hs.
  rewrite (He r1) by lia. reflexivity.
Qed.

Lemma members_step_ext value value' members members' (s : jsstring) acc :
  (forall r, (List.length r < List.length s)%nat -> value r = value' r) ->
  (forall r v r', value r = Some (v, r') -> (List.length r' <= List.length r)%nat) ->
  (forall r a, (List.length r < List.length s)%nat -> members r a = members' r a) ->
  members_step value members s acc = members_step value' members' s acc.
Proof.
  intros Hv Hlen Hm. unfold members_step.
  destruct (skip_ws s) as [|c r] eqn:Hs; [reflexivity|].
  apply skip_ws_cons in Hs.
  destruct (c =? 34)%N; [|reflexivity].
  destruct (parse_chars r) as [[k r1]|] eqn:Hc; [|reflexivity].
  apply parse_chars_length in Hc.
  destruct (skip_ws r1) as [|c1 r2] eqn:Hs1; [reflexivity|].
  apply skip_ws_cons in Hs1.
  destruct (c1 =? 58)%N; [|reflexivity].
  rewrite <- (Hv r2) by lia.
  destruct (value r2) as [[v r3]|] eqn:Hval; [|reflexivity].
  apply Hlen in Hval.
  destruct (skip_ws r3) as [|c3 r4] eqn:Hs3; [reflexivity|].
  apply skip_ws_cons in Hs3.
  rewrite (Hm r4) by lia. reflexivity.
Qed.

Lemma parse_fuel (f : nat) :
  forall f',
    (forall s, (2 * List.length s + 1 <= f)%nat -> (2 * List.length s + 1 <= f')%nat ->
               parse_value f s = parse_value f' s) /\
    (forall s, (2 * List.length s + 2 <= f)%nat -> (2 * List.length s + 2 <= f')%nat ->
               parse_elements f s = parse_elements f' s) /\
    (forall s acc, (2 * List.length s + 2 <= f)%nat -> (2 * List.length s + 2 <= f')%nat ->
                   parse_members f s acc = parse_members f' s acc).
Proof.
  induction f as [|f IH]; intros f'.
  { repeat split; intros; lia. }
  destruct f' as [|f'].
  { repeat split; intros; lia. }
  destruct (IH f') as (IHv & IHe & IHm).
  destruct (parse_length f) as (Lv & _ & _).
  split; [|split].
  - intros s H1 H2. cbn [parse_value]. apply value_step_ext.
    + intros r Hr. apply IHe; lia.
    + intros r Hr. apply IHm; lia.
  - intros s H1 H2. cbn [parse_elements]. apply elements_step_ext.
    + apply IHv; lia.
    + intros v r. apply Lv.
    + intros r Hr. apply IHe; lia.
  - intros s acc H1 H2. cbn [parse_members]. apply members_step_ext.
    + intros r Hr. apply IHv; lia.
    + exact Lv.
    + intros r a Hr. apply IHm; lia.
Qed.

(** More fuel than [enough_fuel] changes nothing: when [JSON_parse] fails,
    the text is not JSON. *)
Theorem parse_value_fuel (text : jsstring) (fuel : nat) :
  (enough_fuel text <= fuel)%nat ->
  parse_value fuel text = parse_value (enough_fuel text) text.
Proof.
  intros H. unfold enough_fuel in *.
  destruct (parse_fuel fuel (2 * List.length text + 2)) as (Hv & _).
  apply Hv; lia.
Qed.

End Parsing.

(* ===================================================================== *)
(** * Properties of the selection geometry                               *)
(* ===================================================================== *)

Module Geometry.
Import JS App.
Local Open Scope Q_scope.

Lemma not_Qle_bool (a b : Q) : negb (Qle_bool a b) = true <-> b < a.
Proof.
  rewrite negb_true_iff. split.
  - intros E. apply Qnot_le_lt. intros L. apply Qle_bool_iff in L. congruence.
  - intros L. destruct (Qle_bool a b) eqn:E; [|reflexivity].
    apply Qle_bool_iff in E. exfalso. apply (Qlt_not_le _ _ L E).
Qed.

Lemma outside_spec (el : ScrollContainer) (rect : Rect) :
  outside el rect = true <-> outside_cond el rect.
Proof.
  unfold outside, outside_cond, vx, vy.
  rewrite !orb_true_iff, !not_Qle_bool. tauto.
Qed.

Lemma inside_not_outside (el : ScrollContainer) (rect : Rect) :
  0 <= w rect -> 0 <= h rect -> inside el rect -> outside el rect = false.
Proof.
  intros Hw Hh (H1 & H2 & H3 & H4).
  destruct (outside el rect) eqn:E; [|reflexivity].
  apply outside_spec in E. unfold outside_cond in E.
  exfalso. destruct E as [E|[E|[E|E]]]; lra.
Qed.

Lemma dpr_of_nonneg (b : Browser) : 0 <= devicePixelRatio b -> 0 <= dpr_of b.
Proof.
  unfold dpr_of. intros H. destruct (Qeq_bool (devicePixelRatio b) 0); lra.
Qed.

Lemma outside_message_distinct :
  outside_message <> js "Canvas context not available".
Proof. discriminate. Qed.

(** C10. The selection rectangle does not depend on the direction of the
    drag: [normalizeRect a b] and [normalizeRect b a] denote the same
    rectangle, whose corner is the componentwise minimum of the two points
    and whose width and height are the absolute differences, hence never
    negative. *)
Theorem normalizeRect_drag_direction (a b : Point) :
  Rect_eq (normalizeRect a b) (normalizeRect b a) /\
  x (normalizeRect a b) == Qmin (px a) (px b) /\
  y (normalizeRect a b) == Qmin (py a) (py b) /\
  w (normalizeRect a b) == Qabs (px a - px b) /\
  h (normalizeRect a b) == Qabs (py a - py b) /\
  0 <= w (normalizeRect a b) /\
  0 <= h (normalizeRect a b).
Proof.
  unfold Rect_eq, normalizeRect; cbn [x y w h].
  split; [|repeat split; try reflexivity; apply Qabs_nonneg].
  split; [apply Q.min_comm|].
  split; [apply Q.min_comm|].
  split; rewrite Qabs_Qminus; reflexivity.
Qed.

(** C2, as stated, fails: a selection fully inside the viewport still
    makes the function throw when the browser gives no 2D context. *)
Lemma crop_inside_can_throw :
  inside Examples.viewport Examples.selection /\
  cropScreenshotFromScrollContainer Examples.no_context Examples.viewport Examples.selection
  = Threw (Some (js "Canvas context not available")).
Proof.
  split; [|vm_compute; reflexivity].
  unfold inside, vx, vy; simpl. repeat split; unfold Qle; simpl; lia.
Qed.

(** C2, amended.  When [html2canvas] resolved and a 2D context is
    available, a selection of non-negative width and height that lies fully
    inside the visible viewport is cropped without error from source
    position [(vx * dpr, vy * dpr)] with source size [(w * dpr, h * dpr)],
    where [dpr] is the device pixel ratio, or 1 when that is zero. *)
Theorem crop_inside_viewport (b : Browser) (el : ScrollContainer) (rect : Rect) :
  html2canvas_failure b = None ->
  context2d b = true ->
  0 <= w rect -> 0 <= h rect ->
  inside el rect ->
  exists d,
    cropScreenshotFromScrollContainer b el rect
    = DataURL (html2canvas_options b el) d /\
    scale (html2canvas_options b el) = dpr_of b /\
    sx d == vx el rect * dpr_of b /\
    sy d == vy el rect * dpr_of b /\
    sw d == w rect * dpr_of b /\
    sh d == h rect * dpr_of b /\
    (devicePixelRatio b == 0 -> dpr_of b = 1) /\
    (~ devicePixelRatio b == 0 -> dpr_of b = devicePixelRatio b).
Proof.
  intros Hcap Hctx Hw Hh Hin.
  pose proof (inside_not_outside el rect Hw Hh Hin) as Hout.
  destruct Hin as (H1 & H2 & H3 & H4). unfold vx, vy in *.
  unfold cropScreenshotFromScrollContainer.
  rewrite Hcap, Hout, Hctx. simpl.
  eexists. split; [reflexivity|]. split; [reflexivity|]. simpl.
  repeat split.
  - rewrite Q.max_r by assumption. reflexivity.
  - rewrite Q.max_r by assumption. reflexivity.
  - rewrite Q.min_l by lra. reflexivity.
  - rewrite Q.min_l by lra. reflexivity.
  - intros E. unfold dpr_of. apply Qeq_bool_iff in E. rewrite E. reflexivity.
  - intros E. unfold dpr_of.
    destruct (Qeq_bool (devicePixelRatio b) 0) eqn:E'; [|reflexivity].
    apply Qeq_bool_iff in E'. contradiction.
Qed.

(** The sample selection on the retina display: cropped at (20, 40) with
    size 200 by 100. *)
Lemma crop_inside_viewport_witness :
  exists d,
    cropScreenshotFromScrollContainer Examples.retina Examples.viewport Examples.selection
    = DataURL (html2canvas_options Examples.retina Examples.viewport) d /\
    scale (html2canvas_options Examples.retina Examples.viewport) = dpr_of Examples.retina /\
    sx d == vx Examples.viewport Examples.selection * dpr_of Examples.retina /\
    sy d == vy Examples.viewport Examples.selection * dpr_of Examples.retina /\
    sw d == w Examples.selection * dpr_of Examples.retina /\
    sh d == h Examples.selection * dpr_of Examples.retina /\
    (devicePixelRatio Examples.retina == 0 -> dpr_of Examples.retina = 1) /\
    (~ devicePixelRatio Examples.retina == 0 ->
     dpr_of Examples.retina = devicePixelRatio Examples.retina).
Proof.
  apply (crop_inside_viewport Examples.retina Examples.viewport Examples.selection).
  - reflexivity.
  - reflexivity.
  - unfold Qle; simpl; lia.
  - unfold Qle; simpl; lia.
  - unfold inside, vx, vy; simpl. repeat split; unfold Qle; simpl; lia.
Defined.

(** C5, as stated, fails in both directions of its case split: a
    selection outside the visible area does not raise the outside-area
    error when [html2canvas] has already failed, and a selection that is
    not outside yields no data URL when there is no 2D context. *)
Lemma outside_error_not_the_only_exit :
  (outside_cond Examples.scrolled_away Examples.selection /\
   cropScreenshotFromScrollContainer Examples.capture_fails Examples.scrolled_away
     Examples.selection
   <> Threw (Some outside_message)) /\
  (~ outside_cond Examples.viewport Examples.selection /\
   forall capture d,
     cropScreenshotFromScrollContainer Examples.no_context Examples.viewport
       Examples.selection
     <> DataURL capture d).
Proof.
  split; split.
  - right; left. unfold vy; simpl. unfold Qlt; simpl; lia.
  - vm_compute. discriminate.
  - intros Hc. apply outside_spec in Hc. vm_compute in Hc. discriminate.
  - intros capture d. vm_compute. discriminate.
Qed.

(** C5, amended.  Once [html2canvas] has resolved, the function throws
    the outside-area error if and only if [vx + w < 0], [vy + h < 0],
    [vx > clientWidth] or [vy > clientHeight]; otherwise it throws
    "Canvas context not available" when the browser gives no 2D context,
    and else produces the data URL of a crop whose top-left source
    coordinates are [max(0, vx) * dpr] and [max(0, vy) * dpr], which are
    not negative for a non-negative device pixel ratio. *)
Theorem outside_viewport_error (b : Browser) (el : ScrollContainer) (rect : Rect) :
  html2canvas_failure b = None ->
  0 <= devicePixelRatio b ->
  (cropScreenshotFromScrollContainer b el rect = Threw (Some outside_message)
   <-> outside_cond el rect) /\
  (~ outside_cond el rect ->
   if context2d b then
     exists d,
       cropScreenshotFromScrollContainer b el rect
       = DataURL (html2canvas_options b el) d /\
       sx d == Qmax 0 (vx el rect) * dpr_of b /\
       sy d == Qmax 0 (vy el rect) * dpr_of b /\
       0 <= sx d /\ 0 <= sy d
   else
     cropScreenshotFromScrollContainer b el rect
     = Threw (Some (js "Canvas context not available"))).
Proof.
  intros Hcap Hdpr.
  pose proof (dpr_of_nonneg b Hdpr) as Hd.
  unfold cropScreenshotFromScrollContainer. rewrite Hcap.
  destruct (outside el rect) eqn:Hout.
  - apply outside_spec in Hout. split; [tauto|]. intros Hn. contradiction.
  - assert (Hn : ~ outside_cond el rect).
    { intros Hc. apply outside_spec in Hc. congruence. }
    split.
    + split; [|intros Hc; contradiction].
      destruct (context2d b); cbn [negb]; intros E; [discriminate|].
      exfalso. apply outside_message_distinct. congruence.
    + intros _. destruct (context2d b); simpl; [|reflexivity].
      eexists. split; [reflexivity|]. simpl. fold (vx el rect) (vy el rect).
      repeat split; try reflexivity.
      * apply Qmult_le_0_compat; [apply Q.le_max_l | assumption].
      * apply Qmult_le_0_compat; [apply Q.le_max_l | assumption].
Qed.

(** The sample selection after scrolling far past it. *)
Lemma outside_viewport_error_witness :
  (cropScreenshotFromScrollContainer Examples.retina Examples.scrolled_away Examples.selection
   = Threw (Some outside_message)
   <-> outside_cond Examples.scrolled_away Examples.selection) /\
  (~ outside_cond Examples.scrolled_away Examples.selection ->
   if context2d Examples.retina then
     exists d,
       cropScreenshotFromScrollContainer Examples.retina Examples.scrolled_away
         Examples.selection
       = DataURL (html2canvas_options Examples.retina Examples.scrolled_away) d /\
       sx d == Qmax 0 (vx Examples.scrolled_away Examples.selection) * dpr_of Examples.retina /\
       sy d == Qmax 0 (vy Examples.scrolled_away Examples.selection) * dpr_of Examples.retina /\
       0 <= sx d /\ 0 <= sy d
   else
     cropScreenshotFromScrollContainer Examples.retina Examples.scrolled_away
       Examples.selection
     = Threw (Some (js "Canvas context not available"))).
Proof.
  apply (outside_viewport_error Examples.retina Examples.scrolled_away Examples.selection).
  - reflexivity.
  - unfold Qle; simpl; lia.
Defined.

End Geometry.

(* ===================================================================== *)
(** * Properties of the perspective columns                              *)
(* ===================================================================== *)

Module Columns.
Import JS App Strings.

(** An update of the columns called [colId] that keeps the three fixed
    fields is a frame-respecting update of the whole list. *)
Lemma inColumn_untouched (colId : jsstring) (g : Column -> Column) (prev : list Column) :
  (forall c, id (g c) = id c /\ title (g c) = title c /\ contextBase (g c) = contextBase c) ->
  untouched colId prev (inColumn colId g prev).
Proof.
  intros Hg. unfold untouched, inColumn.
  induction prev as [|c prev IH]; simpl; constructor; [|exact IH].
  destruct (str_eqb (id c) colId) eqn:E.
  - destruct (Hg c) as (H1 & H2 & H3). repeat split; auto.
    intros Hn. apply str_eqb_neq in Hn. congruence.
  - repeat split; auto.
Qed.

Lemma untouched_trans (colId : jsstring) (l1 l2 l3 : list Column) :
  untouched colId l1 l2 -> untouched colId l2 l3 -> untouched colId l1 l3.
Proof.
  unfold untouched. intros H12. revert l3.
  induction H12 as [|c1 c2 l1 l2 (Hi & Ht & Hc & Hf) _ IH]; intros l3 H23;
    inversion H23 as [|c2' c3 l2' l3' (Hi' & Ht' & Hc' & Hf') Hrest]; subst;
    constructor; [|apply IH; assumption].
  repeat split; try congruence.
  intros Hn. rewrite Hf' by congruence. apply Hf. assumption.
Qed.

Lemma untouched_refl (colId : jsstring) (l : list Column) : untouched colId l l.
Proof. unfold untouched. induction l; constructor; auto. Qed.

Lemma optimistic_fixed (q : jsstring) (c : Column) :
  id (optimistic q c) = id c /\ title (optimistic q c) = title c /\
  contextBase (optimistic q c) = contextBase c.
Proof. repeat split. Qed.

Lemma stopLoading_fixed (c : Column) :
  id (stopLoading c) = id c /\ title (stopLoading c) = title c /\
  contextBase (stopLoading c) = contextBase c.
Proof. repeat split. Qed.

Lemma answered_fixed (cleaned : jsstring) (c : Column) :
  id (answered cleaned c) = id c /\ title (answered cleaned c) = title c /\
  contextBase (answered cleaned c) = contextBase c.
Proof. repeat split. Qed.

Create HintDb columns.

#[local] Hint Resolve optimistic_fixed stopLoading_fixed answered_fixed
  inColumn_untouched untouched_refl : columns.

Lemma stopLoading_chats (colId : jsstring) (l : list Column) :
  map chat (inColumn colId stopLoading l) = map chat l.
Proof.
  unfold inColumn. rewrite map_map. apply map_ext.
  intros c. destruct (str_eqb (id c) colId); reflexivity.
Qed.

Section Guard.
Context {engine : Engine}.

Lemma askInColumn_colId closure colId text st st' p :
  askInColumn closure colId text st = (st', Some p) ->
  App.colId p = colId /\ myReq p = reqSeq st' /\ reqSeq st' = (reqSeq st + 1)%N /\
  nonempty (trim text) = true.
Proof.
  unfold askInColumn.
  destruct (nonempty (trim text)); simpl; [|discriminate].
  destruct (find _ closure); intros E; inversion E; subst; simpl. auto.
Qed.









(** C6. A call [askInColumn(colId, text)] leaves every column with a
    different id exactly as it was, and changes no column's [id], [title]
    or [contextBase]: in its optimistic update, in the whole of its
    synchronous part, and in the update made when the response arrives.
    The context it posts is the [contextBase] of the column asked in. *)
Theorem askInColumn_isolation closure colId text st :
  (forall q prev, untouched colId prev (inColumn colId (optimistic q) prev)) /\
  untouched colId (columns st) (columns (fst (askInColumn closure colId text st))) /\
  (forall p o st',
      snd (askInColumn closure colId text st) = Some p ->
      untouched colId (columns st') (columns (askInColumn_resume p o st'))) /\
  (forall p,
      snd (askInColumn closure colId text st) = Some p ->
      exists c, In c closure /\ id c = colId /\ context (request p) = contextBase c).
Proof.
  split; [auto with columns|]. split; [|split].
  - unfold askInColumn.
    destruct (nonempty (trim text)); simpl; [|apply untouched_refl].
    destruct (find _ closure); simpl; [auto with columns|].
    apply untouched_trans with (l2 := inColumn colId (optimistic (trim text)) (columns st));
      auto with columns.
  - intros p o st' Hp.
    destruct (askInColumn closure colId text st) as [st1 pend] eqn:Hask.
    simpl in Hp. subst pend.
    apply askInColumn_colId in Hask. destruct Hask as (Hid & _).
    unfold askInColumn_resume. rewrite Hid.
    destruct (try_block p o st'); simpl; auto with columns.
  - intros p. unfold askInColumn.
    destruct (nonempty (trim text)); simpl; [|discriminate].
    destruct (find _ closure) as [c|] eqn:Hf; simpl; [|discriminate].
    intros E. inversion E; subst p; clear E. simpl.
    apply find_some in Hf. destruct Hf as (Hin & Hid).
    apply str_eqb_eq in Hid. eauto.
Qed.

End Guard.


(** The reply to a question asked in the first sample column. *)
Lemma askInColumn_isolation_witness :
  exists p,
    snd (askInColumn (columns Examples.idle) (js "c1") (js "why?") Examples.idle) = Some p /\
    untouched (js "c1") (columns Examples.idle)
      (columns (@askInColumn_resume Examples.sample_engine p
                  (Responded 200 Examples.chat_reply_text) Examples.idle)).
Proof.
  eexists. split; [vm_compute; reflexivity|].
  destruct (@askInColumn_isolation Examples.sample_engine
              (columns Examples.idle) (js "c1") (js "why?") Examples.idle)
    as (_ & _ & Hresp & _).
  apply Hresp. vm_compute. reflexivity.
Defined.

End Columns.

(* ===================================================================== *)
(** * Properties of the two endpoints                                    *)
(* ===================================================================== *)

Module Endpoints.
Import JS Server Strings.



(** A value that passed [!v || typeof v !== "string"] is a non-empty
    string. *)
Lemma checked_string (v : option JSON) :
  negb (truthy v) || negb (isString v) = false ->
  exists s, v = Some (JString s) /\ nonempty s = true.
Proof.
  intros Hc. apply orb_false_iff in Hc. destruct Hc as (Ht & Hs).
  apply negb_false_iff in Ht, Hs.
  destruct v as [[| | | s | |]|]; try discriminate. eauto.
Qed.

Section Routes.
Context {engine : Engine}.

(** What is known when [explain] reaches the model call. *)
Lemma explain_inv reqBody rq k :
  explain reqBody = CallModel rq k ->
  let b := body_or_empty reqBody in
  exists url ui,
    getProp b (js "imageDataUrl") = Some (JString url) /\
    startsWith (js "data:image/") url = true /\
    userInstruction_of (getProp b (js "instruction")) = Some ui /\
    rq = {| model := js "gpt-4.1-mini";
            instructions := None;
            input := [ {| role := User;
                          content := Parts
                            [ InputText (explain_systemPrompt ++ extraInstruction ui);
                              InputImage url ] |} ];
            format_name := js "ScreenAssistResponse";
            format_schema := ScreenAssistResponse |} /\
    k = after_call.
Proof.
  intros E. cbv zeta. unfold explain in E. cbv zeta in E.
  set (b := body_or_empty reqBody) in *.
  destruct (negb (truthy (getProp b (js "imageDataUrl")))
            || negb (isString (getProp b (js "imageDataUrl")))) eqn:Hc; [discriminate|].
  apply checked_string in Hc. destruct Hc as (url & Hurl & _).
  rewrite Hurl in E |- *. cbn [asString] in E.
  destruct (startsWith (js "data:image/") url) eqn:Hp; cbn [negb] in E; [|discriminate].
  destruct (userInstruction_of (getProp b (js "instruction"))) as [ui|]; [|discriminate].
  inversion E. exists url, ui. auto.
Qed.

(** What is known when [chat] reaches the model call. *)
Lemma chat_inv reqBody rq k :
  chat reqBody = CallModel rq k ->
  let b := body_or_empty reqBody in
  exists ctx q turns,
    getProp b (js "context") = Some (JString ctx) /\
    getProp b (js "question") = Some (JString q) /\
    turns_of (getProp b (js "history")) = Some turns /\
    rq = {| model := js "gpt-4.1-mini";
            instructions := Some (chat_systemPrompt ctx);
            input := turns ++ [ {| role := User; content := Plain q |} ];
            format_name := js "ChatResponse";
            format_schema := ChatResponse |} /\
    k = after_call.
Proof.
  intros E. cbv zeta. unfold chat in E. cbv zeta in E.
  set (b := body_or_empty reqBody) in *.
  destruct (negb (truthy (getProp b (js "context")))
            || negb (isString (getProp b (js "context")))) eqn:Hc; [discriminate|].
  destruct (negb (truthy (getProp b (js "question")))
            || negb (isString (getProp b (js "question")))) eqn:Hq; [discriminate|].
  apply checked_string in Hc, Hq.
  destruct Hc as (ctx & Hctx & _). destruct Hq as (q & Hqq & _).
  rewrite Hctx, Hqq in E |- *. cbn [asString] in E.
  destruct (turns_of (getProp b (js "history"))) as [turns|]; [|discriminate].
  inversion E. exists ctx, q, turns. auto.
Qed.

Lemma relay_status (jsonText : jsstring) :
  status (relay jsonText) = 200%N <-> exists v, JSON_parse jsonText = Some v.
Proof.
  unfold relay. destruct (JSON_parse jsonText) as [v|]; simpl.
  - split; eauto.
  - split; [discriminate | intros [v Hv]; discriminate].
Qed.

(** C9. Both handlers validate the request before any call to the model
    API.  [/api/explain] answers 400 with an error message, and issues no
    call, whenever [imageDataUrl] is missing or not a string, or does not
    start with ["data:image/"]; [/api/chat] answers 400, and issues no call,
    whenever [context] or [question] is missing, falsy or not a string. *)
Theorem validation_before_model_call (reqBody : option JSON) :
  let b := body_or_empty reqBody in
  (isString (getProp b (js "imageDataUrl")) = false \/
   startsWith (js "data:image/") (asString (getProp b (js "imageDataUrl"))) = false ->
   exists msg, explain reqBody = Respond (error_response 400 msg)) /\
  (truthy (getProp b (js "context")) = false \/
   isString (getProp b (js "context")) = false \/
   truthy (getProp b (js "question")) = false \/
   isString (getProp b (js "question")) = false ->
   exists msg, chat reqBody = Respond (error_response 400 msg)).
Proof.
  intros b. split.
  - intros Hbad. unfold explain. fold b.
    destruct (negb (truthy (getProp b (js "imageDataUrl")))
              || negb (isString (getProp b (js "imageDataUrl")))) eqn:Hc; [eauto|].
    apply checked_string in Hc. destruct Hc as (url & Hurl & _).
    rewrite Hurl in Hbad |- *. cbn [asString isString] in *.
    destruct Hbad as [Hbad | Hbad]; [discriminate|]. rewrite Hbad. simpl. eauto.
  - intros Hbad. unfold chat. fold b.
    destruct (negb (truthy (getProp b (js "context")))
              || negb (isString (getProp b (js "context")))) eqn:Hc; [eauto|].
    destruct (negb (truthy (getProp b (js "question")))
              || negb (isString (getProp b (js "question")))) eqn:Hq; [eauto|].
    exfalso. apply orb_false_iff in Hc, Hq.
    destruct Hc as (Hc1 & Hc2), Hq as (Hq1 & Hq2).
    apply negb_false_iff in Hc1, Hc2, Hq1, Hq2.
    destruct Hbad as [H|[H|[H|H]]]; congruence.
Qed.



(** C4. Whatever text the model returns, either endpoint answers 502 with
    the error "Model did not return valid JSON" and the raw text if and
    only if that text fails to parse as JSON; when it parses, the parsed
    value is the body of a 200 response. *)
Theorem invalid_json_is_bad_gateway (reqBody : option JSON) (rq : ModelRequest)
    (k : ModelOutcome -> Response) (jsonText : jsstring) :
  explain reqBody = CallModel rq k \/ chat reqBody = CallModel rq k ->
  (k (Returned jsonText)
   = {| status := 502;
        body := JObject [(js "error", JString (js "Model did not return valid JSON"));
                         (js "raw", JString jsonText)] |}
   <-> JSON_parse jsonText = None) /\
  (status (k (Returned jsonText)) = 502%N <-> JSON_parse jsonText = None) /\
  (forall parsed,
      JSON_parse jsonText = Some parsed ->
      k (Returned jsonText) = {| status := 200; body := parsed |}).
Proof.
  intros Hcall.
  assert (Hk : k = after_call).
  { destruct Hcall as [E|E]; [apply explain_inv in E | apply chat_inv in E].
    - destruct E as (? & ? & _ & _ & _ & _ & Hk). exact Hk.
    - destruct E as (? & ? & ? & _ & _ & _ & _ & Hk). exact Hk. }
  subst k. simpl. unfold relay.
  destruct (JSON_parse jsonText) as [v|]; simpl.
  - repeat split; try discriminate. intros parsed E. congruence.
  - repeat split; try discriminate.
Qed.

(** C3, as stated, fails: the handlers return with status 200 whatever
    JSON the model produced.  An empty object is relayed by [/api/explain]
    and a bare string by [/api/chat], neither of which has the fields of
    the schema. *)
Lemma schema_not_enforced :
  (exists rq k,
      @explain Examples.sample_engine (Some Examples.explain_body) = CallModel rq k /\
      status (k (Returned (js "{}"))) = 200%N /\
      conforms ScreenAssistResponse (body (k (Returned (js "{}")))) = false) /\
  (exists rq k,
      @chat Examples.sample_engine (Some Examples.chat_body) = CallModel rq k /\
      status (k (Returned (Examples.quoted "I cannot help with that."))) = 200%N /\
      conforms ChatResponse
        (body (k (Returned (Examples.quoted "I cannot help with that.")))) = false).
Proof.
  split; eexists; eexists; (split; [vm_compute; reflexivity|]);
    split; vm_compute; reflexivity.
Qed.

(** C3, amended.  Each endpoint forwards its fixed schema to the model API
    as the requested output format and does not check the returned JSON
    against it: the status is 200 exactly when the returned text parses as
    JSON, and the body is then the parsed value unchanged. *)
Theorem schema_forwarded_not_checked (reqBody : option JSON) (rq : ModelRequest)
    (k : ModelOutcome -> Response) (sc : Schema) :
  (explain reqBody = CallModel rq k /\ sc = ScreenAssistResponse) \/
  (chat reqBody = CallModel rq k /\ sc = ChatResponse) ->
  format_schema rq = sc /\
  forall jsonText,
    (status (k (Returned jsonText)) = 200%N <-> exists v, JSON_parse jsonText = Some v) /\
    (forall v, JSON_parse jsonText = Some v -> body (k (Returned jsonText)) = v).
Proof.
  intros Hcall.
  assert (Hk : k = after_call /\ format_schema rq = sc).
  { destruct Hcall as [(E & ->)|(E & ->)]; [apply explain_inv in E | apply chat_inv in E].
    - destruct E as (? & ? & _ & _ & _ & -> & Hk). auto.
    - destruct E as (? & ? & ? & _ & _ & _ & -> & Hk). auto. }
  destruct Hk as (-> & Hsc). split; [exact Hsc|].
  intros jsonText. simpl. split; [apply relay_status|].
  intros v Hv. unfold relay. rewrite Hv. reflexivity.
Qed.

End Routes.

(** An image given by an http URL, and a chat body without a question. *)
Lemma validation_before_model_call_witness :
  (exists msg,
      @explain Examples.sample_engine (Some Examples.explain_body_http_url)
      = Respond (error_response 400 msg)) /\
  (exists msg,
      @chat Examples.sample_engine (Some Examples.chat_body_no_question)
      = Respond (error_response 400 msg)).
Proof.
  split.
  - apply (@validation_before_model_call Examples.sample_engine
             (Some Examples.explain_body_http_url)).
    right. vm_compute. reflexivity.
  - apply (@validation_before_model_call Examples.sample_engine
             (Some Examples.chat_body_no_question)).
    right. right. left. vm_compute. reflexivity.
Defined.



(** A model that answers in prose. *)
Lemma invalid_json_is_bad_gateway_witness :
  exists rq,
    @explain Examples.sample_engine (Some Examples.explain_body) = CallModel rq after_call /\
    (status (after_call (Returned (js "Sorry, I can't see the image."))) = 502%N
     <-> JSON_parse (js "Sorry, I can't see the image.") = None).
Proof.
  eexists. split; [vm_compute; reflexivity|].
  eapply (@invalid_json_is_bad_gateway Examples.sample_engine (Some Examples.explain_body)
           _ after_call (js "Sorry, I can't see the image.")).
  left. vm_compute. reflexivity.
Defined.

(** The sample chat request. *)
Lemma schema_forwarded_not_checked_witness :
  exists rq,
    format_schema rq = ChatResponse /\
    forall jsonText,
      (status (after_call (Returned jsonText)) = 200%N
       <-> exists v, JSON_parse jsonText = Some v) /\
      (forall v, JSON_parse jsonText = Some v -> body (after_call (Returned jsonText)) = v).
Proof.
  eexists.
  eapply (@schema_forwarded_not_checked Examples.sample_engine (Some Examples.chat_body)
           _ after_call ChatResponse).
  right. split; [vm_compute; reflexivity | reflexivity].
Defined.

End Endpoints.

(* ===================================================================== *)
(** * Edge behaviour of the two endpoints                                *)
(* ===================================================================== *)

Module ServerEdges.
Import JS Server Strings Wire.

Lemma error_response_inj code msg code' msg' :
  error_response code msg = error_response code' msg' -> code = code' /\ msg = msg'.
Proof. unfold error_response. intros E. inversion E. auto. Qed.

Lemma required_is_not_invalid :
  js "imageDataUrl is required"
  <> js "imageDataUrl must be a valid base64 data URL (e.g. data:image/png;base64,...)".
Proof. intros E. vm_compute in E. discriminate E. Qed.

Lemma context_is_not_question : js "context is required" <> js "question is required".
Proof. intros E. vm_compute in E. discriminate E. Qed.

Lemma in_skipn_in {A} (n : nat) (l : list A) (x : A) : In x (skipn n l) -> In x l.
Proof.
  intros H. rewrite <- (firstn_skipn n l). apply in_or_app. right. exact H.
Qed.

Lemma internal_error_status m : status (internal_error m) = 500%N.
Proof. reflexivity. Qed.

Lemma truthy_string (v : option JSON) :
  truthy v = true -> isString v = true ->
  exists s, v = Some (JString s) /\ nonempty s = true.
Proof.
  destruct v as [[| | | s | |]|]; simpl; try discriminate. eauto.
Qed.

(** Two responses that differ in a constructor or in a character. *)
Ltac differ E := exfalso; solve [discriminate E | inversion E].

Section Routes.
Context {engine : Engine}.

(** X1. [/api/explain] has two 400 answers and tells them apart by what is
    wrong: "imageDataUrl is required" exactly when the field is missing,
    falsy (the empty string included) or not a string, and the data-URL
    message exactly when it is a non-empty string that does not start with
    ["data:image/"]. *)
Theorem explain_rejections (reqBody : option JSON) :
  let v := getProp (body_or_empty reqBody) (js "imageDataUrl") in
  (explain reqBody = Respond (error_response 400 (js "imageDataUrl is required"))
   <-> truthy v = false \/ isString v = false) /\
  (explain reqBody
   = Respond (error_response 400
       (js "imageDataUrl must be a valid base64 data URL (e.g. data:image/png;base64,...)"))
   <-> exists url, v = Some (JString url) /\ nonempty url = true /\
                   startsWith (js "data:image/") url = false).
Proof.
  intros v. unfold explain. fold v.
  destruct (truthy v) eqn:Ht; cbn [negb orb].
  2:{ split; [tauto|]. split.
      - intros E. differ E.
      - intros (url & Hv & Hn & _). rewrite Hv in Ht. simpl in Ht. congruence. }
  destruct (isString v) eqn:Hs; cbn [negb].
  2:{ split; [tauto|]. split.
      - intros E. differ E.
      - intros (url & Hv & _). rewrite Hv in Hs. discriminate. }
  destruct (truthy_string v Ht Hs) as (url & Hv & Hn). rewrite Hv. cbn [asString].
  destruct (startsWith (js "data:image/") url) eqn:Hp; cbn [negb].
  - split; split.
    + destruct (userInstruction_of _); discriminate.
    + intros [E|E]; discriminate.
    + destruct (userInstruction_of _); discriminate.
    + intros (url' & E & _ & Hp'). inversion E; subst url'. congruence.
  - split; split.
    + intros E. differ E.
    + intros [E|E]; discriminate.
    + intros _. exists url. auto.
    + reflexivity.
Qed.

(** X2. [/api/chat] checks [context] before [question]: it answers
    "context is required" exactly when [context] is missing, falsy or not a
    string, whatever the question is, and "question is required" exactly
    when [context] is a non-empty string and [question] is not. *)
Theorem chat_rejections (reqBody : option JSON) :
  let c := getProp (body_or_empty reqBody) (js "context") in
  let q := getProp (body_or_empty reqBody) (js "question") in
  (chat reqBody = Respond (error_response 400 (js "context is required"))
   <-> truthy c = false \/ isString c = false) /\
  (chat reqBody = Respond (error_response 400 (js "question is required"))
   <-> (truthy c = true /\ isString c = true) /\
       (truthy q = false \/ isString q = false)).
Proof.
  intros c q. unfold chat. fold c q.
  destruct (negb (truthy c) || negb (isString c)) eqn:Hc.
  - assert (Hc' : truthy c = false \/ isString c = false).
    { apply orb_true_iff in Hc. destruct Hc as [H|H]; apply negb_true_iff in H; auto. }
    split; [tauto|]. split.
    + intros E. differ E.
    + intros ((H1 & H2) & _). destruct Hc'; congruence.
  - apply orb_false_iff in Hc. destruct Hc as (H1 & H2).
    apply negb_false_iff in H1, H2.
    destruct (negb (truthy q) || negb (isString q)) eqn:Hq.
    + assert (Hq' : truthy q = false \/ isString q = false).
      { apply orb_true_iff in Hq. destruct Hq as [H|H]; apply negb_true_iff in H; auto. }
      split; split; auto.
      * intros E. differ E.
      * intros [E|E]; congruence.
    + apply orb_false_iff in Hq. destruct Hq as (H3 & H4).
      apply negb_false_iff in H3, H4.
      split; split.
      * destruct (turns_of _); discriminate.
      * intros [E|E]; congruence.
      * destruct (turns_of _); discriminate.
      * intros (_ & [E|E]); congruence.
Qed.

Lemma internal_error_body message :
  exists msg, nonempty msg = true /\
              body (internal_error message) = JObject [(js "error", JString msg)].
Proof.
  unfold internal_error. destruct message as [m|].
  - destruct (nonempty m) eqn:Hm.
    + exists m. split; [exact Hm | reflexivity].
    + exists (js "Internal server error"). split; reflexivity.
  - exists (js "Internal server error"). split; reflexivity.
Qed.

Lemma after_call_cases (o : ModelOutcome) :
  (status (after_call o) = 200%N /\
   exists text, o = Returned text /\ JSON_parse text = Some (body (after_call o))) \/
  (status (after_call o) = 502%N /\
   exists text, o = Returned text /\ JSON_parse text = None /\
     body (after_call o)
     = JObject [(js "error", JString (js "Model did not return valid JSON"));
                (js "raw", JString text)]) \/
  (status (after_call o) = 500%N /\
   exists message msg, o = Rejected message /\ nonempty msg = true /\
     body (after_call o) = JObject [(js "error", JString msg)]).
Proof.
  destruct o as [text | message]; cbn [after_call].
  - unfold relay. destruct (JSON_parse text) as [v|] eqn:E; cbn [status body].
    + left. eauto.
    + right. left. split; [reflexivity|]. exists text. auto.
  - right. right. split; [reflexivity|]. exists message.
    destruct (internal_error_body message) as (msg & Hn & Hb).
    exists msg. auto.
Qed.

(** Every answer is a 400 with a message, the 500 of the outer [catch],
    or what follows the model call. *)
Lemma answer_cases (reqBody : option JSON) (o : ModelOutcome) (r : Response) :
  r = answer (explain reqBody) o \/ r = answer (chat reqBody) o ->
  (exists msg, nonempty msg = true /\ r = error_response 400 msg) \/
  (exists m, r = internal_error m) \/
  r = after_call o.
Proof.
  intros Hr. destruct Hr as [-> | ->].
  - unfold explain.
    destruct (negb _ || negb _); [left; eexists; split; [|reflexivity]; reflexivity|].
    destruct (negb (startsWith _ _)); [left; eexists; split; [|reflexivity]; reflexivity|].
    destruct (userInstruction_of _); simpl; eauto.
  - unfold chat.
    destruct (negb _ || negb _); [left; eexists; split; [|reflexivity]; reflexivity|].
    destruct (negb _ || negb _); [left; eexists; split; [|reflexivity]; reflexivity|].
    destruct (turns_of _); simpl; eauto.
Qed.

(** X3. Whatever the request and however the model call ends, either
    endpoint answers with status 200, 400, 500 or 502.  A 200 carries
    exactly the value the model's text parses to; a 502 only follows a text
    that does not parse; and every other answer is an object whose [error]
    member is a non-empty string. *)
Theorem response_statuses (reqBody : option JSON) (o : ModelOutcome) (r : Response) :
  r = answer (explain reqBody) o \/ r = answer (chat reqBody) o ->
  (status r = 200%N \/ status r = 400%N \/ status r = 500%N \/ status r = 502%N) /\
  (status r = 200%N ->
   exists text, o = Returned text /\ JSON_parse text = Some (body r)) /\
  (status r = 502%N -> exists text, o = Returned text /\ JSON_parse text = None) /\
  (status r <> 200%N ->
   exists msg, getProp (body r) (js "error") = Some (JString msg) /\ nonempty msg = true).
Proof.
  intros Hr. pose proof (answer_cases reqBody o r Hr) as H.
  destruct H as [(msg & Hn & ->) | [(m & ->) | ->]].
  - cbn [status body error_response]. split; [auto|].
    split; [discriminate|]. split; [discriminate|].
    intros _. exists msg. split; [reflexivity | exact Hn].
  - destruct (internal_error_body m) as (msg & Hn & Hb).
    rewrite internal_error_status, Hb. split; [auto|].
    split; [discriminate|]. split; [discriminate|].
    intros _. exists msg. split; [reflexivity | exact Hn].
  - destruct (after_call_cases o) as
      [(Hs & text & Ho & Hp) | [(Hs & text & Ho & Hp & Hb) | (Hs & m & msg & Ho & Hn & Hb)]];
      rewrite Hs.
    + split; [auto|]. split; [intros _; eauto|]. split; [discriminate|].
      intros Hne. exfalso. apply Hne. reflexivity.
    + split; [auto|]. split; [discriminate|]. split; [intros _; eauto|].
      intros _. rewrite Hb. eexists. split; reflexivity.
    + split; [auto|]. split; [discriminate|]. split; [discriminate|].
      intros _. rewrite Hb. exists msg. split; [reflexivity | exact Hn].
Qed.

Lemma ToString_scalar (v : JSON) : scalar v = true -> ToString v <> None.
Proof. destruct v as [| [|] | | | |]; simpl; discriminate. Qed.

Lemma orElse_scalar (v : option JSON) (d : jsstring) :
  match v with Some x => scalar x = true | None => True end ->
  scalar (orElse v d) = true.
Proof.
  unfold orElse. destruct v as [x|]; [|reflexivity].
  intros H. destruct (truthy (Some x)); [exact H | reflexivity].
Qed.

Lemma ToString_throws (v : JSON) :
  ToString v = None ->
  (exists ms, v = JObject ms /\ obj_get ms (js "toString") <> None) \/
  (exists l, v = JArray l).
Proof.
  destruct v as [| [|] | | | l | ms]; try discriminate.
  - intros _. right. eauto.
  - cbn [ToString]. destruct (obj_get ms (js "toString")) eqn:E; [|discriminate].
    intros _. left. exists ms. split; [reflexivity | rewrite E; discriminate].
Qed.

(** An array with an element that has no string conversion has none. *)
Lemma ToString_array_throws (l : list JSON) (ms : list (jsstring * JSON)) :
  In (JObject ms) l -> obj_get ms (js "toString") <> None ->
  ToString (JArray l) = None.
Proof.
  intros Hin Hown. cbn [ToString].
  match goal with
  | |- match ?e with _ => _ end = None => assert (H : e = None)
  end.
  { induction l as [|x r IH]; [contradiction|].
    destruct Hin as [-> | Hin].
    - cbn [ToString]. destruct (obj_get ms (js "toString")); [reflexivity | contradiction].
    - rewrite (IH Hin).
      destruct (match x with JNull => Some [] | _ => ToString x end); reflexivity. }
  rewrite H. reflexivity.
Qed.

(** X4. With a valid image, [/api/explain] calls the model unless the
    conversion of [instruction] to a string throws; then it answers 500
    without calling, with the message of that error.  The conversion
    cannot throw when [instruction] is missing or is a string, number,
    boolean or [null].  It throws "toString is not a function" when
    [instruction] is an object with an own member [toString], and "cannot
    convert object to primitive value" when [instruction] is an array that
    holds such an object; a failed conversion is one of the two. *)
Theorem explain_instruction_conversion (reqBody : option JSON) (url : jsstring) :
  let b := body_or_empty reqBody in
  let instruction := getProp b (js "instruction") in
  getProp b (js "imageDataUrl") = Some (JString url) ->
  startsWith (js "data:image/") url = true ->
  ((exists rq, explain reqBody = CallModel rq after_call)
   <-> ToString (orElse instruction []) <> None) /\
  (match instruction with Some x => scalar x = true | None => True end ->
   exists rq, explain reqBody = CallModel rq after_call) /\
  (forall ms, instruction = Some (JObject ms) ->
              obj_get ms (js "toString") <> None ->
              explain reqBody
              = Respond (internal_error
                           (Some (typeError_message (NotCallable (js "toString")))))) /\
  (forall l ms, instruction = Some (JArray l) ->
                In (JObject ms) l -> obj_get ms (js "toString") <> None ->
                explain reqBody
                = Respond (internal_error (Some (typeError_message NotPrimitive)))) /\
  (ToString (orElse instruction []) = None ->
   explain reqBody
   = Respond (internal_error (Some (typeError_message (NotCallable (js "toString")))))
   \/ explain reqBody
      = Respond (internal_error (Some (typeError_message NotPrimitive)))).
Proof.
  intros b instruction Hurl Hp.
  assert (Hne : nonempty url = true).
  { destruct url; [discriminate Hp | reflexivity]. }
  assert (Hex : explain reqBody
                = match ToString (orElse instruction []) with
                  | None =>
                      Respond (internal_error
                                 (Some (typeError_message
                                          (toString_error (orElse instruction [])))))
                  | Some s =>
                      CallModel
                        {| model := js "gpt-4.1-mini"; instructions := None;
                           input := [ {| role := User;
                                         content := Parts
                                           [ InputText (explain_systemPrompt
                                                        ++ extraInstruction (trim s));
                                             InputImage url ] |} ];
                           format_name := js "ScreenAssistResponse";
                           format_schema := ScreenAssistResponse |}
                        after_call
                  end).
  { unfold explain. fold b. rewrite Hurl. cbn [truthy isString asString].
    rewrite Hne, Hp. cbn [negb orb]. fold instruction. unfold userInstruction_of.
    destruct (ToString (orElse instruction [])); reflexivity. }
  rewrite Hex.
  split; [|split; [|split; [|split]]].
  - destruct (ToString (orElse instruction [])) as [s|]; split.
    + discriminate.
    + intros _. eauto.
    + intros (rq & E). discriminate.
    + intros H. exfalso. apply H. reflexivity.
  - intros Hsc. apply (orElse_scalar instruction []) in Hsc.
    apply ToString_scalar in Hsc.
    destruct (ToString (orElse instruction [])) as [s|]; [eauto | contradiction].
  - intros ms Hi Hown. rewrite Hi. cbn [orElse truthy ToString toString_error].
    destruct (obj_get ms (js "toString")); [reflexivity | contradiction].
  - intros l ms Hi Hin Hown. rewrite Hi.
    replace (orElse (Some (JArray l)) []) with (JArray l) by reflexivity.
    rewrite (ToString_array_throws l ms Hin Hown). reflexivity.
  - intros Hnone. rewrite Hnone.
    destruct (ToString_throws _ Hnone) as [(ms & -> & _) | (l & ->)];
      [left | right]; reflexivity.
Qed.

(** X5. [/api/chat] turns a [history] entry that is not an object
    ([null], a number, a string, an array) into a user turn with empty
    content, and no entry whose [text] is missing or is a string, number,
    boolean or [null] can make the conversion throw: for such a history and
    valid [context] and [question] the model is always called. *)
Theorem chat_history_coercion (reqBody : option JSON) :
  let b := body_or_empty reqBody in
  (forall m, (forall ms, m <> JObject ms) ->
             turn m = Some {| role := User; content := Plain [] |}) /\
  (truthy (getProp b (js "context")) = true ->
   isString (getProp b (js "context")) = true ->
   truthy (getProp b (js "question")) = true ->
   isString (getProp b (js "question")) = true ->
   Forall (fun m => match getProp m (js "text") with
                    | Some x => scalar x = true
                    | None => True
                    end)
          (safeHistory (getProp b (js "history"))) ->
   exists rq, chat reqBody = CallModel rq after_call).
Proof.
  intros b. split.
  - intros m Hm. unfold turn, turn_content, turn_role.
    destruct m; try reflexivity. exfalso. apply (Hm members). reflexivity.
  - intros H1 H2 H3 H4 Hall. unfold chat. fold b.
    rewrite H1, H2, H3, H4. cbn [negb orb].
    assert (Ht : exists turns, turns_of (getProp b (js "history")) = Some turns).
    { unfold turns_of.
      assert (Hall' : Forall (fun m => match getProp m (js "text") with
                                       | Some x => scalar x = true
                                       | None => True
                                       end)
                             (slice_last 30 (safeHistory (getProp b (js "history"))))).
      { unfold slice_last. apply Forall_forall. intros m Hin.
        rewrite Forall_forall in Hall. apply Hall.
        eapply in_skipn_in; eauto. }
      induction Hall' as [|m l Hm _ IH]; simpl; [eauto|].
      destruct IH as (ts & ->).
      unfold turn, turn_content.
      apply (orElse_scalar _ []) in Hm. apply ToString_scalar in Hm.
      destruct (ToString (orElse (getProp m (js "text")) [])); [eauto | contradiction]. }
    destruct Ht as (turns & ->). eauto.
Qed.

End Routes.

(** The sample chat request, answered by the model in prose. *)
Lemma response_statuses_witness :
  status (answer (@chat Examples.sample_engine (Some Examples.chat_body))
                 (Returned (js "Sorry."))) = 502%N.
Proof.
  destruct (@response_statuses Examples.sample_engine (Some Examples.chat_body)
              (Returned (js "Sorry."))
              (answer (@chat Examples.sample_engine (Some Examples.chat_body))
                      (Returned (js "Sorry.")))
              (or_intror eq_refl)) as (Hs & H200 & _ & _).
  destruct Hs as [H|[H|[H|H]]]; try exact H; vm_compute in H; discriminate H.
Defined.

(** The sample body with an object for an instruction. *)
Lemma explain_instruction_conversion_witness :
  @explain Examples.sample_engine (Some Samples.explain_body_odd_instruction)
  = Respond (error_response 500 (js "(intermediate value).toString is not a function")).
Proof.
  destruct (@explain_instruction_conversion Examples.sample_engine
              (Some Samples.explain_body_odd_instruction) Samples.data_url)
    as (_ & _ & H & _).
  - vm_compute. reflexivity.
  - vm_compute. reflexivity.
  - rewrite (H [(js "toString", JBool true)]).
    + vm_compute. reflexivity.
    + vm_compute. reflexivity.
    + vm_compute. discriminate.
Defined.

(** The sample body whose history holds [null], a number and a string. *)
Lemma chat_history_coercion_witness :
  exists rq,
    @chat Examples.sample_engine (Some Samples.chat_body_odd_history)
    = CallModel rq after_call.
Proof.
  apply (@chat_history_coercion Examples.sample_engine
           (Some Samples.chat_body_odd_history));
    try (vm_compute; reflexivity).
  vm_compute. repeat constructor.
Defined.

End ServerEdges.

(* ===================================================================== *)
(** * Asking and being answered                                          *)
(* ===================================================================== *)

Module Replies.
Import JS App UI Strings Wire.

Lemma parse_nonempty (raw : jsstring) (v : JSON) :
  JSON_parse raw = Some v -> nonempty raw = true.
Proof. destruct raw; [discriminate | reflexivity]. Qed.

Lemma inColumn_Forall2 (colId : jsstring) (g : Column -> Column) (cols : list Column) :
  Forall2 (fun c c' => if str_eqb (id c) colId then c' = g c else c' = c)
          cols (inColumn colId g cols).
Proof.
  unfold inColumn. induction cols as [|c cols IH]; simpl; constructor; auto.
  destruct (str_eqb (id c) colId); reflexivity.
Qed.

Lemma inColumn_absent (colId : jsstring) (g : Column -> Column) (cols : list Column) :
  (forall c, In c cols -> id c <> colId) -> inColumn colId g cols = cols.
Proof.
  intros H. unfold inColumn. induction cols as [|c cols IH]; simpl; [reflexivity|].
  rewrite str_eqb_neq by (apply H; left; reflexivity).
  rewrite IH by (intros x Hx; apply H; right; exact Hx). reflexivity.
Qed.

Lemma find_by_id (c : Column) (cols : list Column) :
  In c cols ->
  exists c0, find (fun x => str_eqb (id x) (id c)) cols = Some c0 /\
             In c0 cols /\ id c0 = id c.
Proof.
  intros Hin. destruct (find (fun x => str_eqb (id x) (id c)) cols) as [c0|] eqn:Hf.
  - apply find_some in Hf. destruct Hf as (H1 & H2). apply str_eqb_eq in H2. eauto.
  - apply (find_none _ _ Hf) in Hin. simpl in Hin.
    assert (E : str_eqb (id c) (id c) = true) by (apply str_eqb_eq; reflexivity).
    congruence.
Qed.

Lemma find_first {A} (f : A -> bool) (l : list A) (x : A) :
  find f l = Some x ->
  exists before after, l = before ++ x :: after /\
                       Forall (fun y => f y = false) before /\ f x = true.
Proof.
  induction l as [|y l IH]; simpl; [discriminate|].
  destruct (f y) eqn:Hy.
  - intros E. inversion E; subst. exists [], l. auto.
  - intros E. destruct (IH E) as (before & after & -> & Hb & Hx).
    exists (y :: before), after. auto.
Qed.

Lemma find_nowhere {A} (f : A -> bool) (l : list A) :
  find f l = None -> Forall (fun y => f y = false) l.
Proof.
  intros H. apply Forall_forall. intros y Hy. exact (find_none _ _ H y Hy).
Qed.

Lemma filter_drops_id (c : Column) (cols : list Column) :
  forall x, In x (filter (fun x => negb (str_eqb (id x) (id c))) cols) -> id x <> id c.
Proof.
  intros x Hx. apply filter_In in Hx. destruct Hx as (_ & Hx).
  apply negb_true_iff in Hx. intros E. apply str_eqb_eq in E. congruence.
Qed.

Section Guard.
Context {engine : Engine}.

(** X6. A reply that is current (no question was asked since), has an ok
    status and a body that parses to something other than [null] appends
    one assistant message to every column with the request's id and clears
    its loading flag, leaving its input, the other columns, the error text
    and the counter alone.  The message is the [answer] with every
    backslash-n turned into a line feed; it is empty when [answer] is
    missing or falsy. *)
Theorem current_reply_appends (p : Pending) (status : N) (raw : jsstring)
    (data : JSON) (a : jsstring) (st : AppState) :
  myReq p = reqSeq st ->
  ok status = true ->
  JSON_parse raw = Some data ->
  data <> JNull ->
  ToString (orElse (getProp data (js "answer")) []) = Some a ->
  let st' := askInColumn_resume p (Responded status raw) st in
  Forall2 (fun c c' =>
             if str_eqb (id c) (colId p)
             then c' = {| id := id c; title := title c; contextBase := contextBase c;
                          chat := chat c ++ [ {| role := assistant;
                                                 text := unescape_newlines a |} ];
                          input := input c; loading := false |}
             else c' = c)
          (columns st) (columns st') /\
  reqSeq st' = reqSeq st /\ error st' = error st /\
  (forall s, getProp data (js "answer") = Some (JString s) -> a = s) /\
  (truthy (getProp data (js "answer")) = false -> a = []).
Proof.
  intros Hcur Hok Hparse Hnull Ha st'.
  assert (Hst : st' = setColumns (inColumn (colId p) (answered (unescape_newlines a))) st).
  { subst st'. unfold askInColumn_resume, try_block.
    rewrite (parse_nonempty raw data Hparse), Hparse, Hok. cbn [negb].
    rewrite (proj2 (N.eqb_eq _ _) Hcur). cbn [negb].
    destruct data; try (exfalso; apply Hnull; reflexivity); rewrite Ha; reflexivity. }
  rewrite Hst. split; [apply inColumn_Forall2|]. split; [reflexivity|]. split; [reflexivity|].
  split.
  - intros s Hs. rewrite Hs in Ha. unfold orElse in Ha. cbn [truthy] in Ha.
    destruct (nonempty s) eqn:Hn; simpl in Ha; inversion Ha; auto.
    destruct s; [reflexivity | discriminate].
  - intros Hf. unfold orElse in Ha.
    destruct (getProp data (js "answer")) as [v|]; [rewrite Hf in Ha|];
      simpl in Ha; congruence.
Qed.

(** The loading flag cleared and nothing appended: what every failure of
    the [try] block leaves. *)
Lemma resume_thrown p o st message :
  try_block p o st = Thrown message ->
  askInColumn_resume p o st
  = setColumns (inColumn (colId p) stopLoading)
      (setError (match message with Some m => m | None => js "Unknown error" end) st).
Proof. intros E. unfold askInColumn_resume. rewrite E. reflexivity. Qed.

(** X7. Any answer of [/api/chat] other than a 200, relayed as its JSON
    text, ends in the error banner: the banner shows the backend's [error]
    string, no chat changes, and every column with the asked id has its
    loading flag cleared and nothing else changed, the other columns
    nothing at all - also when the reply is stale, since the guard sits
    after the status check. *)
Theorem backend_error_reaches_banner (reqBody : option JSON) (o : Server.ModelOutcome)
    (r : Server.Response) (raw : jsstring) (p : Pending) (st : AppState) :
  r = answer (Server.chat reqBody) o ->
  Server.status r <> 200%N ->
  JSON_parse raw = Some (Server.body r) ->
  let st' := askInColumn_resume p (Responded (Server.status r) raw) st in
  getProp (Server.body r) (js "error") = Some (JString (error st')) /\
  nonempty (error st') = true /\
  chats st' = chats st /\
  Forall2 (fun c c' =>
             if str_eqb (id c) (colId p)
             then c' = {| id := id c; title := title c; contextBase := contextBase c;
                          chat := chat c; input := input c; loading := false |}
             else c' = c)
          (columns st) (columns st') /\
  reqSeq st' = reqSeq st.
Proof.
  intros Hr Hne Hparse st'.
  assert (Hcases : exists msg,
             getProp (Server.body r) (js "error") = Some (JString msg) /\
             nonempty msg = true /\ ok (Server.status r) = false).
  { destruct (ServerEdges.answer_cases reqBody o r (or_intror Hr))
      as [(msg & Hn & ->) | [(m & ->) | ->]].
    - exists msg. auto.
    - destruct (ServerEdges.internal_error_body m) as (msg & Hn & Hb).
      exists msg. rewrite Hb. auto.
    - destruct (ServerEdges.after_call_cases o) as
        [(Hs & _) | [(Hs & text & _ & _ & Hb) | (Hs & m & msg & _ & Hn & Hb)]].
      + contradiction.
      + rewrite Hb, Hs. eexists. repeat split; reflexivity.
      + rewrite Hb, Hs. exists msg. auto. }
  destruct Hcases as (msg & Hmsg & Hn & Hok).
  assert (Htry : try_block p (Responded (Server.status r) raw) st = Thrown (Some msg)).
  { unfold try_block.
    rewrite (parse_nonempty raw _ Hparse), Hparse, Hok. cbn [negb].
    rewrite Hmsg. unfold orElse. cbn [truthy]. rewrite Hn.
    unfold Error_message. cbn [ToString]. reflexivity. }
  subst st'. rewrite (resume_thrown _ _ _ _ Htry).
  cbn [error setColumns setError columns reqSeq]. unfold chats.
  cbn [columns setColumns setError].
  repeat split; auto; [apply Columns.stopLoading_chats | apply inColumn_Forall2].
Qed.

(** X8. A reply that is not JSON shows "Non-JSON response (status N):"
    and at most the first 500 characters of the body.  An empty body is not
    parsed at all: with a failing status it shows "Request failed (status
    N)", and with an ok status and a current request the access to
    [data.answer] of [null] throws, which shows the engine's message.  No
    chat changes in any of these cases. *)
Theorem malformed_replies (p : Pending) (status : N) (raw : jsstring) (st : AppState) :
  let st' := askInColumn_resume p (Responded status raw) st in
  (nonempty raw = true -> JSON_parse raw = None ->
   error st' = js "Non-JSON response (status " ++ N_toString status ++ js "):"
               ++ [10%N] ++ firstn 500 raw /\
   chats st' = chats st) /\
  (nonempty raw = false -> ok status = false ->
   error st' = js "Request failed (status " ++ N_toString status ++ js ")" /\
   chats st' = chats st) /\
  (nonempty raw = false -> ok status = true -> myReq p = reqSeq st ->
   error st' = typeError_message (NullProperty (js "answer")) /\ chats st' = chats st).
Proof.
  intros st'. subst st'. split; [|split].
  - intros Hn Hp.
    rewrite (resume_thrown p _ st
               (Some (js "Non-JSON response (status " ++ N_toString status ++ js "):"
                      ++ [10%N] ++ slice_first 500 raw))).
    + split; [reflexivity|]. unfold chats. cbn [columns setColumns setError].
      apply Columns.stopLoading_chats.
    + unfold try_block. rewrite Hn, Hp. reflexivity.
  - intros Hn Hok.
    rewrite (resume_thrown p _ st
               (Some (js "Request failed (status " ++ N_toString status ++ js ")"))).
    + split; [reflexivity|]. unfold chats. cbn [columns setColumns setError].
      apply Columns.stopLoading_chats.
    + unfold try_block. rewrite Hn, Hok. cbn [negb getProp orElse].
      unfold Error_message. cbn [ToString]. reflexivity.
  - intros Hn Hok Hcur.
    rewrite (resume_thrown p _ st (Some (typeError_message (NullProperty (js "answer"))))).
    + split; [reflexivity|]. unfold chats. cbn [columns setColumns setError].
      apply Columns.stopLoading_chats.
    + unfold try_block. rewrite Hn, Hok. cbn [negb].
      rewrite (proj2 (N.eqb_eq _ _) Hcur). reflexivity.
Qed.

(** The render decides whether the component stays, not what it holds. *)
Lemma rendered_state (s : Screen) : rendered s = s \/ rendered s = unmount s.
Proof. unfold rendered. destruct (renders (result s)); auto. Qed.

Lemma rendered_columns (s : Screen) : columns (app (rendered s)) = columns (app s).
Proof. destruct (rendered_state s) as [-> | ->]; reflexivity. Qed.

Lemma act_cases (s : Screen) (a : Action) : act s a = handle s a \/ act s a = s.
Proof. unfold act. destruct (mounted s); auto. Qed.

(** X9. A reply for a column that is no longer on the screen changes no
    column, whatever it carries.  That is the case after the column was
    removed, and after Clear, which leaves no column at all. *)
Theorem reply_without_column (p : Pending) (o : FetchOutcome) :
  (forall st, (forall c, In c (columns st) -> id c <> colId p) ->
              columns (askInColumn_resume p o st) = columns st) /\
  (forall c s, id c = colId p ->
               columns (app (act (onRemove c s) (ChatReply p o)))
               = columns (app (onRemove c s))) /\
  (forall s, columns (app (act (endAllSessions s) (ChatReply p o))) = []).
Proof.
  assert (H : forall st, (forall c, In c (columns st) -> id c <> colId p) ->
                         columns (askInColumn_resume p o st) = columns st).
  { intros st Habs. unfold askInColumn_resume.
    destruct (try_block p o st); cbn [columns setColumns setError];
      try reflexivity; apply inColumn_absent; exact Habs. }
  split; [exact H|]. split.
  - intros c s Hid.
    destruct (act_cases (onRemove c s) (ChatReply p o)) as [E | E]; rewrite E;
      [|reflexivity].
    cbn [handle withApp app]. apply H.
    cbn [onRemove withApp app setColumns columns]. rewrite <- Hid.
    apply filter_drops_id.
  - intros s.
    destruct (act_cases (endAllSessions s) (ChatReply p o)) as [E | E]; rewrite E;
      [|reflexivity].
    cbn [handle withApp app]. rewrite H; [reflexivity|].
    intros c Hc. cbn in Hc. contradiction.
Qed.

End Guard.

(** X10. A question asked from a column that is on the screen is always
    sent: the not-found branch of [askInColumn] cannot be taken by the
    column's own buttons.  The request carries the trimmed question, the
    context of the first column with that id and the last 30 entries of its
    chat plus the question; the counter grows by one, the error is cleared
    and the columns with that id get the question appended and start
    loading.  A blank question does nothing but clear the error. *)
Theorem ask_from_rendered_column (c : Column) (t : jsstring) (s : Screen) :
  (In c (columns (app s)) -> nonempty (trim t) = true ->
   exists p c0 s',
     onAskText c t s = (s', Some p) /\
     colId p = id c /\ myReq p = (reqSeq (app s) + 1)%N /\
     In c0 (columns (app s)) /\ id c0 = id c /\
     request p = {| context := contextBase c0;
                    question := trim t;
                    history := slice_last 30
                                 (chat c0 ++ [ {| role := user; text := trim t |} ]) |} /\
     columns (app s') = inColumn (id c) (optimistic (trim t)) (columns (app s)) /\
     reqSeq (app s') = (reqSeq (app s) + 1)%N /\
     error (app s') = []) /\
  (nonempty (trim t) = false ->
   onAskText c t s = (withApp (setError []) s, None)) /\
  (In c (columns (app s)) -> askDisabled c = false ->
   exists p, snd (onAsk c s) = Some p /\ question (request p) = trim (input c)).
Proof.
  assert (Hsend : forall text, In c (columns (app s)) -> nonempty (trim text) = true ->
            exists p c0 a,
              askInColumn (columns (app s)) (id c) text (app s) = (a, Some p) /\
              colId p = id c /\ myReq p = (reqSeq (app s) + 1)%N /\
              In c0 (columns (app s)) /\ id c0 = id c /\
              request p = {| context := contextBase c0;
                             question := trim text;
                             history := slice_last 30
                               (chat c0 ++ [ {| role := user; text := trim text |} ]) |} /\
              columns a = inColumn (id c) (optimistic (trim text)) (columns (app s)) /\
              reqSeq a = (reqSeq (app s) + 1)%N /\ error a = []).
  { intros text Hin Hq. destruct (find_by_id c _ Hin) as (c0 & Hf & Hin0 & Hid0).
    unfold askInColumn. rewrite Hq. cbn [negb]. rewrite Hf.
    eexists. exists c0. eexists. split; [reflexivity|].
    cbn. repeat split; auto. }
  split; [|split].
  - intros Hin Hq. destruct (Hsend t Hin Hq) as (p & c0 & a & Ha & H).
    exists p, c0, (withApp (fun _ => a) s). unfold onAskText. rewrite Ha.
    split; [reflexivity|]. exact H.
  - intros Hq. unfold onAskText, askInColumn. rewrite Hq. reflexivity.
  - intros Hin Hd. unfold askDisabled in Hd. apply orb_false_iff in Hd.
    destruct Hd as (_ & Hq). apply negb_false_iff in Hq.
    destruct (Hsend (input c) Hin Hq) as (p & c0 & a & Ha & _ & _ & _ & _ & Hreq & _).
    exists p. unfold onAsk. rewrite Ha. split; [reflexivity|]. rewrite Hreq. reflexivity.
Qed.

(** X11. A click on a suggested follow-up asks in the first column titled
    "Explain", or in the first column when none has that title; with no
    column on the screen it changes nothing, not even the error text. *)
Theorem followup_goes_to_explain (t : jsstring) (s : Screen) :
  (columns (app s) = [] -> followupClick t s = (s, None)) /\
  (forall c,
      followupTarget (columns (app s)) = Some c ->
      ((exists before after,
           columns (app s) = before ++ c :: after /\ title c = js "Explain" /\
           Forall (fun x => title x <> js "Explain") before) \/
       (Forall (fun x => title x <> js "Explain") (columns (app s)) /\
        exists rest, columns (app s) = c :: rest)) /\
      (nonempty (trim t) = true ->
       exists p, snd (followupClick t s) = Some p /\ colId p = id c /\
                 question (request p) = trim t)) /\
  (columns (app s) <> [] -> followupTarget (columns (app s)) <> None).
Proof.
  split; [|split].
  - intros E. unfold followupClick. rewrite E. reflexivity.
  - intros c Ht.
    assert (Hwhere :
              (exists before after,
                  columns (app s) = before ++ c :: after /\ title c = js "Explain" /\
                  Forall (fun x => title x <> js "Explain") before) \/
              (Forall (fun x => title x <> js "Explain") (columns (app s)) /\
               exists rest, columns (app s) = c :: rest)).
    { unfold followupTarget in Ht.
      destruct (find (fun x => str_eqb (title x) (js "Explain")) (columns (app s)))
        as [c1|] eqn:Hf.
      - inversion Ht; subst c1. left.
        destruct (find_first _ _ _ Hf) as (before & after & E & Hb & Hc).
        exists before, after. split; [exact E|]. split; [apply str_eqb_eq; exact Hc|].
        eapply Forall_impl; [|exact Hb]. intros x Hx Ex.
        apply str_eqb_eq in Ex. simpl in Hx. congruence.
      - right. split.
        + apply find_nowhere in Hf. eapply Forall_impl; [|exact Hf].
          intros x Hx Ex. apply str_eqb_eq in Ex. simpl in Hx. congruence.
        + destruct (columns (app s)) as [|c1 rest]; [discriminate|].
          inversion Ht; subst. eauto. }
    split; [exact Hwhere|].
    intros Hq.
    assert (Hin : In c (columns (app s))).
    { destruct Hwhere as [(before & after & E & _) | (_ & rest & E)]; rewrite E.
      - apply in_or_app. right. left. reflexivity.
      - left. reflexivity. }
    destruct (find_by_id c _ Hin) as (c0 & Hf & _ & _).
    unfold followupClick. rewrite Ht. unfold askInColumn. rewrite Hq. cbn [negb].
    rewrite Hf. eexists. split; [reflexivity|]. split; reflexivity.
  - intros Hne. unfold followupTarget.
    destruct (find _ (columns (app s))); [discriminate|].
    destruct (columns (app s)); [contradiction | discriminate].
Qed.

(** The sample reply in the first of the two sample columns. *)
Lemma current_reply_appends_witness :
  let asked := askInColumn (columns (app Samples.two_columns)) (js "c1") (js "why?")
                 (app Samples.two_columns) in
  let p := {| myReq := 1; colId := js "c1";
              request := {| context := []; question := js "why?"; history := [] |} |} in
  let st' := @askInColumn_resume Examples.sample_engine p
               (Responded 200 Examples.chat_reply_text) (fst asked) in
  reqSeq st' = reqSeq (fst asked) /\ error st' = error (fst asked).
Proof.
  intros asked p st'.
  destruct (@current_reply_appends Examples.sample_engine p 200 Examples.chat_reply_text
              (JObject [(js "answer", JString (js "Differentiate the outer function first."));
                        (js "followups", JArray [])])
              (js "Differentiate the outer function first.") (fst asked))
    as (_ & Hseq & Herr & _).
  - vm_compute. reflexivity.
  - reflexivity.
  - vm_compute. reflexivity.
  - discriminate.
  - vm_compute. reflexivity.
  - split; [exact Hseq | exact Herr].
Defined.

(** The 502 of the backend, relayed to the first sample column while it
    waits for its answer. *)
Lemma backend_error_reaches_banner_witness :
  let p := {| myReq := 1; colId := js "c1";
              request := {| context := []; question := js "why?"; history := [] |} |} in
  let asked := fst (askInColumn (columns (app Samples.two_columns)) (js "c1") (js "why?")
                      (app Samples.two_columns)) in
  let st' := @askInColumn_resume Examples.sample_engine p
               (Responded 502 Samples.bad_gateway_text) asked in
  error st' = js "Model did not return valid JSON" /\
  map loading (columns asked) = [true; false] /\
  map loading (columns st') = [false; false].
Proof.
  intros p asked st'.
  pose proof (@backend_error_reaches_banner Examples.sample_engine
                (Some Examples.chat_body) (Server.Returned (js "Sorry."))
                (answer (@Server.chat Examples.sample_engine (Some Examples.chat_body))
                        (Server.Returned (js "Sorry.")))
                Samples.bad_gateway_text p asked eq_refl) as H.
  assert (H1 : Server.status
                 (answer (@Server.chat Examples.sample_engine (Some Examples.chat_body))
                         (Server.Returned (js "Sorry."))) <> 200%N)
    by (vm_compute; discriminate).
  assert (H2 : JSON_parse Samples.bad_gateway_text
               = Some (Server.body
                         (answer (@Server.chat Examples.sample_engine
                                    (Some Examples.chat_body))
                                 (Server.Returned (js "Sorry."))))).
  { vm_compute. reflexivity. }
  destruct (H H1 H2) as (Hget & _ & _ & Hcols & _).
  split; [|split].
  - vm_compute in Hget. inversion Hget as [He]. vm_compute. reflexivity.
  - vm_compute. reflexivity.
  - change (map loading
              (columns (@askInColumn_resume Examples.sample_engine p
                          (Responded 502 Samples.bad_gateway_text) asked))
            = [false; false]).
    change (Server.status
              (answer (@Server.chat Examples.sample_engine (Some Examples.chat_body))
                      (Server.Returned (js "Sorry.")))) with 502%N in Hcols.
    remember (columns (@askInColumn_resume Examples.sample_engine p
                         (Responded 502 Samples.bad_gateway_text) asked)) as after.
    clear Heqafter.
    assert (Hb : columns asked
                 = [optimistic (js "why?") Samples.explain_col; Samples.other_col])
      by (vm_compute; reflexivity).
    rewrite Hb in Hcols.
    inversion Hcols as [|c1 c1' r1 r1' Hc1 Hrest]; subst.
    inversion Hrest as [|c2 c2' r2 r2' Hc2 Hnil]; subst.
    inversion Hnil; subst.
    replace (str_eqb (id (optimistic (js "why?") Samples.explain_col)) (colId p))
      with true in Hc1 by (vm_compute; reflexivity).
    replace (str_eqb (id Samples.other_col) (colId p)) with false in Hc2
      by (vm_compute; reflexivity).
    subst c1' c2'. reflexivity.
Defined.

(** A proxy's HTML error page as the reply. *)
Lemma malformed_replies_witness :
  error (@askInColumn_resume Examples.sample_engine
           {| myReq := 1; colId := js "c1";
              request := {| context := []; question := []; history := [] |} |}
           (Responded 502 Samples.proxy_error_text) (app Samples.two_columns))
  = js "Non-JSON response (status 502):" ++ [10%N] ++ js "<html>502 Bad Gateway</html>".
Proof.
  destruct (@malformed_replies Examples.sample_engine
              {| myReq := 1; colId := js "c1";
                 request := {| context := []; question := []; history := [] |} |}
              502 Samples.proxy_error_text (app Samples.two_columns)) as (H & _).
  destruct H as (He & _); [reflexivity | vm_compute; reflexivity |].
  rewrite He. vm_compute. reflexivity.
Defined.

(** The first sample column removed before its reply arrives. *)
Lemma reply_without_column_witness :
  columns (app (@act Examples.sample_engine
                  (onRemove Samples.explain_col Samples.two_columns)
                  (ChatReply {| myReq := 1; colId := js "c1";
                                request := {| context := []; question := [];
                                              history := [] |} |}
                             (Responded 200 Examples.chat_reply_text))))
  = [Samples.other_col].
Proof.
  destruct (@reply_without_column Examples.sample_engine
              {| myReq := 1; colId := js "c1";
                 request := {| context := []; question := []; history := [] |} |}
              (Responded 200 Examples.chat_reply_text)) as (_ & H & _).
  rewrite (H Samples.explain_col Samples.two_columns); [|reflexivity].
  vm_compute. reflexivity.
Defined.

(** A quick action in the second sample column. *)
Lemma ask_from_rendered_column_witness :
  exists p, snd (onAskText Samples.other_col (js "Give me a concrete next step.")
                   Samples.two_columns) = Some p /\ colId p = js "c2".
Proof.
  destruct (ask_from_rendered_column Samples.other_col
              (js "Give me a concrete next step.") Samples.two_columns) as (H & _).
  destruct H as (p & c0 & s' & E & Hid & _).
  - right. left. reflexivity.
  - vm_compute. reflexivity.
  - exists p. rewrite E. split; [reflexivity | exact Hid].
Defined.

(** A suggested follow-up on the two sample columns goes to "Explain". *)
Lemma followup_goes_to_explain_witness :
  exists p, snd (followupClick (js "Which variable?") Samples.two_columns) = Some p /\
            colId p = js "c1".
Proof.
  destruct (followup_goes_to_explain (js "Which variable?") Samples.two_columns)
    as (_ & H & _).
  destruct (H Samples.explain_col) as (_ & Hq); [vm_compute; reflexivity|].
  destruct Hq as (p & Hp & Hid & _); [vm_compute; reflexivity|].
  exists p. split; [exact Hp | exact Hid].
Defined.

End Replies.

(* ===================================================================== *)
(** * From the front end to the model                                    *)
(* ===================================================================== *)

Module EndToEnd.
Import JS App UI Strings Wire.

Lemma buildContextBase_nonempty (r : ApiResult) (t i : jsstring) :
  nonempty (buildContextBase r t i) = true.
Proof. reflexivity. Qed.

Lemma slice_last_snoc {A} (n : nat) (l : list A) (x : A) :
  slice_last (S n) (l ++ [x]) = slice_last n l ++ [x].
Proof.
  unfold slice_last. rewrite length_app. simpl.
  replace (List.length l + 1 - S n)%nat with (List.length l - n)%nat by lia.
  rewrite skipn_app.
  replace (List.length l - n - List.length l)%nat with 0%nat by lia.
  reflexivity.
Qed.

Lemma slice_last_all {A} (n : nat) (l : list A) :
  (List.length l <= n)%nat -> slice_last n l = l.
Proof.
  intros H. unfold slice_last.
  replace (List.length l - n)%nat with 0%nat by lia. reflexivity.
Qed.

Section Routes.
Context {engine : Engine}.

Lemma turn_of_ChatMsg (m : ChatMsg) : Server.turn (ChatMsg_json m) = Some (forwarded m).
Proof.
  destruct m as [r t]. unfold Server.turn, Server.turn_content, Server.turn_role, forwarded.
  replace (getProp (ChatMsg_json {| role := r; text := t |}) (js "text"))
    with (Some (JString t)) by reflexivity.
  replace (getProp (ChatMsg_json {| role := r; text := t |}) (js "role"))
    with (Some (JString (role_name r))) by reflexivity.
  assert (Ht : ToString (orElse (Some (JString t)) []) = Some t).
  { unfold orElse. cbn [truthy]. destruct t; reflexivity. }
  rewrite Ht. destruct r; reflexivity.
Qed.

Lemma turns_of_history (h : list ChatMsg) :
  Server.map_throwing Server.turn (map ChatMsg_json h) = Some (map forwarded h).
Proof.
  induction h as [|m h IH]; [reflexivity|].
  simpl. rewrite turn_of_ChatMsg, IH. reflexivity.
Qed.

(** The same for any closure whose columns have a non-empty context. *)
Lemma posted_question_with_context (closure : list Column) (colId text : jsstring)
    (st st' : AppState) (p : Pending) :
  askInColumn closure colId text st = (st', Some p) ->
  Forall (fun c => nonempty (contextBase c) = true) closure ->
  exists rq c0,
    Server.chat (Some (ChatRequest_json (request p))) = Server.CallModel rq Server.after_call /\
    In c0 closure /\ id c0 = colId /\
    Server.instructions rq = Some (Server.chat_systemPrompt (contextBase c0)) /\
    Server.input rq
    = map forwarded (history (request p))
      ++ [ {| Server.role := Server.User; Server.content := Server.Plain (trim text) |} ] /\
    (exists earlier,
        Server.input rq
        = earlier
          ++ [ {| Server.role := Server.User; Server.content := Server.Plain (trim text) |};
               {| Server.role := Server.User; Server.content := Server.Plain (trim text) |} ]) /\
    List.length (Server.input rq) = S (Nat.min 30 (S (List.length (chat c0)))).
Proof.
  intros Hask Hctx.
  unfold askInColumn in Hask.
  destruct (nonempty (trim text)) eqn:Hq; cbn [negb] in Hask; [|discriminate].
  destruct (find (fun c => str_eqb (id c) colId) closure) as [c0|] eqn:Hf; [|discriminate].
  inversion Hask; subst st' p; clear Hask. cbn [request context question history].
  apply find_some in Hf. destruct Hf as (Hin & Hid). apply str_eqb_eq in Hid.
  rewrite Forall_forall in Hctx. pose proof (Hctx c0 Hin) as Hne.
  set (h := slice_last 30 (chat c0 ++ [ {| role := user; text := trim text |} ])).
  assert (Hlen : List.length h = Nat.min 30 (S (List.length (chat c0)))).
  { unfold h. rewrite slice_last_length, length_app. simpl.
    replace (List.length (chat c0) + 1)%nat with (S (List.length (chat c0))) by lia.
    reflexivity. }
  assert (Hturns : Server.turns_of (Some (JArray (map ChatMsg_json h)))
                   = Some (map forwarded h)).
  { unfold Server.turns_of. cbn [Server.safeHistory].
    rewrite slice_last_all by (rewrite length_map; lia).
    apply turns_of_history. }
  eexists. exists c0.
  split.
  { unfold Server.chat.
    replace (Server.body_or_empty
               (Some (ChatRequest_json
                        {| context := contextBase c0; question := trim text; history := h |})))
      with (ChatRequest_json
              {| context := contextBase c0; question := trim text; history := h |})
      by reflexivity.
    replace (getProp (ChatRequest_json
                        {| context := contextBase c0; question := trim text; history := h |})
                     (js "context"))
      with (Some (JString (contextBase c0))) by reflexivity.
    replace (getProp (ChatRequest_json
                        {| context := contextBase c0; question := trim text; history := h |})
                     (js "question"))
      with (Some (JString (trim text))) by reflexivity.
    replace (getProp (ChatRequest_json
                        {| context := contextBase c0; question := trim text; history := h |})
                     (js "history"))
      with (Some (JArray (map ChatMsg_json h))) by reflexivity.
    cbn [truthy isString Server.asString]. rewrite Hne, Hq. cbn [negb orb].
    rewrite Hturns. reflexivity. }
  cbn [Server.instructions Server.input].
  split; [exact Hin|]. split; [exact Hid|]. split; [reflexivity|]. split; [reflexivity|].
  split.
  - unfold h. rewrite slice_last_snoc, map_app. cbn [map forwarded App.role App.text].
    exists (map forwarded (slice_last 29 (chat c0))).
    rewrite <- app_assoc. reflexivity.
  - rewrite length_app, length_map, Hlen. simpl. lia.
Qed.

(** X12. The request [askInColumn] posts for a column whose context was
    built by [buildContextBase] passes the validation of [/api/chat] and
    reaches the model.  The backend's second truncation changes nothing:
    every entry of the posted history is forwarded with its role and text.
    Since the front end has already put the question at the end of the
    history and the backend appends it again, the model's input ends with
    the question twice. *)
Theorem posted_question_reaches_model (closure : list Column) (colId text : jsstring)
    (st st' : AppState) (p : Pending) :
  askInColumn closure colId text st = (st', Some p) ->
  Forall (fun c => exists r t i, contextBase c = buildContextBase r t i) closure ->
  exists rq c0,
    Server.chat (Some (ChatRequest_json (request p))) = Server.CallModel rq Server.after_call /\
    In c0 closure /\ id c0 = colId /\
    Server.instructions rq = Some (Server.chat_systemPrompt (contextBase c0)) /\
    Server.input rq
    = map forwarded (history (request p))
      ++ [ {| Server.role := Server.User; Server.content := Server.Plain (trim text) |} ] /\
    (exists earlier,
        Server.input rq
        = earlier
          ++ [ {| Server.role := Server.User; Server.content := Server.Plain (trim text) |};
               {| Server.role := Server.User; Server.content := Server.Plain (trim text) |} ]) /\
    List.length (Server.input rq) = S (Nat.min 30 (S (List.length (chat c0)))).
Proof.
  intros Hask Hctx. apply (posted_question_with_context closure colId text st st' p Hask).
  eapply Forall_impl; [|exact Hctx].
  intros c (r & t & i & E). rewrite E. apply buildContextBase_nonempty.
Qed.

(** X13. The front end never sends an instruction: for the body
    [onMouseUp] posts, with a screenshot that is a data URL of an image,
    [/api/explain] forwards exactly the system prompt and the screenshot;
    any other URL is refused with a 400. *)
Theorem posted_selection_reaches_model (imageDataUrl : jsstring) :
  (startsWith (js "data:image/") imageDataUrl = true ->
   Server.explain (Some (ExplainRequest_json imageDataUrl))
   = Server.CallModel
       {| Server.model := js "gpt-4.1-mini";
          Server.instructions := None;
          Server.input :=
            [ {| Server.role := Server.User;
                 Server.content := Server.Parts
                   [ Server.InputText Server.explain_systemPrompt;
                     Server.InputImage imageDataUrl ] |} ];
          Server.format_name := js "ScreenAssistResponse";
          Server.format_schema := Server.ScreenAssistResponse |}
       Server.after_call) /\
  (startsWith (js "data:image/") imageDataUrl = false ->
   exists msg,
     Server.explain (Some (ExplainRequest_json imageDataUrl))
     = Server.Respond (Server.error_response 400 msg)).
Proof.
  assert (Hur : getProp (Server.body_or_empty (Some (ExplainRequest_json imageDataUrl)))
                        (js "imageDataUrl") = Some (JString imageDataUrl)) by reflexivity.
  assert (Hin : getProp (Server.body_or_empty (Some (ExplainRequest_json imageDataUrl)))
                        (js "instruction") = Some (JString [])) by reflexivity.
  split.
  - intros Hp.
    assert (Hne : nonempty imageDataUrl = true).
    { destruct imageDataUrl; [discriminate Hp | reflexivity]. }
    unfold Server.explain. rewrite Hur, Hin.
    cbn [truthy isString Server.asString]. rewrite Hne, Hp. cbn [negb orb].
    unfold Server.userInstruction_of, orElse. cbn [truthy nonempty ToString].
    replace (Server.extraInstruction (trim [])) with (@nil N) by reflexivity.
    rewrite app_nil_r. reflexivity.
  - intros Hp. unfold Server.explain. rewrite Hur.
    cbn [truthy isString Server.asString].
    destruct (nonempty imageDataUrl); cbn [negb orb]; [|eauto].
    rewrite Hp. cbn [negb]. eauto.
Qed.

End Routes.

(** A question asked in the first sample column. *)
Lemma posted_question_reaches_model_witness :
  exists rq,
    @Server.chat Examples.sample_engine
      (Some (ChatRequest_json
               {| context := contextBase Samples.explain_col;
                  question := js "why?";
                  history := [ {| role := user; text := js "why?" |} ] |}))
    = Server.CallModel rq Server.after_call.
Proof.
  destruct (@posted_question_reaches_model Examples.sample_engine
              (columns (app Samples.two_columns)) (js "c1") (js "why?")
              (app Samples.two_columns)
              (fst (askInColumn (columns (app Samples.two_columns)) (js "c1") (js "why?")
                      (app Samples.two_columns)))
              {| myReq := 1; colId := js "c1";
                 request := {| context := contextBase Samples.explain_col;
                               question := js "why?";
                               history := [ {| role := user; text := js "why?" |} ] |} |})
    as (rq & c0 & Hcall & _).
  - vm_compute. reflexivity.
  - repeat constructor; eexists; eexists; eexists; reflexivity.
  - exists rq. exact Hcall.
Defined.

(** The sample data URL. *)
Lemma posted_selection_reaches_model_witness :
  exists rq,
    @Server.explain Examples.sample_engine (Some (ExplainRequest_json Samples.data_url))
    = Server.CallModel rq Server.after_call.
Proof.
  eexists.
  apply (@posted_selection_reaches_model Examples.sample_engine Samples.data_url).
  vm_compute. reflexivity.
Defined.

End EndToEnd.

(* ===================================================================== *)
(** * Selecting a region                                                 *)
(* ===================================================================== *)

Module Selecting.
Import JS App UI Geometry.
Local Open Scope Q_scope.

Lemma tooSmall_spec (r : Rect) : tooSmall r = false <-> 6 <= w r /\ 6 <= h r.
Proof.
  unfold tooSmall. rewrite orb_false_iff, !negb_false_iff, !Qle_bool_iff. tauto.
Qed.

Lemma Qabs_self (a : Q) : Qabs (a - a) == 0.
Proof. setoid_replace (a - a) with 0 by ring. reflexivity. Qed.

(** X14. Releasing the mouse starts an analysis exactly when a
    right-button drag is in progress, the released button is the right
    one, the container is mounted and the selection is at least 6 wide and
    6 high; the rectangle captured is then the memoised selection.  A press
    and release of the right button without a move in between never starts
    one, and the other buttons leave the selection state untouched. *)
Theorem analysis_starts_iff (e : MouseEvent) (el : option Container) (s : Screen) :
  (forall c r,
      snd (onMouseUp e el s) = Some (c, r)
      <-> dragging s = true /\ button e = 2%Z /\ el = Some c /\ rect s = Some r /\
          6 <= w r /\ 6 <= h r) /\
  (forall e1 c1, button e1 = 2%Z ->
                 snd (onMouseUp e el (onMouseDown e1 (Some c1) s)) = None) /\
  (button e <> 2%Z ->
   onMouseDown e el s = s /\ onMouseUp e el s = (s, None)).
Proof.
  split; [|split].
  - intros c r. unfold onMouseUp.
    destruct (dragging s); cbn [negb]; [|split; [discriminate | intros (H & _); discriminate]].
    destruct (button e =? 2)%Z eqn:Hb; cbn [negb].
    2:{ split; [discriminate|]. intros (_ & H & _). apply Z.eqb_neq in Hb. contradiction. }
    apply Z.eqb_eq in Hb.
    destruct el as [c'|]; [|split; [discriminate | intros (_ & _ & H & _); discriminate]].
    destruct (rect s) as [r'|];
      [|split; [discriminate | intros (_ & _ & _ & H & _); discriminate]].
    destruct (tooSmall r') eqn:Hsm; cbn [snd].
    + split; [discriminate|]. intros (_ & _ & _ & Hr & Hw & Hh).
      inversion Hr; subst r'.
      assert (tooSmall r = false) by (apply tooSmall_spec; auto). congruence.
    + apply tooSmall_spec in Hsm. split.
      * intros E. inversion E; subst. tauto.
      * intros (_ & _ & Hc & Hr & _). inversion Hc; inversion Hr. reflexivity.
  - intros e1 c1 Hb1. unfold onMouseDown. rewrite Hb1. cbn [Z.eqb Pos.eqb negb].
    unfold onMouseUp. cbn [dragging setEnd setStart setDragging negb].
    destruct (negb (button e =? 2)%Z); [reflexivity|].
    destruct el; [|reflexivity].
    unfold rect. cbn [start end_ setEnd setStart setDragging].
    set (p := getPointInScrollContainer e1 c1).
    assert (Hs : tooSmall (normalizeRect p p) = true).
    { unfold tooSmall, normalizeRect. cbn [w h].
      apply orb_true_iff. left. apply negb_true_iff.
      destruct (Qle_bool 6 (Qabs (px p - px p))) eqn:E; [|reflexivity].
      apply Qle_bool_iff in E. rewrite Qabs_self in E.
      exfalso. revert E. unfold Qle. simpl. lia. }
    rewrite Hs. reflexivity.
  - intros Hb. apply Z.eqb_neq in Hb. unfold onMouseDown, onMouseUp. rewrite Hb.
    cbn [negb]. split; [reflexivity|]. destruct (negb (dragging s)); reflexivity.
Qed.

Lemma same_points (s s' : Screen) :
  start s' = start s -> end_ s' = end_ s -> rect s' = rect s.
Proof. intros H1 H2. unfold rect. rewrite H1, H2. reflexivity. Qed.

(** X15. Every selection that is analysed is one the overlay shows: the
    overlay appears from 2 by 2 on and the analysis starts from 6 by 6.
    The selection, and so the overlay, stays as it is while and after the
    analysis runs, and Clear removes it. *)
Theorem analysed_selection_is_shown {engine : Engine} (e : MouseEvent)
    (el : option Container) (s : Screen) :
  (forall c r, snd (onMouseUp e el s) = Some (c, r) -> DimOverlay (rect s) = Some r) /\
  rect (fst (onMouseUp e el s)) = rect s /\
  (forall crop fetched uid, rect (onMouseUp_resume crop fetched uid s) = rect s) /\
  DimOverlay (rect (endAllSessions s)) = None.
Proof.
  split; [|split; [|split]].
  - intros c r. unfold onMouseUp.
    destruct (negb (dragging s)); [discriminate|].
    destruct (negb (button e =? 2)%Z); [discriminate|].
    destruct el; [|discriminate].
    destruct (rect s) as [r'|]; [|discriminate].
    destruct (tooSmall r') eqn:Hsm; [discriminate|].
    intros E. inversion E; subst. apply tooSmall_spec in Hsm. destruct Hsm as (Hw & Hh).
    unfold DimOverlay.
    assert (H2w : Qle_bool 2 (w r) = true) by (apply Qle_bool_iff; lra).
    assert (H2h : Qle_bool 2 (h r) = true) by (apply Qle_bool_iff; lra).
    rewrite H2w, H2h. reflexivity.
  - apply same_points; unfold onMouseUp;
      destruct (negb (dragging s)); try reflexivity;
      destruct (negb (button e =? 2)%Z); try reflexivity;
      destruct el; try reflexivity;
      destruct (rect s) as [r'|]; try reflexivity;
      destruct (tooSmall r'); reflexivity.
  - intros crop fetched uid.
    apply same_points; unfold onMouseUp_resume, analysis_failed;
      destruct crop; try reflexivity;
      destruct fetched; try reflexivity;
      destruct (if nonempty raw then JSON_parse raw else Some JNull) as [data|];
      try reflexivity;
      destruct (negb (ok status)); try reflexivity;
      destruct (nextCols uid data); reflexivity.
  - reflexivity.
Qed.

Lemma Qmin_shift (a b d : Q) : Qmin (a + d) (b + d) == Qmin a b + d.
Proof.
  destruct (Qlt_le_dec a b) as [H|H].
  - rewrite (Q.min_l a b), (Q.min_l (a + d) (b + d)) by lra. reflexivity.
  - rewrite (Q.min_r a b), (Q.min_r (a + d) (b + d)) by lra. reflexivity.
Qed.

Lemma Qmin_plus_Qabs (a b : Q) : Qmin a b + Qabs (a - b) == Qmax a b.
Proof.
  destruct (Qlt_le_dec a b) as [H|H].
  - rewrite (Q.min_l a b), (Q.max_r a b) by lra.
    rewrite Qabs_neg by lra. ring.
  - rewrite (Q.min_r a b), (Q.max_l a b) by lra.
    rewrite Qabs_pos by lra. ring.
Qed.

(** X16. The selection is anchored to the document, not to the window:
    for a right-button press at [e1] and a last move at [e2] over the same
    container, the crop offset at capture time is the smaller mouse
    coordinate relative to the container's box, shifted by however far the
    container was scrolled since.  If it was not scrolled and both mouse
    positions lie over the visible area, the selection lies inside the
    viewport and the outside-area error cannot occur. *)
Theorem selection_is_anchored (e1 e2 : MouseEvent) (c : Container) (s : Screen) :
  button e1 = 2%Z ->
  exists r,
    rect (onMouseMove e2 (Some c) (onMouseDown e1 (Some c) s)) = Some r /\
    w r == Qabs (clientX e1 - clientX e2) /\
    h r == Qabs (clientY e1 - clientY e2) /\
    (forall later : ScrollContainer,
        vx later r == Qmin (clientX e1) (clientX e2) - box_left c
                      + (scrollLeft (scroller c) - scrollLeft later) /\
        vy later r == Qmin (clientY e1) (clientY e2) - box_top c
                      + (scrollTop (scroller c) - scrollTop later)) /\
    (0 <= clientX e1 - box_left c <= clientWidth (scroller c) ->
     0 <= clientX e2 - box_left c <= clientWidth (scroller c) ->
     0 <= clientY e1 - box_top c <= clientHeight (scroller c) ->
     0 <= clientY e2 - box_top c <= clientHeight (scroller c) ->
     inside (scroller c) r /\ outside (scroller c) r = false).
Proof.
  intros Hb.
  exists (normalizeRect (getPointInScrollContainer e1 c) (getPointInScrollContainer e2 c)).
  assert (Hw : w (normalizeRect (getPointInScrollContainer e1 c)
                                (getPointInScrollContainer e2 c))
               == Qabs (clientX e1 - clientX e2)).
  { unfold normalizeRect, getPointInScrollContainer. cbn [w px].
    apply Qabs_wd. ring. }
  assert (Hh : h (normalizeRect (getPointInScrollContainer e1 c)
                                (getPointInScrollContainer e2 c))
               == Qabs (clientY e1 - clientY e2)).
  { unfold normalizeRect, getPointInScrollContainer. cbn [h py].
    apply Qabs_wd. ring. }
  assert (Hv : forall later : ScrollContainer,
             vx later (normalizeRect (getPointInScrollContainer e1 c)
                                     (getPointInScrollContainer e2 c))
             == Qmin (clientX e1) (clientX e2) - box_left c
                + (scrollLeft (scroller c) - scrollLeft later) /\
             vy later (normalizeRect (getPointInScrollContainer e1 c)
                                     (getPointInScrollContainer e2 c))
             == Qmin (clientY e1) (clientY e2) - box_top c
                + (scrollTop (scroller c) - scrollTop later)).
  { intros later. unfold vx, vy, normalizeRect, getPointInScrollContainer. cbn [x y px py].
    split.
    - setoid_replace (clientX e1 - box_left c + scrollLeft (scroller c))
        with (clientX e1 + (scrollLeft (scroller c) - box_left c)) by ring.
      setoid_replace (clientX e2 - box_left c + scrollLeft (scroller c))
        with (clientX e2 + (scrollLeft (scroller c) - box_left c)) by ring.
      rewrite Qmin_shift. ring.
    - setoid_replace (clientY e1 - box_top c + scrollTop (scroller c))
        with (clientY e1 + (scrollTop (scroller c) - box_top c)) by ring.
      setoid_replace (clientY e2 - box_top c + scrollTop (scroller c))
        with (clientY e2 + (scrollTop (scroller c) - box_top c)) by ring.
      rewrite Qmin_shift. ring. }
  split.
  { unfold onMouseDown. rewrite Hb. cbn [Z.eqb Pos.eqb negb].
    unfold onMouseMove. cbn [dragging setEnd setStart setDragging negb].
    reflexivity. }
  split; [exact Hw|]. split; [exact Hh|]. split; [exact Hv|].
  intros (Hx1 & Hx1') (Hx2 & Hx2') (Hy1 & Hy1') (Hy2 & Hy2').
  set (r := normalizeRect (getPointInScrollContainer e1 c) (getPointInScrollContainer e2 c))
    in *.
  destruct (Hv (scroller c)) as (Hvx & Hvy).
  assert (Hin : inside (scroller c) r).
  { unfold inside. rewrite Hvx, Hvy, Hw, Hh.
    pose proof (Qmin_plus_Qabs (clientX e1) (clientX e2)) as Hmx.
    pose proof (Qmin_plus_Qabs (clientY e1) (clientY e2)) as Hmy.
    assert (Lx : Qmin (clientX e1) (clientX e2) - box_left c >= 0).
    { apply Q.min_case_strong; intros; lra. }
    assert (Ly : Qmin (clientY e1) (clientY e2) - box_top c >= 0).
    { apply Q.min_case_strong; intros; lra. }
    assert (Ux : Qmax (clientX e1) (clientX e2) - box_left c <= clientWidth (scroller c)).
    { apply Q.max_case_strong; intros; lra. }
    assert (Uy : Qmax (clientY e1) (clientY e2) - box_top c <= clientHeight (scroller c)).
    { apply Q.max_case_strong; intros; lra. }
    repeat split; lra. }
  split; [exact Hin|].
  apply inside_not_outside; [| | exact Hin].
  - rewrite Hw. apply Qabs_nonneg.
  - rewrite Hh. apply Qabs_nonneg.
Qed.

(** X17. For a selection that is not outside the visible area, on a
    browser that captures, gives a 2D context and reports a non-negative
    pixel ratio, the crop is well-formed: the source rectangle has
    non-negative corner and size, the output canvas is at least 1 by 1 and
    never larger than the source size (or 1), and when the selection starts
    inside the viewport the source rectangle ends inside the captured
    image. *)
Theorem crop_is_well_formed (b : Browser) (el : ScrollContainer) (rc : Rect) :
  html2canvas_failure b = None ->
  context2d b = true ->
  0 <= devicePixelRatio b ->
  0 <= w rc -> 0 <= h rc ->
  outside el rc = false ->
  exists d,
    cropScreenshotFromScrollContainer b el rc = DataURL (html2canvas_options b el) d /\
    0 <= sx d /\ 0 <= sy d /\ 0 <= sw d /\ 0 <= sh d /\
    (1 <= out_width d)%Z /\ (1 <= out_height d)%Z /\
    inject_Z (out_width d) <= Qmax 1 (sw d) /\
    inject_Z (out_height d) <= Qmax 1 (sh d) /\
    (0 <= vx el rc -> sx d + sw d <= clientWidth el * dpr_of b) /\
    (0 <= vy el rc -> sy d + sh d <= clientHeight el * dpr_of b).
Proof.
  intros Hcap Hctx Hdpr Hw Hh Hout.
  pose proof (dpr_of_nonneg b Hdpr) as Hd.
  assert (Hno : ~ outside_cond el rc).
  { intros Hc. apply outside_spec in Hc. congruence. }
  unfold outside_cond in Hno.
  assert (Hvxw : vx el rc <= clientWidth el) by (apply Qnot_lt_le; tauto).
  assert (Hvyh : vy el rc <= clientHeight el) by (apply Qnot_lt_le; tauto).
  unfold cropScreenshotFromScrollContainer. rewrite Hcap, Hout, Hctx. cbn [negb].
  eexists. split; [reflexivity|]. cbn [sx sy sw sh out_width out_height].
  fold (vx el rc) (vy el rc).
  set (mw := Qmin (w rc) (clientWidth el - vx el rc)).
  set (mh := Qmin (h rc) (clientHeight el - vy el rc)).
  assert (Hmw : 0 <= mw) by (unfold mw; apply Q.min_glb; lra).
  assert (Hmh : 0 <= mh) by (unfold mh; apply Q.min_glb; lra).
  assert (Hmw' : mw <= clientWidth el - vx el rc) by (unfold mw; apply Q.le_min_r).
  assert (Hmh' : mh <= clientHeight el - vy el rc) by (unfold mh; apply Q.le_min_r).
  assert (Hfloor : forall q : Q, inject_Z (Z.max 1 (Qfloor q)) <= Qmax 1 q).
  { intros q. destruct (Z.max_spec 1 (Qfloor q)) as [(_ & ->) | (_ & ->)].
    - eapply Qle_trans; [apply Qfloor_le | apply Q.le_max_r].
    - apply Q.le_max_l. }
  split; [apply Qmult_le_0_compat; [apply Q.le_max_l | exact Hd]|].
  split; [apply Qmult_le_0_compat; [apply Q.le_max_l | exact Hd]|].
  split; [apply Qmult_le_0_compat; assumption|].
  split; [apply Qmult_le_0_compat; assumption|].
  split; [apply Z.le_max_l|]. split; [apply Z.le_max_l|].
  split; [apply Hfloor|]. split; [apply Hfloor|].
  split.
  - intros Hvx. rewrite Q.max_r by exact Hvx.
    setoid_replace (vx el rc * dpr_of b + mw * dpr_of b)
      with ((vx el rc + mw) * dpr_of b) by ring.
    apply Qmult_le_compat_r; [lra | exact Hd].
  - intros Hvy. rewrite Q.max_r by exact Hvy.
    setoid_replace (vy el rc * dpr_of b + mh * dpr_of b)
      with ((vy el rc + mh) * dpr_of b) by ring.
    apply Qmult_le_compat_r; [lra | exact Hd].
Qed.

(** The sample drag on the sample container. *)
Lemma analysis_starts_iff_witness :
  snd (onMouseUp Samples.release (Some Samples.pdf)
         (onMouseMove Samples.release (Some Samples.pdf)
            (onMouseDown Samples.press (Some Samples.pdf) UI.initial)))
  = Some (Samples.pdf, {| x := 10; y := 60; w := 100; h := 50 |}).
Proof.
  apply (analysis_starts_iff Samples.release (Some Samples.pdf)
           (onMouseMove Samples.release (Some Samples.pdf)
              (onMouseDown Samples.press (Some Samples.pdf) UI.initial))).
  repeat split; try (vm_compute; reflexivity); unfold Qle; simpl; lia.
Defined.

Lemma analysed_selection_is_shown_witness :
  DimOverlay (rect (onMouseMove Samples.release (Some Samples.pdf)
                      (onMouseDown Samples.press (Some Samples.pdf) UI.initial)))
  = Some {| x := 10; y := 60; w := 100; h := 50 |}.
Proof.
  apply (@analysed_selection_is_shown Examples.sample_engine Samples.release
           (Some Samples.pdf)
           (onMouseMove Samples.release (Some Samples.pdf)
              (onMouseDown Samples.press (Some Samples.pdf) UI.initial))
           ) with (c := Samples.pdf).
  vm_compute. reflexivity.
Defined.

Lemma selection_is_anchored_witness :
  exists r,
    rect (onMouseMove Samples.release (Some Samples.pdf)
            (onMouseDown Samples.press (Some Samples.pdf) UI.initial)) = Some r /\
    w r == Qabs (clientX Samples.press - clientX Samples.release).
Proof.
  destruct (selection_is_anchored Samples.press Samples.release Samples.pdf UI.initial)
    as (r & Hr & Hw & _); [reflexivity|].
  exists r. split; [exact Hr | exact Hw].
Defined.

Lemma crop_is_well_formed_witness :
  exists d,
    cropScreenshotFromScrollContainer Examples.retina Examples.viewport Examples.selection
    = DataURL (html2canvas_options Examples.retina Examples.viewport) d /\
    (1 <= out_width d)%Z.
Proof.
  destruct (crop_is_well_formed Examples.retina Examples.viewport Examples.selection)
    as (d & Hd & _ & _ & _ & _ & Hw & _);
    try reflexivity; try (unfold Qle; simpl; lia).
  exists d. split; [exact Hd | exact Hw].
Defined.

End Selecting.

(* ===================================================================== *)
(** * Rendering the messages                                             *)
(* ===================================================================== *)

Module Rendering.
Import JS App UI Wire.

Lemma trimStart_split (s : jsstring) :
  exists sp, s = sp ++ trimStart s /\ forallb isTrimSpace sp = true.
Proof.
  induction s as [|c s (sp & E & Hsp)]; [exists []; auto|].
  simpl. destruct (isTrimSpace c) eqn:Hc.
  - exists (c :: sp). simpl. rewrite Hc, Hsp. split; [f_equal; exact E | reflexivity].
  - exists []. auto.
Qed.

Lemma trimStart_head (s : jsstring) :
  match trimStart s with
  | [] => True
  | c :: _ => isTrimSpace c = false
  end.
Proof.
  induction s as [|c s IH]; simpl; [exact I|].
  destruct (isTrimSpace c) eqn:Hc; [exact IH | exact Hc].
Qed.

Lemma trimStart_fixed (s : jsstring) :
  match s with [] => True | c :: _ => isTrimSpace c = false end -> trimStart s = s.
Proof. destruct s as [|c s]; simpl; [reflexivity|]. intros ->. reflexivity. Qed.

Lemma trimEnd_split (s : jsstring) : exists sp, s = trimEnd s ++ sp.
Proof.
  unfold trimEnd. destruct (trimStart_split (rev s)) as (sp & E & _).
  exists (rev sp). rewrite <- rev_app_distr, <- E, rev_involutive. reflexivity.
Qed.

Lemma trimEnd_fixed (s : jsstring) : trimEnd (trimEnd s) = trimEnd s.
Proof.
  unfold trimEnd. rewrite rev_involutive.
  rewrite (trimStart_fixed (trimStart (rev s))); [reflexivity|].
  apply trimStart_head.
Qed.

Lemma trim_infix (s : jsstring) : exists a b, s = a ++ trim s ++ b.
Proof.
  unfold trim. destruct (trimStart_split s) as (a & Ea & _).
  destruct (trimEnd_split (trimStart s)) as (b & Eb).
  exists a, b. rewrite <- Eb. exact Ea.
Qed.

Lemma trim_idempotent (s : jsstring) : trim (trim s) = trim s.
Proof.
  unfold trim at 1.
  assert (H : trimStart (trim s) = trim s).
  { apply trimStart_fixed. unfold trim.
    destruct (trimEnd_split (trimStart s)) as (sp & E).
    pose proof (trimStart_head s) as Hh.
    destruct (trimEnd (trimStart s)) as [|c u]; [exact I|].
    rewrite E in Hh. exact Hh. }
  rewrite H. unfold trim. apply trimEnd_fixed.
Qed.

(** ** Blank lines *)

Lemma has_blank_line_decided (s : jsstring) :
  has_blank_line s <-> no_blank_line s = false.
Proof.
  split.
  - intros (a & b & ->). induction a as [|c a IH]; simpl in *.
    + reflexivity.
    + rewrite IH. apply andb_false_r.
  - induction s as [|c s IH]; simpl; [discriminate|].
    intros H. apply andb_false_iff in H. destruct H as [H|H].
    + apply negb_false_iff, andb_true_iff in H. destruct H as (Hc & Hs).
      apply N.eqb_eq in Hc. subst c.
      destruct s as [|d s]; [discriminate|]. simpl in Hs.
      apply N.eqb_eq in Hs. subst d. exists [], s. reflexivity.
    + destruct (IH H) as (a & b & ->). exists (c :: a), b. reflexivity.
Qed.

Lemma no_blank_line_infix (a m b : jsstring) :
  no_blank_line (a ++ m ++ b) = true -> no_blank_line m = true.
Proof.
  intros H. destruct (no_blank_line m) eqn:E; [reflexivity|].
  apply has_blank_line_decided in E. destruct E as (a' & b' & ->).
  assert (Hb : has_blank_line (a ++ (a' ++ [10%N; 10%N] ++ b') ++ b)).
  { exists (a ++ a'), (b' ++ b). rewrite <- !app_assoc. reflexivity. }
  apply has_blank_line_decided in Hb. congruence.
Qed.

(** What the scan keeps true: there is always a first piece, no piece has
    a blank line, and the first piece starts with a line feed only when
    the text does and the scan is not inside a separator. *)
Lemma split_pieces (s : jsstring) :
  forall in_run,
    split_blank_lines_from in_run s <> [] /\
    Forall (fun p => no_blank_line p = true) (split_blank_lines_from in_run s) /\
    (starts_with_lf (hd [] (split_blank_lines_from in_run s)) = true ->
     in_run = false /\ starts_with_lf s = true).
Proof.
  induction s as [|c r IH]; intros in_run.
  - simpl. repeat split; try discriminate. repeat constructor.
  - cbn [split_blank_lines_from].
    destruct ((c =? 10)%N && in_run) eqn:H1.
    + destruct (IH true) as (Hne & Hall & Hhd).
      split; [exact Hne|]. split; [exact Hall|].
      intros Hs. destruct (Hhd Hs) as (Hf & _). discriminate.
    + destruct ((c =? 10)%N && starts_with_lf r) eqn:H2.
      * destruct (IH true) as (_ & Hall & _).
        split; [discriminate|]. split; [constructor; [reflexivity | exact Hall]|].
        simpl. discriminate.
      * destruct (IH false) as (Hne & Hall & Hhd).
        destruct (split_blank_lines_from false r) as [|p ps]; [contradiction|].
        inversion Hall as [|? ? Hp Hps]; subst.
        split; [discriminate|]. split.
        -- constructor; [|exact Hps]. simpl. rewrite Hp, andb_true_r.
           apply negb_true_iff. destruct (c =? 10)%N eqn:Hc; [|reflexivity].
           simpl in H2. simpl.
           destruct (starts_with_lf p) eqn:Hsp; [|reflexivity].
           destruct (Hhd Hsp) as (_ & Hr). congruence.
        -- simpl. intros Hc. rewrite Hc in H1. simpl in H1. auto.
Qed.

Lemma split_without_blank_line (s : jsstring) :
  no_blank_line s = true -> split_blank_lines s = [s].
Proof.
  unfold split_blank_lines. induction s as [|c r IH]; [reflexivity|].
  simpl. intros H. apply andb_true_iff in H. destruct H as (H1 & H2).
  apply negb_true_iff in H1. rewrite andb_false_r, H1, (IH H2). reflexivity.
Qed.

(** Inside a separator the scan skips line feeds, and goes on as from
    the start of a text at the first other character. *)
Lemma split_after_run (n : nat) (b : jsstring) :
  hd 0%N b <> 10%N ->
  split_blank_lines_from true (repeat 10%N n ++ b) = split_blank_lines_from false b.
Proof.
  intros Hb. induction n as [|n IH]; simpl.
  - destruct b as [|c r]; [reflexivity|]. simpl in Hb.
    cbn [split_blank_lines_from].
    assert (Hc : (c =? 10)%N = false) by (apply N.eqb_neq; exact Hb).
    rewrite Hc. reflexivity.
  - exact IH.
Qed.

(** The first cut: a first piece [a] without a blank line that does not
    end in a line feed, then two or more line feeds, then a rest that does
    not begin with one. *)
Lemma split_at_run (a b : jsstring) (n : nat) :
  no_blank_line a = true -> last a 0%N <> 10%N -> hd 0%N b <> 10%N ->
  split_blank_lines (a ++ repeat 10%N (S (S n)) ++ b) = a :: split_blank_lines b.
Proof.
  unfold split_blank_lines. intros Ha Hl Hb.
  induction a as [|c a IH].
  - change (([] : jsstring) ++ repeat 10%N (S (S n)) ++ b)
      with (10%N :: 10%N :: repeat 10%N n ++ b).
    cbn [split_blank_lines_from starts_with_lf].
    rewrite N.eqb_refl. cbn [andb]. f_equal.
    apply (split_after_run n b Hb).
  - change ((c :: a) ++ repeat 10%N (S (S n)) ++ b)
      with (c :: (a ++ repeat 10%N (S (S n)) ++ b)).
    cbn [split_blank_lines_from]. rewrite andb_false_r.
    simpl in Ha. apply andb_true_iff in Ha. destruct Ha as (Hc & Ha).
    assert (H2 : (c =? 10)%N && starts_with_lf (a ++ repeat 10%N (S (S n)) ++ b) = false).
    { destruct (c =? 10)%N eqn:Ec; [|reflexivity]. cbn [andb].
      destruct a as [|d a'].
      - exfalso. apply Hl. apply N.eqb_eq in Ec. exact Ec.
      - cbn [andb negb] in Hc. apply negb_true_iff in Hc. exact Hc. }
    rewrite H2, IH; [reflexivity | exact Ha |].
    destruct a as [|d a']; [cbn; discriminate | exact Hl].
Qed.

(** X18. A message of the user is rendered whole, as one part.  A message
    of the assistant is rendered as its paragraphs, cut at every run of two
    or more line feeds: a text without a blank line is one part, its
    trimmed self, or no part at all when it is blank; a text that begins
    with such a paragraph (one that does not end in a line feed), then has
    two or more line feeds and then goes on with another character, is
    rendered as that paragraph followed by the parts of what comes after
    the line feeds.  So no part is empty, none begins or ends with white
    space, and none contains a blank line. *)
Theorem rendered_parts (m : ChatMsg) :
  (role m = user -> parts m = [text m]) /\
  (role m = assistant ->
   Forall (fun p => nonempty p = true /\ trim p = p /\ ~ has_blank_line p) (parts m)) /\
  (role m = assistant -> ~ has_blank_line (text m) ->
   parts m = if nonempty (trim (text m)) then [trim (text m)] else []) /\
  (forall a b n,
      role m = assistant ->
      text m = a ++ repeat 10%N n ++ b -> (2 <= n)%nat ->
      ~ has_blank_line a -> last a 0%N <> 10%N -> hd 0%N b <> 10%N ->
      parts m = (if nonempty (trim a) then [trim a] else [])
                ++ parts {| role := assistant; text := b |}).
Proof.
  unfold parts. split; [|split; [|split]].
  - intros ->. reflexivity.
  - intros ->. apply Forall_forall. intros p Hp.
    apply filter_In in Hp. destruct Hp as (Hin & Hne).
    apply in_map_iff in Hin. destruct Hin as (q & <- & Hq).
    split; [exact Hne|]. split; [apply trim_idempotent|].
    destruct (split_pieces (text m) false) as (_ & Hall & _).
    rewrite Forall_forall in Hall. specialize (Hall q Hq).
    intros Hb. apply has_blank_line_decided in Hb.
    destruct (trim_infix q) as (a & b & E). rewrite E in Hall.
    apply no_blank_line_infix in Hall. congruence.
  - intros -> Hnb.
    assert (H : no_blank_line (text m) = true).
    { destruct (no_blank_line (text m)) eqn:E; [reflexivity|].
      exfalso. apply Hnb. apply has_blank_line_decided. exact E. }
    rewrite (split_without_blank_line _ H). simpl.
    destruct (nonempty (trim (text m))); reflexivity.
  - intros a b n -> Ht Hn Ha Hl Hb. cbn [role text]. rewrite Ht.
    assert (H : no_blank_line a = true).
    { destruct (no_blank_line a) eqn:E; [reflexivity|].
      exfalso. apply Ha. apply has_blank_line_decided. exact E. }
    destruct n as [|[|n]]; [lia | lia |].
    rewrite (split_at_run a b n H Hl Hb). cbn [map filter].
    destruct (nonempty (trim a)); reflexivity.
Qed.

(** The sample message of two paragraphs. *)
Lemma rendered_parts_witness :
  parts Samples.two_paragraphs
  = [ js "First."; js "Second," ++ [10%N] ++ js "still second." ].
Proof.
  destruct (rendered_parts Samples.two_paragraphs) as (_ & _ & _ & H).
  rewrite (H (js "First.") (js " Second," ++ [10%N] ++ js "still second. ") 3%nat).
  - destruct (rendered_parts
                {| role := assistant;
                   text := js " Second," ++ [10%N] ++ js "still second. " |})
      as (_ & _ & H3 & _).
    rewrite H3.
    + vm_compute. reflexivity.
    + reflexivity.
    + intros Hb. apply has_blank_line_decided in Hb. vm_compute in Hb. discriminate Hb.
  - reflexivity.
  - vm_compute. reflexivity.
  - lia.
  - intros Hb. apply has_blank_line_decided in Hb. vm_compute in Hb. discriminate Hb.
  - vm_compute. discriminate.
  - vm_compute. discriminate.
Defined.

End Rendering.

(* ===================================================================== *)
(** * The analysis and its columns                                       *)
(* ===================================================================== *)

Module Analysing.
Import JS App UI Wire.

Section Dynamic.
Context {engine : Engine}.

Lemma numbered_any_strings (l : list jsstring) (i : N) :
  numbered_any i (map JString l) = inr (numbered i l).
Proof.
  revert i. induction l as [|s l IH]; intros i; [reflexivity|].
  simpl. rewrite IH. reflexivity.
Qed.

Lemma numbered_any_scalars (l : list JSON) (i : N) :
  Forall (fun v => scalar v = true) l -> exists lines, numbered_any i l = inr lines.
Proof.
  intros H. revert i. induction H as [|v l Hv _ IH]; intros i; [simpl; eauto|].
  simpl. apply ServerEdges.ToString_scalar in Hv.
  destruct (ToString v) as [s|]; [|contradiction].
  destruct (IH (i + 1)%N) as (lines & ->). eauto.
Qed.

Lemma buildContextBase_any_nonempty (data : JSON) (t i ctx : jsstring) :
  buildContextBase_any data t i = inr ctx -> nonempty ctx = true.
Proof.
  unfold buildContextBase_any.
  destruct data; try discriminate;
    destruct (followup_lines _); try discriminate;
    destruct (join_element _); try discriminate;
    intros E; inversion E; reflexivity.
Qed.

(** X19. On data that has the declared type - a string [summary] and a
    [followups] that is a list of strings or is missing - what
    [buildContextBase] does at run time on the unvalidated reply is what it
    does at its declared type: it does not throw and builds the same
    text. *)
Theorem buildContextBase_at_declared_type (data : JSON) (r : ApiResult)
    (perspectiveTitle perspectiveInstruction : jsstring) :
  represents data r ->
  buildContextBase_any data perspectiveTitle perspectiveInstruction
  = inr (buildContextBase r perspectiveTitle perspectiveInstruction).
Proof.
  intros (Hs & Hf). unfold buildContextBase_any, buildContextBase.
  assert (Hlines : followup_lines (getProp data (js "followups"))
                   = inr (numbered 0 (match followups r with
                                      | Some l => l
                                      | None => []
                                      end))).
  { destruct (followups r) as [l|]; rewrite Hf; unfold followup_lines; cbn [truthy].
    - apply numbered_any_strings.
    - reflexivity. }
  destruct data; try (simpl in Hs; discriminate Hs);
    rewrite Hlines, Hs; reflexivity.
Qed.

(** X20. What the unvalidated reply may lack or get wrong.  The builder
    throws on [null] and on a [followups] that is truthy but not an array;
    it does not throw when [followups] is missing, falsy or an array of
    strings, numbers, booleans and [null]s and [summary] is missing or one
    of those, and the context it builds is never empty. *)
Theorem buildContextBase_tolerance (data : JSON)
    (perspectiveTitle perspectiveInstruction : jsstring) :
  (data = JNull ->
   buildContextBase_any data perspectiveTitle perspectiveInstruction
   = inl (NullProperty (js "summary"))) /\
  (data <> JNull ->
   truthy (getProp data (js "followups")) = true ->
   (forall l, getProp data (js "followups") <> Some (JArray l)) ->
   buildContextBase_any data perspectiveTitle perspectiveInstruction
   = inl (NotCallable (js "map"))) /\
  (data <> JNull ->
   (truthy (getProp data (js "followups")) = false \/
    exists l, getProp data (js "followups") = Some (JArray l) /\
              Forall (fun v => scalar v = true) l) ->
   match getProp data (js "summary") with
   | Some v => scalar v = true
   | None => True
   end ->
   exists ctx,
     buildContextBase_any data perspectiveTitle perspectiveInstruction = inr ctx /\
     nonempty ctx = true).
Proof.
  split; [|split].
  - intros ->. reflexivity.
  - intros Hn Ht Hna. unfold buildContextBase_any.
    assert (Hl : followup_lines (getProp data (js "followups")) = inl (NotCallable (js "map"))).
    { unfold followup_lines. rewrite Ht.
      destruct (getProp data (js "followups")) as [[| | | | l |]|]; try reflexivity.
      exfalso. apply (Hna l). reflexivity. }
    destruct data; try (exfalso; apply Hn; reflexivity); rewrite Hl; reflexivity.
  - intros Hn Hf Hs.
    assert (Hl : exists lines, followup_lines (getProp data (js "followups")) = inr lines).
    { unfold followup_lines. destruct Hf as [Hf | (l & Hf & Hall)].
      - rewrite Hf. eauto.
      - rewrite Hf. cbn [truthy]. apply numbered_any_scalars. exact Hall. }
    destruct Hl as (lines & Hl).
    assert (Hj : exists sm, join_element (getProp data (js "summary")) = inr sm).
    { unfold join_element. destruct (getProp data (js "summary")) as [v|]; [|eauto].
      apply ServerEdges.ToString_scalar in Hs.
      destruct v; eauto; destruct (ToString _); eauto; contradiction. }
    destruct Hj as (sm & Hj).
    assert (E : exists ctx,
               buildContextBase_any data perspectiveTitle perspectiveInstruction = inr ctx).
    { unfold buildContextBase_any.
      destruct data; try (exfalso; apply Hn; reflexivity); rewrite Hl, Hj; eauto. }
    destruct E as (ctx & E). exists ctx. split; [exact E|].
    eapply buildContextBase_any_nonempty. exact E.
Qed.

Lemma nextCols_one (uid : nat -> jsstring) (data : JSON) :
  match nextCols uid data with
  | inl site =>
      buildContextBase_any data (js "Explain")
        (js "Explain clearly and concretely. Prefer step-by-step reasoning and local evidence from the screenshot.")
      = inl site
  | inr cols =>
      exists ctx,
        buildContextBase_any data (js "Explain")
          (js "Explain clearly and concretely. Prefer step-by-step reasoning and local evidence from the screenshot.")
        = inr ctx /\
        cols = [ {| id := uid 0%nat; title := js "Explain"; contextBase := ctx;
                    chat := []; input := []; loading := false |} ]
  end.
Proof.
  unfold nextCols, DEFAULT_PERSPECTIVES. cbn [nextCols_from].
  destruct (buildContextBase_any data _ _) as [site|ctx]; [reflexivity|].
  exists ctx. split; reflexivity.
Qed.

(** The ways [onMouseUp_resume] can end. *)
Lemma analysis_cases (crop : CropResult) (fetched : FetchOutcome)
    (uid : nat -> jsstring) (s : Screen) :
  let s' := onMouseUp_resume crop fetched uid s in
  analyzing s' = false /\
  reqSeq (app s') = reqSeq (app s) /\
  dragging s' = dragging s /\ start s' = start s /\ end_ s' = end_ s /\
  (columns (app s') = columns (app s) \/
   exists capture d status raw data ctx,
     crop = DataURL capture d /\ fetched = Responded status raw /\
     ok status = true /\
     (if nonempty raw then JSON_parse raw else Some JNull) = Some data /\
     buildContextBase_any data (js "Explain")
       (js "Explain clearly and concretely. Prefer step-by-step reasoning and local evidence from the screenshot.")
     = inr ctx /\
     result s' = data /\ error (app s') = error (app s) /\
     columns (app s')
     = [ {| id := uid 0%nat; title := js "Explain"; contextBase := ctx;
            chat := []; input := []; loading := false |} ]).
Proof.
  intros s'. subst s'. unfold onMouseUp_resume, analysis_failed.
  destruct crop as [m | capture d]; [repeat split; left; reflexivity|].
  destruct fetched as [status raw | m]; [|repeat split; left; reflexivity].
  destruct (if nonempty raw then JSON_parse raw else Some JNull) as [data|] eqn:Hp;
    [|repeat split; left; reflexivity].
  destruct (negb (ok status)) eqn:Hok; [repeat split; left; reflexivity|].
  apply negb_false_iff in Hok.
  pose proof (nextCols_one uid data) as Hn.
  destruct (nextCols uid data) as [site | cols]; [repeat split; left; reflexivity|].
  destruct Hn as (ctx & Hb & ->).
  repeat split. right.
  exists capture, d, status, raw, data, ctx. repeat split; auto.
Qed.

(** X21. How an analysis ends.  It always leaves [analyzing] off and never
    touches the request counter or the selection.  Either it fails and
    every column and conversation is kept as it was, or the screenshot was
    taken, the reply had an ok status and parsed, and the context could be
    built: then the reply becomes the result, the error text is kept, and
    all columns are replaced by a single fresh column titled "Explain". *)
Theorem analysis_outcome (crop : CropResult) (fetched : FetchOutcome)
    (uid : nat -> jsstring) (s : Screen) :
  let s' := onMouseUp_resume crop fetched uid s in
  analyzing s' = false /\
  reqSeq (app s') = reqSeq (app s) /\
  dragging s' = dragging s /\ start s' = start s /\ end_ s' = end_ s /\
  (columns (app s') = columns (app s) \/
   exists capture d status raw data ctx,
     crop = DataURL capture d /\ fetched = Responded status raw /\
     ok status = true /\
     (if nonempty raw then JSON_parse raw else Some JNull) = Some data /\
     buildContextBase_any data (js "Explain")
       (js "Explain clearly and concretely. Prefer step-by-step reasoning and local evidence from the screenshot.")
     = inr ctx /\
     result s' = data /\ error (app s') = error (app s) /\
     columns (app s')
     = [ {| id := uid 0%nat; title := js "Explain"; contextBase := ctx;
            chat := []; input := []; loading := false |} ]).
Proof. apply analysis_cases. Qed.

End Dynamic.

(** The sample analysis and its JSON. *)
Lemma buildContextBase_at_declared_type_witness :
  @buildContextBase_any Examples.sample_engine Samples.analysis_json (js "Explain")
    (js "Be concrete.")
  = inr (buildContextBase Samples.analysis (js "Explain") (js "Be concrete.")).
Proof.
  apply (@buildContextBase_at_declared_type Examples.sample_engine
           Samples.analysis_json Samples.analysis).
  split; reflexivity.
Defined.

(** A reply that is an empty object. *)
Lemma buildContextBase_tolerance_witness :
  exists ctx,
    @buildContextBase_any Examples.sample_engine (JObject []) (js "Explain")
      (js "Be concrete.") = inr ctx /\
    nonempty ctx = true.
Proof.
  apply (@buildContextBase_tolerance Examples.sample_engine (JObject []) (js "Explain")
           (js "Be concrete.")).
  - discriminate.
  - left. reflexivity.
  - exact I.
Defined.

End Analysing.

(* ===================================================================== *)
(** * What holds throughout a session                                    *)
(* ===================================================================== *)

Module Sessions.
Import JS App UI Strings Wire.

Lemma continues_refl (c : Column) : continues c c.
Proof. repeat split. exists []. symmetry. apply app_nil_r. Qed.

Lemma continues_trans (c1 c2 c3 : Column) :
  continues c1 c2 -> continues c2 c3 -> continues c1 c3.
Proof.
  intros (Hi & Ht & Hc & (r1 & E1)) (Hi' & Ht' & Hc' & (r2 & E2)).
  repeat split; try congruence.
  exists (r1 ++ r2). rewrite E2, E1, app_assoc. reflexivity.
Qed.

Lemma Forall2_continues_refl (cols : list Column) : Forall2 continues cols cols.
Proof. induction cols; constructor; auto using continues_refl. Qed.

Lemma Forall2_continues_trans (l1 l2 l3 : list Column) :
  Forall2 continues l1 l2 -> Forall2 continues l2 l3 -> Forall2 continues l1 l3.
Proof.
  intros H12. revert l3. induction H12; intros l3 H23; inversion H23; subst;
    constructor; eauto using continues_trans.
Qed.

Lemma inColumn_continues (colId : jsstring) (g : Column -> Column) (cols : list Column) :
  (forall c, continues c (g c)) -> Forall2 continues cols (inColumn colId g cols).
Proof.
  intros Hg. unfold inColumn. induction cols as [|c cols IH]; simpl; constructor; auto.
  destruct (str_eqb (id c) colId); [apply Hg | apply continues_refl].
Qed.

Lemma optimistic_continues q c : continues c (optimistic q c).
Proof. repeat split. eexists. reflexivity. Qed.

Lemma stopLoading_continues c : continues c (stopLoading c).
Proof. repeat split. exists []. symmetry. apply app_nil_r. Qed.

Lemma answered_continues a c : continues c (answered a c).
Proof. repeat split. eexists. reflexivity. Qed.

Lemma extends_same (cols cols' : list Column) :
  Forall2 continues cols cols' -> extends cols cols'.
Proof. intros H. exists cols', []. rewrite app_nil_r. auto. Qed.

Lemma askInColumn_continues closure colId text st :
  Forall2 continues (columns st) (columns (fst (askInColumn closure colId text st))).
Proof.
  unfold askInColumn.
  destruct (nonempty (trim text)); cbn [negb fst]; [|apply Forall2_continues_refl].
  destruct (find _ closure); cbn [fst columns setColumns bumpReqSeq setError].
  - apply inColumn_continues, optimistic_continues.
  - eapply Forall2_continues_trans;
      [apply inColumn_continues, optimistic_continues
      |apply inColumn_continues, stopLoading_continues].
Qed.

Section Acting.
Context {engine : Engine}.

Lemma resume_continues p o st :
  Forall2 continues (columns st) (columns (askInColumn_resume p o st)).
Proof.
  unfold askInColumn_resume.
  destruct (try_block p o st); cbn [columns setColumns setError].
  - apply inColumn_continues, stopLoading_continues.
  - apply Forall2_continues_refl.
  - apply inColumn_continues, answered_continues.
Qed.

(** What a handler other than those of a finished analysis, Remove and
    Clear does to the columns: it keeps and continues them, and touches
    neither the result nor the mounting, unless it is [addPerspective] with
    a builder that throws. *)
Lemma handle_grows (s : Screen) (a : Action) :
  drops_columns a = false ->
  (extends (columns (app s)) (columns (app (handle s a))) /\
   mounted (handle s a) = mounted s /\ result (handle s a) = result s) \/
  (handle s a = unmount s /\
   exists uid site,
     a = ClickAddPerspective uid /\ truthy (Some (result s)) = true /\
     buildContextBase_any (result s)
       (js "Perspective " ++ N_toString (N.of_nat (List.length (columns (app s))) + 1))
       (js "Provide a different helpful angle. Be concrete. Use the screenshot context, not generic talk.")
     = inl site).
Proof.
  destruct a; cbn [drops_columns]; try discriminate; intros _; cbn [handle].
  - left. unfold onMouseDown.
    destruct (negb _); [|destruct el];
      (split; [apply extends_same, Forall2_continues_refl | split; reflexivity]).
  - left. unfold onMouseMove.
    destruct el; [destruct (negb _)|];
      (split; [apply extends_same, Forall2_continues_refl | split; reflexivity]).
  - left. unfold onMouseUp.
    destruct (negb (dragging s));
      [split; [apply extends_same, Forall2_continues_refl | split; reflexivity]|].
    destruct (negb _);
      [split; [apply extends_same, Forall2_continues_refl | split; reflexivity]|].
    destruct el;
      [|split; [apply extends_same, Forall2_continues_refl | split; reflexivity]].
    destruct (rect s) as [r|];
      [|split; [apply extends_same, Forall2_continues_refl | split; reflexivity]].
    destruct (tooSmall r);
      (split; [apply extends_same, Forall2_continues_refl | split; reflexivity]).
  - left. unfold onAsk.
    pose proof (askInColumn_continues (columns (app s)) (id c) (input c) (app s)) as H.
    destruct (askInColumn (columns (app s)) (id c) (input c) (app s)).
    split; [apply extends_same; exact H | split; reflexivity].
  - left. unfold onAskText.
    pose proof (askInColumn_continues (columns (app s)) (id c) t (app s)) as H.
    destruct (askInColumn (columns (app s)) (id c) t (app s)).
    split; [apply extends_same; exact H | split; reflexivity].
  - left. unfold followupClick.
    destruct (followupTarget (columns (app s))) as [c|];
      [|split; [apply extends_same, Forall2_continues_refl | split; reflexivity]].
    pose proof (askInColumn_continues (columns (app s)) (id c) t (app s)) as H.
    destruct (askInColumn (columns (app s)) (id c) t (app s)).
    split; [apply extends_same; exact H | split; reflexivity].
  - left. split; [|split; reflexivity].
    apply extends_same. cbn [withApp app]. apply resume_continues.
  - unfold addPerspective.
    destruct (truthy (Some (result s))) eqn:Ht; cbn [negb];
      [|left; split; [apply extends_same, Forall2_continues_refl | split; reflexivity]].
    destruct (buildContextBase_any _ _ _) as [site|ctx] eqn:Hb.
    + right. split; [reflexivity|]. exists uid, site. auto.
    + left. split; [|split; reflexivity].
      cbn [withApp app setColumns columns].
      eexists. eexists. split; [reflexivity | apply Forall2_continues_refl].
  - left. split; [|split; reflexivity].
    apply extends_same. cbn [onChangeInput withApp app setColumns columns].
    induction (columns (app s)) as [|x l IH]; simpl; constructor; auto.
    destruct (str_eqb (id x) (id c)); [|apply continues_refl].
    repeat split. exists []. symmetry. apply app_nil_r.
Qed.

(** X22. While the component is mounted, no handler other than those of
    a finished analysis, Remove and Clear takes anything away, with one
    exception.  The exception is a click on "+ Column" when
    [buildContextBase] throws on the stored result: the exception escapes
    from the state updater into React's render, and the whole component is
    unmounted.  That is the only way such an action unmounts it; after any
    other, every column is still there, in its place, with the same id,
    title and context, and its chat begins with the chat it had: messages
    are only ever added at the end, and columns only at the end of the
    list. *)
Theorem chats_only_grow (s : Screen) (a : Action) :
  mounted s = true ->
  drops_columns a = false ->
  (mounted (act s a) = false
   <-> exists uid site,
         a = ClickAddPerspective uid /\ truthy (Some (result s)) = true /\
         buildContextBase_any (result s)
           (js "Perspective " ++ N_toString (N.of_nat (List.length (columns (app s))) + 1))
           (js "Provide a different helpful angle. Be concrete. Use the screenshot context, not generic talk.")
         = inl site) /\
  (mounted (act s a) = true ->
   extends (columns (app s)) (columns (app (act s a)))).
Proof.
  intros Hm Hd. unfold act. rewrite Hm.
  destruct (handle_grows s a Hd) as [(He & Hm' & _) | (E & Hthrows)].
  - rewrite Hm', Hm. split; [|intros _; exact He]. split; [discriminate|].
    intros (uid & site & -> & Ht & Hb). exfalso.
    cbn [handle] in Hm'. unfold addPerspective in Hm'.
    rewrite Ht, Hb in Hm'. cbn [negb mounted unmount] in Hm'. congruence.
  - rewrite E. split; [|intros H; discriminate H].
    split; [intros _; exact Hthrows | reflexivity].
Qed.

(** ** Invariants of the columns *)

Section Invariant.
Variable P : Column -> Prop.
Hypothesis P_optimistic : forall q c, P c -> P (optimistic q c).
Hypothesis P_stopLoading : forall c, P c -> P (stopLoading c).
Hypothesis P_answered : forall a c, P c -> P (answered a c).
Hypothesis P_input :
  forall v c, P c -> P {| id := id c; title := title c; contextBase := contextBase c;
                          chat := chat c; input := v; loading := loading c |}.
Hypothesis P_fresh :
  forall uid t ctx, nonempty ctx = true ->
                    P {| id := uid; title := t; contextBase := ctx;
                         chat := []; input := []; loading := false |}.

Lemma inColumn_keeps colId g cols :
  (forall c, P c -> P (g c)) -> Forall P cols -> Forall P (inColumn colId g cols).
Proof.
  intros Hg H. unfold inColumn. induction H as [|c l Hc _ IH]; simpl; constructor; auto.
  destruct (str_eqb (id c) colId); auto.
Qed.

Lemma askInColumn_keeps closure colId text st :
  Forall P (columns st) -> Forall P (columns (fst (askInColumn closure colId text st))).
Proof.
  intros H. unfold askInColumn.
  destruct (nonempty (trim text)); cbn [negb fst]; [|exact H].
  destruct (find _ closure); cbn [fst columns setColumns bumpReqSeq setError].
  - apply inColumn_keeps; auto.
  - apply inColumn_keeps; auto. apply inColumn_keeps; auto.
Qed.

Lemma act_keeps (s : Screen) (a : Action) :
  Forall P (columns (app s)) -> Forall P (columns (app (act s a))).
Proof.
  intros H. destruct (Replies.act_cases s a) as [E | E]; rewrite E; [|exact H].
  clear E. destruct a; cbn [handle]; try rewrite Replies.rendered_columns.
  - unfold onMouseDown. destruct (negb _); [exact H|]. destruct el; exact H.
  - unfold onMouseMove. destruct el; [|exact H]. destruct (negb _); exact H.
  - unfold onMouseUp.
    destruct (negb (dragging s)); [exact H|].
    destruct (negb _); [exact H|].
    destruct el; [|exact H].
    destruct (rect s) as [r|]; [|exact H].
    destruct (tooSmall r); exact H.
  - destruct (Analysing.analysis_cases crop fetched uid s)
      as (_ & _ & _ & _ & _ & [E | (cap & d & st & raw & data & ctx & _ & _ & _ & _ & Hb & _ & _ & E)]).
    + rewrite E. exact H.
    + rewrite E. constructor; [|constructor]. apply P_fresh.
      eapply Analysing.buildContextBase_any_nonempty. exact Hb.
  - unfold onAsk.
    pose proof (askInColumn_keeps (columns (app s)) (id c) (input c) (app s) H) as H'.
    destruct (askInColumn (columns (app s)) (id c) (input c) (app s)). exact H'.
  - unfold onAskText.
    pose proof (askInColumn_keeps (columns (app s)) (id c) t (app s) H) as H'.
    destruct (askInColumn (columns (app s)) (id c) t (app s)). exact H'.
  - unfold followupClick.
    destruct (followupTarget (columns (app s))) as [c|]; [|exact H].
    pose proof (askInColumn_keeps (columns (app s)) (id c) t (app s) H) as H'.
    destruct (askInColumn (columns (app s)) (id c) t (app s)). exact H'.
  - cbn [withApp app]. unfold askInColumn_resume.
    destruct (try_block p o (app s)); cbn [columns setColumns setError];
      try exact H; apply inColumn_keeps; auto.
  - unfold addPerspective.
    destruct (negb (truthy (Some (result s)))); [exact H|].
    destruct (buildContextBase_any _ _ _) as [site|ctx] eqn:Hb; [exact H|].
    cbn [withApp app setColumns columns].
    apply Forall_app. split; [exact H|]. constructor; [|constructor].
    apply P_fresh. eapply Analysing.buildContextBase_any_nonempty. exact Hb.
  - cbn [onChangeInput withApp app setColumns columns].
    induction H as [|x l Hx _ IH]; simpl; constructor; auto.
    destruct (str_eqb (id x) (id c)); auto.
  - cbn [onRemove withApp app setColumns columns].
    apply Forall_forall. intros x Hx. apply filter_In in Hx.
    rewrite Forall_forall in H. apply H. tauto.
  - constructor.
Qed.

Lemma session_keeps (actions : list Action) : Forall P (columns (app (session actions))).
Proof.
  unfold session.
  assert (H : forall s, Forall P (columns (app s)) ->
                        Forall P (columns (app (fold_left act actions s)))).
  { induction actions as [|a l IH]; intros s Hs; [exact Hs|].
    simpl. apply IH. apply act_keeps. exact Hs. }
  apply H. constructor.
Qed.

End Invariant.

(** ** A mounted screen renders *)

(** The handlers that do not end an analysis leave [result] alone, or
    clear it. *)
Lemma handle_result (s : Screen) (a : Action) :
  (forall crop fetched uid, a <> Analysed crop fetched uid) ->
  handle s a = unmount s \/ result (handle s a) = result s \/ result (handle s a) = JNull.
Proof.
  intros Ha. destruct (drops_columns a) eqn:Hd.
  - destruct a; try discriminate Hd.
    + exfalso. apply (Ha crop fetched uid). reflexivity.
    + right. left. reflexivity.
    + right. right. reflexivity.
  - destruct (handle_grows s a Hd) as [(_ & _ & Hr) | (E & _)]; auto.
Qed.

Lemma act_renders (s : Screen) (a : Action) :
  (mounted s = true -> renders (result s) = true) ->
  mounted (act s a) = true -> renders (result (act s a)) = true.
Proof.
  intros Hs. unfold act. destruct (mounted s) eqn:Hm; [|congruence].
  specialize (Hs eq_refl).
  assert (Hcase : (exists crop fetched uid, a = Analysed crop fetched uid) \/
                  (forall crop fetched uid, a <> Analysed crop fetched uid))
    by (destruct a; try (right; discriminate); left; eauto).
  destruct Hcase as [(crop & fetched & uid & ->) | Hna].
  - cbn [handle]. unfold rendered.
    destruct (renders (result (onMouseUp_resume crop fetched uid s))) eqn:Hr;
      [auto | intros H; discriminate H].
  - destruct (handle_result s a Hna) as [E | [E | E]]; rewrite E.
    + intros H. discriminate H.
    + intros _. exact Hs.
    + intros _. reflexivity.
Qed.

Lemma session_renders (actions : list Action) :
  mounted (session actions) = true -> renders (result (session actions)) = true.
Proof.
  unfold session.
  assert (H : forall s, (mounted s = true -> renders (result s) = true) ->
                        mounted (fold_left act actions s) = true ->
                        renders (result (fold_left act actions s)) = true).
  { induction actions as [|a l IH]; intros s Hs; [exact Hs|].
    simpl. apply IH. apply act_renders. exact Hs. }
  apply H. reflexivity.
Qed.

(** X23. Throughout any session, a column that shows the loading state
    has a question of the user as the last message of its chat. *)
Theorem loading_column_awaits_answer (actions : list Action) :
  Forall awaits_answer (columns (app (session actions))).
Proof.
  apply session_keeps; unfold awaits_answer.
  - intros q c _ _. exists (chat c), q. reflexivity.
  - intros c _. discriminate.
  - intros a c _. discriminate.
  - intros v c H. exact H.
  - intros uid t ctx _. discriminate.
Qed.

(** X24. Throughout any session, every column on the screen has a
    non-empty context, so a question asked from a column is never refused
    by [/api/chat]: the handler passes validation and calls the model. *)
Theorem session_questions_reach_model (actions : list Action) (c : Column) (t : jsstring) :
  In c (columns (app (session actions))) ->
  nonempty (trim t) = true ->
  nonempty (contextBase c) = true /\
  exists p rq,
    snd (onAskText c t (session actions)) = Some p /\
    Server.chat (Some (ChatRequest_json (request p)))
    = Server.CallModel rq Server.after_call.
Proof.
  intros Hin Hq.
  assert (Hctx : Forall (fun c => nonempty (contextBase c) = true)
                        (columns (app (session actions)))).
  { apply session_keeps; auto. }
  split; [rewrite Forall_forall in Hctx; apply Hctx; exact Hin|].
  destruct (Replies.find_by_id c _ Hin) as (c0 & Hf & _ & _).
  unfold onAskText.
  destruct (askInColumn (columns (app (session actions))) (id c) t (app (session actions)))
    as [a pend] eqn:Hask.
  assert (Hp : exists p, pend = Some p).
  { unfold askInColumn in Hask. rewrite Hq in Hask. cbn [negb] in Hask.
    rewrite Hf in Hask. inversion Hask. eauto. }
  destruct Hp as (p & ->).
  destruct (EndToEnd.posted_question_with_context _ _ _ _ _ _ Hask Hctx)
    as (rq & _ & Hcall & _).
  exists p, rq. split; [reflexivity | exact Hcall].
Qed.

End Acting.

(** The analysis whose fifth follow-up has no string conversion: the HUD
    shows it, with the error of the column that could not be built, and
    "+ Column" takes the component off the page. *)
Lemma chats_only_grow_witness :
  mounted (@session Examples.sample_engine Samples.odd_session) = true /\
  error (app (@session Examples.sample_engine Samples.odd_session))
  = js "Cannot convert object to primitive value" /\
  mounted (@act Examples.sample_engine
             (@session Examples.sample_engine Samples.odd_session)
             (ClickAddPerspective (js "c2"))) = false.
Proof.
  split; [vm_compute; reflexivity|]. split; [vm_compute; reflexivity|].
  destruct (@chats_only_grow Examples.sample_engine
              (@session Examples.sample_engine Samples.odd_session)
              (ClickAddPerspective (js "c2"))) as (H & _).
  - vm_compute. reflexivity.
  - reflexivity.
  - apply H. exists (js "c2"), NotPrimitive.
    split; [reflexivity|]. split; vm_compute; reflexivity.
Defined.

(** The column of the sample session. *)
Lemma session_questions_reach_model_witness :
  exists p rq,
    snd (onAskText
           {| id := js "c1"; title := js "Explain";
              contextBase := buildContextBase Samples.analysis (js "Explain")
                (js "Explain clearly and concretely. Prefer step-by-step reasoning and local evidence from the screenshot.");
              chat := [ {| role := user; text := js "Which variable?" |} ];
              input := []; loading := true |}
           (js "Give me a concrete next step.")
           (@session Examples.sample_engine Samples.a_session)) = Some p /\
    @Server.chat Examples.sample_engine (Some (ChatRequest_json (request p)))
    = Server.CallModel rq Server.after_call.
Proof.
  apply (@session_questions_reach_model Examples.sample_engine Samples.a_session).
  - vm_compute. left. reflexivity.
  - vm_compute. reflexivity.
Defined.

End Sessions.

(* ===================================================================== *)
(** * Cleaning the answer                                                *)
(* ===================================================================== *)

Module Cleaning.
Import JS.

Lemma unescape_cons (c : N) (r : jsstring) :
  unescape_newlines (c :: r)
  = match r with
    | d :: r' => if (c =? 92)%N && (d =? 110)%N then 10%N :: unescape_newlines r'
                 else c :: unescape_newlines r
    | [] => [c]
    end.
Proof.
  destruct (N.eqb_spec c 92) as [-> | Hc].
  - destruct r as [|d r']; [reflexivity|].
    destruct (N.eqb_spec d 110) as [-> | Hd]; [reflexivity|].
    cbn [andb N.eqb Pos.eqb].
    destruct d as [|p]; [reflexivity|].
    do 7 (destruct p as [p|p|]; try reflexivity).
    exfalso. apply Hd. reflexivity.
  - cbn [andb].
    destruct c as [|p]; [destruct r; reflexivity|].
    do 7 (destruct p as [p|p|]; try (destruct r; reflexivity)).
    exfalso. apply Hc. reflexivity.
Qed.

Lemma unescape_head (r : jsstring) :
  match unescape_newlines r with d :: _ => d = 110%N | [] => False end ->
  match r with d :: _ => d = 110%N | [] => False end.
Proof.
  destruct r as [|c r]; [simpl; auto|].
  rewrite unescape_cons. destruct r as [|d r']; [simpl; auto|].
  destruct ((c =? 92)%N && (d =? 110)%N); simpl; [discriminate | auto].
Qed.

Lemma unescape_bounded (n : nat) :
  forall s, (List.length s <= n)%nat ->
            (forall a b, unescape_newlines s <> a ++ [92%N; 110%N] ++ b) /\
            (List.length (unescape_newlines s) <= List.length s)%nat.
Proof.
  induction n as [|n IH]; intros s Hn.
  - destruct s; [|simpl in Hn; lia]. split; [|simpl; lia].
    intros [|x a] b; discriminate.
  - destruct s as [|c r]; [split; [intros [|x a] b; discriminate | simpl; lia]|].
    simpl in Hn. rewrite unescape_cons.
    destruct r as [|d r'].
    + split; [|simpl; lia]. intros [|x [|y a]] b; discriminate.
    + destruct ((c =? 92)%N && (d =? 110)%N) eqn:Hm.
      * destruct (IH r') as (Hno & Hlen); [simpl in Hn; lia|].
        split; [|simpl in *; lia].
        intros [|x a] b E; [discriminate E|].
        inversion E as [[Ex Ea]]. exact (Hno a b Ea).
      * destruct (IH (d :: r')) as (Hno & Hlen); [lia|].
        split; [|simpl in *; lia].
        intros [|x a] b E.
        -- cbn [app] in E. injection E as Ec Er. subst c.
           assert (Er' : unescape_newlines (d :: r') = 110%N :: b) by exact Er.
           pose proof (unescape_head (d :: r')) as Hh. rewrite Er' in Hh.
           specialize (Hh eq_refl). cbn in Hh. subst d. discriminate Hm.
        -- inversion E as [[Ex Ea]]. exact (Hno a b Ea).
Qed.

(** X25. After the cleaning of an answer no backslash followed by [n] is
    left in it, the text has not grown, and a text without such a pair is
    returned as it is. *)
Theorem unescape_newlines_leaves_none (s : jsstring) :
  (forall a b, unescape_newlines s <> a ++ [92%N; 110%N] ++ b) /\
  (List.length (unescape_newlines s) <= List.length s)%nat /\
  ((forall a b, s <> a ++ [92%N; 110%N] ++ b) -> unescape_newlines s = s).
Proof.
  destruct (unescape_bounded (List.length s) s (le_n _)) as (H1 & H2).
  split; [exact H1|]. split; [exact H2|].
  clear H1 H2. induction s as [|c r IH]; intros Hno; [reflexivity|].
  rewrite unescape_cons. destruct r as [|d r']; [reflexivity|].
  destruct ((c =? 92)%N && (d =? 110)%N) eqn:Hm.
  - apply andb_true_iff in Hm. destruct Hm as (Hc & Hd).
    apply N.eqb_eq in Hc, Hd. subst. exfalso. apply (Hno [] r'). reflexivity.
  - f_equal. apply IH. intros a b E. apply (Hno (c :: a) b). rewrite E. reflexivity.
Qed.

(** An answer without escapes. *)
Lemma unescape_newlines_leaves_none_witness :
  unescape_newlines (js "ab") = js "ab".
Proof.
  apply (unescape_newlines_leaves_none (js "ab")).
  intros [|x [|y [|z a]]] b; discriminate.
Defined.

End Cleaning.
